(** * Bulk sender: recipient resolution, dispatch loop, group extraction

    A shallow embedding of [index.js]: the recipient parsers
    ([parsePhoneNumbers], [extractNumbersFromExcel], [validatePhoneNumber]),
    the session gateway ([sendMessage]), the directory extractor
    ([extractGroupContacts]), the spreadsheet exporter ([generateExcelFile])
    and the [POST /api/send] handler with its dispatch loop.

    JavaScript strings are modelled as [string], read as a sequence of
    code units below 256.  JavaScript numbers are modelled by exact
    rationals extended with NaN and the two infinities; binary rounding is
    not modelled.  Calls into the messaging client, the timer and the
    random source are answered by an environment that may look at
    everything that happened before. *)

From Stdlib Require Import List Bool Arith ZArith QArith Qround Lia.
From Stdlib Require Import Ascii String DecimalString.
Import ListNotations.

Local Open Scope string_scope.
Local Open Scope list_scope.

(* ------------------------------------------------------------------ *)
(** ** JavaScript strings *)

Module JsString.

(** [c] is matched by the character class [[0-9]]. *)
Definition isDigit (c : ascii) : bool :=
  let n := nat_of_ascii c in (48 <=? n)%nat && (n <=? 57)%nat.

(** White space and line terminators, as [String.prototype.trim] and the
    string-to-number conversion skip them: TAB, LF, VT, FF, CR, SP and
    NBSP are the ones below 256. *)
Definition isWhiteSpace (c : ascii) : bool :=
  let n := nat_of_ascii c in
  ((9 <=? n)%nat && (n <=? 13)%nat) || (n =? 32)%nat || (n =? 160)%nat.

(** [s.replace(/[^0-9]/g, '')] *)
Fixpoint stripNonDigits (s : string) : string :=
  match s with
  | EmptyString => EmptyString
  | String c r =>
      if isDigit c then String c (stripNonDigits r) else stripNonDigits r
  end.

Definition isEmpty (s : string) : bool :=
  match s with EmptyString => true | _ => false end.

Fixpoint trimStart (s : string) : string :=
  match s with
  | EmptyString => EmptyString
  | String c r => if isWhiteSpace c then trimStart r else s
  end.

Fixpoint trimEnd (s : string) : string :=
  match s with
  | EmptyString => EmptyString
  | String c r =>
      let r' := trimEnd r in
      if isWhiteSpace c && isEmpty r' then EmptyString else String c r'
  end.

(** [s.trim()] *)
Definition trim (s : string) : string := trimEnd (trimStart s).

(** [s.split(sep)] for a separator that matches single characters:
    the pieces between the separators, empty pieces included; the empty
    string splits into one empty piece. *)
Fixpoint splitOn (sep : ascii -> bool) (s : string) : list string :=
  match s with
  | EmptyString => [EmptyString]
  | String c r =>
      if sep c then EmptyString :: splitOn sep r
      else match splitOn sep r with
           | h :: t => String c h :: t
           | [] => [String c EmptyString]
           end
  end.

(** The character class [[\n,]]. *)
Definition isNewlineOrComma (c : ascii) : bool :=
  let n := nat_of_ascii c in (n =? 10)%nat || (n =? 44)%nat.

Definition isAt (c : ascii) : bool := (nat_of_ascii c =? 64)%nat.

(** [s.split('@')[0]] *)
Definition beforeAt (s : string) : string :=
  hd EmptyString (splitOn isAt s).

(** [hay.includes(needle)] *)
Fixpoint includes (needle hay : string) : bool :=
  prefix needle hay ||
  match hay with
  | EmptyString => false
  | String _ r => includes needle r
  end.

(** [parts.join(sep)] *)
Fixpoint join (sep : string) (parts : list string) : string :=
  match parts with
  | [] => EmptyString
  | [p] => p
  | p :: rest => p ++ sep ++ join sep rest
  end.

(** [toLowerCase] on one code unit below 256: A-Z, and the accented
    capitals 192-222 except the multiplication sign 215. *)
Definition lowerChar (c : ascii) : ascii :=
  let n := nat_of_ascii c in
  if ((65 <=? n)%nat && (n <=? 90)%nat)
     || ((192 <=? n)%nat && (n <=? 222)%nat && negb (n =? 215)%nat)
  then ascii_of_nat (n + 32) else c.

Fixpoint toLowerCase (s : string) : string :=
  match s with
  | EmptyString => EmptyString
  | String c r => String (lowerChar c) (toLowerCase r)
  end.

(** Every character of [s] is a decimal digit. *)
Fixpoint allDigits (s : string) : bool :=
  match s with
  | EmptyString => true
  | String c r => isDigit c && allDigits r
  end.

End JsString.

(* ------------------------------------------------------------------ *)
(** ** JavaScript numbers and values *)

Module JsNumber.
Import JsString.

Inductive number : Type :=
| NaN
| PosInf
| NegInf
| Fin (q : Q).

Definition Qltb (x y : Q) : bool :=
  (Qnum x * QDen y <? Qnum y * QDen x)%Z.

Definition Qsign (q : Q) : comparison := (Qnum q ?= 0)%Z.

(** [a > b]; a comparison with NaN is false. *)
Definition gt (a b : number) : bool :=
  match a, b with
  | NaN, _ | _, NaN => false
  | PosInf, PosInf => false
  | PosInf, _ => true
  | NegInf, _ => false
  | Fin _, PosInf => false
  | Fin _, NegInf => true
  | Fin x, Fin y => Qltb y x
  end.

(** [a <= b]; a comparison with NaN is false. *)
Definition le (a b : number) : bool :=
  match a, b with
  | NaN, _ | _, NaN => false
  | _, _ => negb (gt a b)
  end.

Definition neg (a : number) : number :=
  match a with
  | NaN => NaN
  | PosInf => NegInf
  | NegInf => PosInf
  | Fin q => Fin (- q)
  end.

Definition add (a b : number) : number :=
  match a, b with
  | NaN, _ | _, NaN => NaN
  | PosInf, NegInf | NegInf, PosInf => NaN
  | PosInf, _ | _, PosInf => PosInf
  | NegInf, _ | _, NegInf => NegInf
  | Fin x, Fin y => Fin (x + y)
  end.

Definition sub (a b : number) : number := add a (neg b).

Definition mul (a b : number) : number :=
  let inf (s1 s2 : comparison) :=
    match s1, s2 with
    | Eq, _ | _, Eq => NaN
    | Gt, Gt | Lt, Lt => PosInf
    | _, _ => NegInf
    end in
  let sign (x : number) :=
    match x with
    | Fin q => Qsign q
    | NegInf => Lt
    | _ => Gt
    end in
  match a, b with
  | NaN, _ | _, NaN => NaN
  | Fin x, Fin y => Fin (x * y)
  | _, _ => inf (sign a) (sign b)
  end.

(** [Math.floor] *)
Definition floor (a : number) : number :=
  match a with
  | Fin q => Fin (inject_Z (Qfloor q))
  | _ => a
  end.

Definition ofZ (z : Z) : number := Fin (inject_Z z).

(** *** [Number.prototype.toString] on integers

    An integer-valued number below 10^21 in magnitude prints as its
    decimal numeral, with a leading minus sign when negative. *)
Definition integerToString (n : Z) : string :=
  NilZero.string_of_int (Z.to_int n).

(** *** String to number (the [StringNumericLiteral] grammar) *)

Definition hexValue (c : ascii) : option Z :=
  let n := nat_of_ascii c in
  if isDigit c then Some (Z.of_nat (n - 48))
  else if (97 <=? n)%nat && (n <=? 102)%nat then Some (Z.of_nat (n - 87))
  else if (65 <=? n)%nat && (n <=? 70)%nat then Some (Z.of_nat (n - 55))
  else None.

(** The value of [s] read in base [radix], when every character is a
    digit of that base. *)
Fixpoint readRadix (radix : Z) (s : string) (acc : Z) : option Z :=
  match s with
  | EmptyString => Some acc
  | String c r =>
      match hexValue c with
      | Some d => if (d <? radix)%Z then readRadix radix r (acc * radix + d)
                  else None
      | None => None
      end
  end.

(** The longest prefix of digits, and what follows it. *)
Fixpoint spanDigits (s : string) : string * string :=
  match s with
  | EmptyString => (EmptyString, EmptyString)
  | String c r =>
      if isDigit c then let (d, t) := spanDigits r in (String c d, t)
      else (EmptyString, s)
  end.

Definition digitsToZ (s : string) : Z :=
  match readRadix 10 s 0 with Some z => z | None => 0%Z end.

Definition signedDigits (s : string) : option Z :=
  let body sgn r :=
    if isEmpty r || negb (allDigits r) then None
    else Some (sgn * digitsToZ r)%Z in
  match s with
  | String "+"%char r => body 1%Z r
  | String "-"%char r => body (-1)%Z r
  | _ => body 1%Z s
  end.

(** [ExponentPart], which may be absent. *)
Definition parseExponent (s : string) : option Z :=
  match s with
  | EmptyString => Some 0%Z
  | String "e"%char r | String "E"%char r => signedDigits r
  | _ => None
  end.

Definition scale10 (m e : Z) : Q := inject_Z m * Qpower (10 # 1) e.

(** [StrUnsignedDecimalLiteral] *)
Definition parseUnsignedDecimal (s : string) : option number :=
  if String.eqb s "Infinity" then Some PosInf
  else
    let (ip, r1) := spanDigits s in
    match r1 with
    | String "."%char r2 =>
        let (fp, r3) := spanDigits r2 in
        if isEmpty ip && isEmpty fp then None
        else match parseExponent r3 with
             | Some e =>
                 Some (Fin (scale10 (digitsToZ (ip ++ fp))
                                    (e - Z.of_nat (String.length fp))))
             | None => None
             end
    | _ =>
        if isEmpty ip then None
        else match parseExponent r1 with
             | Some e => Some (Fin (scale10 (digitsToZ ip) e))
             | None => None
             end
    end.

(** [NonDecimalIntegerLiteral]: 0x, 0o and 0b numerals, unsigned. *)
Definition parseNonDecimal (s : string) : option Z :=
  let body radix r := if isEmpty r then None else readRadix radix r 0 in
  match s with
  | String "0"%char (String "x"%char r)
  | String "0"%char (String "X"%char r) => body 16%Z r
  | String "0"%char (String "o"%char r)
  | String "0"%char (String "O"%char r) => body 8%Z r
  | String "0"%char (String "b"%char r)
  | String "0"%char (String "B"%char r) => body 2%Z r
  | _ => None
  end.

Definition orNaN (o : option number) : number :=
  match o with Some x => x | None => NaN end.

(** [Number(s)] for a string [s]. *)
Definition StringToNumber (s : string) : number :=
  let t := trim s in
  if isEmpty t then Fin 0
  else match parseNonDecimal t with
       | Some z => ofZ z
       | None =>
           match t with
           | String "+"%char r => orNaN (parseUnsignedDecimal r)
           | String "-"%char r => neg (orNaN (parseUnsignedDecimal r))
           | _ => orNaN (parseUnsignedDecimal t)
           end
       end.

End JsNumber.

Module JsValue.
Import JsString JsNumber.

(** The values a request-body field or a default can hold: absent, a
    number, a text, or a list of texts (a repeated field).  Nested
    objects are not modelled. *)
Inductive Value : Type :=
| Undefined
| Num (x : number)
| Str (s : string)
| Arr (l : list string).

(** Truthiness, as tested by [if (v)] and [!v]. *)
Definition truthy (v : Value) : bool :=
  match v with
  | Undefined => false
  | Num NaN => false
  | Num (Fin q) => negb (Qeq_bool q 0)
  | Num _ => true
  | Str s => negb (isEmpty s)
  | Arr _ => true
  end.

(** [ToNumber]: what an arithmetic operator or a comparison with a
    number makes of the value (an array goes through its [join(',')]). *)
Definition ToNumber (v : Value) : number :=
  match v with
  | Undefined => NaN
  | Num x => x
  | Str s => StringToNumber s
  | Arr l => StringToNumber (join "," l)
  end.

(** A destructuring default: it applies to an absent field only. *)
Definition withDefault (v d : Value) : Value :=
  match v with Undefined => d | _ => v end.

(** *** [Set]: insertion-ordered, compared by string equality. *)
Definition Set_has (s : list string) (x : string) : bool :=
  existsb (String.eqb x) s.

Definition Set_add (s : list string) (x : string) : list string :=
  if Set_has s x then s else s ++ [x].

(** [[...new Set(items)]] *)
Definition uniqueViaSet (items : list string) : list string :=
  fold_left Set_add items [].

End JsValue.


(* ------------------------------------------------------------------ *)
(** ** Spreadsheets and the disk *)

Module Excel.
Import JsString JsNumber.

(** The value of a cell.  A numeric cell is modelled for integer values
    only (a phone number typed as a number); dates, formulas, rich text,
    hyperlinks and error values are objects. *)
Inductive CellValue : Type :=
| CNull
| CString (s : string)
| CNumber (n : Z)
| CBool (b : bool)
| CObject.

(** A row lists the values of its cells from column A on. *)
Definition Row : Type := list CellValue.

(** [row.getCell(1).value] *)
Definition getCell1 (r : Row) : CellValue := hd CNull r.

Definition isNull (v : CellValue) : bool :=
  match v with CNull => true | _ => false end.

(** [row.hasValues] *)
Definition hasValues (r : Row) : bool := existsb (fun v => negb (isNull v)) r.

Record Worksheet : Type := {
  sheetId : nat;
  sheetName : string;
  (** rows 1, 2, ... of the sheet; a row without values is an empty list *)
  sheetRows : list Row
}.

(** The worksheets of a workbook, in tab order. *)
Definition Workbook : Type := list Worksheet.

(** [worksheet.eachRow(cb)]: [cb(row, rowNumber)] for each row that has
    values, in ascending row number; the callback's pushes are collected
    in order. *)
Fixpoint eachRowFrom {A : Type} (rowNumber : nat) (rows : list Row)
         (cb : Row -> nat -> list A) : list A :=
  match rows with
  | [] => []
  | r :: rest =>
      (if hasValues r then cb r rowNumber else [])
        ++ eachRowFrom (S rowNumber) rest cb
  end.

Definition eachRow {A : Type} (ws : Worksheet) (cb : Row -> nat -> list A)
  : list A :=
  eachRowFrom 1 (sheetRows ws) cb.

(** [workbook.worksheets[0]] *)
Definition firstWorksheet (wb : Workbook) : option Worksheet := hd_error wb.

(** [workbook.getWorksheet(1)]: the worksheet whose id is 1. *)
Definition getWorksheet (wb : Workbook) (id : nat) : option Worksheet :=
  find (fun ws => (sheetId ws =? id)%nat) wb.

(** What is found at a path on the disk. *)
Inductive FileEntry : Type :=
| NoFile
| Unreadable               (** exists, but [xlsx.readFile] rejects it *)
| XlsxFile (wb : Workbook).

Definition FileSystem : Type := string -> FileEntry.

Definition existsSync (fs : FileSystem) (p : string) : bool :=
  match fs p with NoFile => false | _ => true end.

Definition writeFile (fs : FileSystem) (p : string) (wb : Workbook)
  : FileSystem :=
  fun q => if String.eqb q p then XlsxFile wb else fs q.

(** [path.extname], with POSIX separators: the text from the last dot of the last path
    segment, unless that dot starts the segment or the segment is
    [".."]; trailing slashes are ignored. *)
Definition isSlash (c : ascii) : bool := (nat_of_ascii c =? 47)%nat.
Definition isDot (c : ascii) : bool := (nat_of_ascii c =? 46)%nat.

Fixpoint dropWhile (p : ascii -> bool) (l : list ascii) : list ascii :=
  match l with
  | c :: r => if p c then dropWhile p r else l
  | [] => []
  end.

Fixpoint takeUntil (p : ascii -> bool) (l : list ascii) : list ascii :=
  match l with
  | c :: r => if p c then [] else c :: takeUntil p r
  | [] => []
  end.

Definition extname (p : string) : string :=
  (* the last segment, reversed *)
  let seg := takeUntil isSlash (dropWhile isSlash (rev (list_ascii_of_string p))) in
  let ext := takeUntil isDot seg in          (* reversed text after the last dot *)
  if (List.length ext =? List.length seg)%nat then EmptyString   (* no dot *)
  else if (List.length seg =? S (List.length ext))%nat then EmptyString (* leading dot *)
  else if String.eqb (string_of_list_ascii seg) ".." then EmptyString
  else string_of_list_ascii (rev (ext ++ ["."%char])).

End Excel.

(* ------------------------------------------------------------------ *)
(** ** Exceptions *)

Module Exn.

(** The [message] of a thrown error. *)
Definition Error : Type := string.

Inductive Exc (A : Type) : Type :=
| Ok (a : A)
| Throw (e : Error).
Arguments Ok {A} a.
Arguments Throw {A} e.

End Exn.

(* ------------------------------------------------------------------ *)
(** ** Recipient parser *)

Module Parser.
Import JsString JsNumber JsValue Excel Exn.

(** [number.match(/^\+?\d{10,15}$/)] *)
Definition validatePhoneNumber (number : string) : bool :=
  (* the text after the optional leading plus sign *)
  let body := match number with
              | String c r => if Ascii.eqb c "+" then r else number
              | EmptyString => number
              end in
  allDigits body
    && (10 <=? String.length body)%nat && (String.length body <=? 15)%nat.

(** The callback of [extractNumbersFromExcel]'s [eachRow]. *)
Definition extractRow (row : Row) (rowNumber : nat) : list string :=
  if (rowNumber =? 1)%nat then []
  else
    let check (text : string) :=
      let number := trim text in
      if validatePhoneNumber number then [number] else [] in
    match getCell1 row with
    | CString s => check s
    | CNumber n => check (integerToString n)
    | _ => []
    end.

(** [extractNumbersFromExcel(filePath)]: every failure inside is caught
    and gives the empty list. *)
Definition extractNumbersFromExcel (fs : FileSystem) (filePath : string)
  : list string :=
  match fs filePath with
  | NoFile => []                       (* 'Excel file not found' *)
  | Unreadable => []                   (* readFile rejects *)
  | XlsxFile workbook =>
      match firstWorksheet workbook with
      | None => []                     (* 'Excel file is empty or has no sheets' *)
      | Some worksheet => eachRow worksheet extractRow
      end
  end.

Record UploadedFile : Type := { path : string }.

(** The part of the request the parser and the handler read. *)
Record Request : Type := {
  body_message : Value;
  body_delaySeconds : Value;
  body_numbers : Value;
  body_numbersText : Value;
  (** [req.file]; the route's upload middleware fills [req.files] and
      leaves this one unset, the parser reads it all the same *)
  file : option UploadedFile;
  (** [req.files]: absent unless the request is multipart; then the
      uploads under the fields 'media' and 'excel' *)
  files : option (list UploadedFile * list UploadedFile)
}.

(** [n.trim().replace(/[^0-9]/g, '')] *)
Definition clean (n : string) : string := stripNonDigits (trim n).

Definition nonEmpty (s : string) : bool := negb (isEmpty s).

(** The callback of [parsePhoneNumbers]'s [eachRow]. *)
Definition parseRow (row : Row) (rowNumber : nat) : list string :=
  if (1 <? rowNumber)%nat then
    let keep (cleanNumber : string) :=
      if nonEmpty cleanNumber then [cleanNumber] else [] in
    match getCell1 row with
    | CString s => if nonEmpty s then keep (stripNonDigits s) else []
    | CNumber n => if (n =? 0)%Z then [] else keep (integerToString n)
    | _ => []
    end
  else [].

(** The numbers read from the uploaded spreadsheet of [req.file]. *)
Definition parseSpreadsheet (fs : FileSystem) (req : Request)
  : Exc (list string) :=
  match file req with
  | Some f =>
      if nonEmpty (path f)
         && String.eqb (toLowerCase (extname (path f))) ".xlsx"
      then
        match fs (path f) with
        | XlsxFile workbook =>
            match getWorksheet workbook 1 with
            | Some worksheet => Ok (eachRow worksheet parseRow)
            | None => Throw "Cannot read properties of undefined (reading 'eachRow')"
            end
        | _ => Throw "File not found"
        end
      else Ok []
  | None => Ok []
  end.

(** The numbers of the explicit list. *)
Definition parseList (numbers : Value) : list string :=
  match numbers with
  | Arr l => filter nonEmpty (map clean l)
  | _ => []
  end.

(** The numbers of the text block. *)
Definition parseText (numbersText : Value) : Exc (list string) :=
  if truthy numbersText then
    match numbersText with
    | Str s => Ok (filter nonEmpty (map clean (splitOn isNewlineOrComma s)))
    | _ => Throw "numbersText.split is not a function"
    end
  else Ok [].

(** [parsePhoneNumbers(req)] *)
Definition parsePhoneNumbers (fs : FileSystem) (req : Request)
  : Exc (list string) :=
  match parseSpreadsheet fs req with
  | Throw e => Throw e
  | Ok fromSheet =>
      let parsedNumbers := fromSheet ++ parseList (body_numbers req) in
      match parseText (body_numbersText req) with
      | Throw e => Throw e
      | Ok textNumbers => Ok (uniqueViaSet (parsedNumbers ++ textNumbers))
      end
  end.

End Parser.

(* ------------------------------------------------------------------ *)
(** ** The messaging client, seen from the program *)

Module Platform.
Import JsString JsNumber JsValue Excel Exn.

(** An identifier as the client hands it out: a plain text, or a record
    that may carry the text in its [_serialized] field. *)
Inductive IdValue : Type :=
| IdText (s : string)
| IdRecord (serialized : option string).

(** A participant of a group: a plain text, or an object with an
    optional [id] and an optional [_serialized] field. *)
Inductive Participant : Type :=
| PText (s : string)
| PObject (id : option IdValue) (serialized : option string).

(** What [chat.participants] is. *)
Inductive ParticipantsProperty : Type :=
| NoProperty
| PlainValue (l : list Participant)
| Callable
| Deferred.

Record Chat : Type := {
  chatId : string;                        (** [chat.id._serialized] *)
  chatName : string;
  (** [chat.groupMetadata], and inside it [participants] when that is
      an array *)
  groupMetadata : option (option (list Participant));
  participantsProperty : ParticipantsProperty
}.

Record ContactDetails : Type := {
  contact_number : option string;
  contact_name : option string;
  contact_pushname : option string;
  contact_isMyContact : option bool
}.

(** The second argument of [client.sendMessage]. *)
Inductive Content : Type :=
| TextContent (message : Value)
| MediaContent (mediaPath : string) (caption : Value).

(** What the program asks of the world, in the order it asks. *)
Inductive Event : Type :=
| IsRegisteredUser (id : string)
| FromFilePath (mediaPath : string)
| SendMessage (id : string) (content : Content)
| GetChatById (groupId : string)
| GetGroupMetadata (chatId : string)
| ParticipantsCall
| ParticipantsAwait
| Evaluate (chatId : string)
| GetContactById (id : IdValue)
| Random
| Sleep (ms : number)
| Respond (status : nat).

Definition History : Type := list Event.

(** The world's answers; each may depend on all earlier events. *)
Record Env : Type := {
  client_isRegisteredUser : History -> string -> Exc bool;
  MessageMedia_fromFilePath : History -> string -> Exc unit;
  client_sendMessage : History -> string -> Content -> Exc unit;
  client_getChatById : History -> string -> Exc Chat;
  (** the fetched metadata's [participants], when it has any; a fetch
      that resolves to no metadata object at all fails inside the same
      [try] as one that throws, and is a [Throw] here *)
  client_getGroupMetadata : History -> string -> Exc (option (list Participant));
  (** the value [chat.participants()] resolves to; [None] is undefined *)
  chat_participants_call : History -> Exc (option (list Participant));
  (** the value [await chat.participants] resolves to *)
  chat_participants_await : History -> Exc (option (list Participant));
  (** the identifiers [pupPage.evaluate] returns; [None] is undefined *)
  pupPage_evaluate : History -> string -> Exc (option (list string));
  client_getContactById : History -> IdValue -> Exc ContactDetails;
  (** [Math.random()] *)
  Math_random : History -> Q;
  disk : FileSystem
}.

(** A computation reads the history so far and returns its result (or
    the error it throws) with the events it added. *)
Definition M (A : Type) : Type := History -> Exc A * list Event.

Definition ret {A : Type} (a : A) : M A := fun _ => (Ok a, []).

Definition throw {A : Type} (e : Error) : M A := fun _ => (Throw e, []).

Definition bind {A B : Type} (m : M A) (f : A -> M B) : M B :=
  fun h =>
    match m h with
    | (Ok a, t1) => let (r, t2) := f a (h ++ t1) in (r, t1 ++ t2)
    | (Throw e, t1) => (Throw e, t1)
    end.

(** [try { m } catch (e) { handler e }] *)
Definition tryCatch {A : Type} (m : M A) (handler : Error -> M A) : M A :=
  fun h =>
    match m h with
    | (Ok a, t1) => (Ok a, t1)
    | (Throw e, t1) => let (r, t2) := handler e (h ++ t1) in (r, t1 ++ t2)
    end.

(** One request to the world. *)
Definition perform {A : Type} (ev : Event) (answer : History -> Exc A) : M A :=
  fun h => (answer h, [ev]).

Definition lift {A : Type} (r : Exc A) : M A := fun _ => (r, []).

End Platform.

Declare Scope js_scope.
Delimit Scope js_scope with js.
Notation "x <- m ;; k" := (Platform.bind m (fun x => k))
(at level 61, m at next level, right associativity) : js_scope.
Notation "m ;;; k" := (Platform.bind m (fun _ => k))
(at level 61, right associativity) : js_scope.

(* ------------------------------------------------------------------ *)
(** ** Session gateway *)

Module Gateway.
Import JsString JsNumber JsValue Exn Platform.
Local Open Scope js_scope.

Inductive Status : Type := sent | not_registered | error.

Record Outcome : Type := {
  success : bool;
  phoneNumber : string;
  status : option Status;
  errorMessage : option string       (** the field [error] *)
}.

(** [phoneNumber?.includes('@c.us') ? phoneNumber : `${phoneNumber}@c.us`] *)
Definition formatNumber (phoneNumber : string) : string :=
  if includes "@c.us" phoneNumber then phoneNumber
  else phoneNumber ++ "@c.us".

(** [if (mediaPath)]: a path that is present and not empty. *)
Definition givenPath (mediaPath : option string) : option string :=
  match mediaPath with
  | Some p => if isEmpty p then None else Some p
  | None => None
  end.

(** [sendMessage(phoneNumber, message, mediaPath)] *)
Definition sendMessage (env : Env) (phoneNumber : string) (message : Value)
           (mediaPath : option string) : M Outcome :=
  let formattedNumber := formatNumber phoneNumber in
  tryCatch
    (isRegistered <- perform (IsRegisteredUser formattedNumber)
                       (fun h => client_isRegisteredUser env h formattedNumber) ;;
     if (isRegistered : bool) then
       (match givenPath mediaPath with
        | Some p =>
            perform (FromFilePath p)
                    (fun h => MessageMedia_fromFilePath env h p) ;;;
            perform (SendMessage formattedNumber (MediaContent p message))
                    (fun h => client_sendMessage env h formattedNumber
                                (MediaContent p message))
        | None =>
            perform (SendMessage formattedNumber (TextContent message))
                    (fun h => client_sendMessage env h formattedNumber
                                (TextContent message))
        end) ;;;
       ret {| success := true; phoneNumber := phoneNumber;
              status := Some sent; errorMessage := None |}
     else
       ret {| success := false; phoneNumber := phoneNumber;
              status := Some not_registered; errorMessage := None |})
    (fun e =>
       ret {| success := false; phoneNumber := phoneNumber;
              status := Some error; errorMessage := Some e |}).

End Gateway.

(* ------------------------------------------------------------------ *)
(** ** Directory extractor *)

Module Extractor.
Import JsString JsNumber JsValue Exn Platform.
Local Open Scope js_scope.

Record Contact : Type := {
  id : IdValue;
  number : string;
  name : string;
  isMyContact : bool;
  isBusiness : option bool       (** absent on a group's contacts *)
}.

Inductive GroupContacts : Type :=
| Extracted (groupName : string) (participantCount : nat)
            (contacts : list Contact)
| Failed (error : Error).

(** [!participants || participants.length === 0] *)
Definition noneFound (participants : option (list Participant)) : bool :=
  match participants with
  | None | Some [] => true
  | Some (_ :: _) => false
  end.

(** The objects the in-page evaluation returns: [{ id: <text>, ... }]. *)
Definition ofRaw (rawId : string) : Participant :=
  PObject (Some (IdText rawId)) None.

(** The first three strategies: the metadata already on the chat, else
    the metadata fetch, else (when the fetch throws) the [participants]
    property when it is callable or deferred. *)
Definition standardMethods (env : Env) (chat : Chat)
  : M (option (list Participant)) :=
  match groupMetadata chat with
  | Some (Some l) => ret (Some l)
  | _ =>
      tryCatch
        (metadata <- perform (GetGroupMetadata (chatId chat))
                       (fun h => client_getGroupMetadata env h (chatId chat)) ;;
         ret (Some (match metadata with Some l => l | None => [] end)))
        (fun metadataErr =>
           tryCatch
             (match participantsProperty chat with
              | Callable =>
                  perform ParticipantsCall (chat_participants_call env)
              | Deferred =>
                  perform ParticipantsAwait (chat_participants_await env)
              | _ => ret (Some [])
              end)
             (fun participantsErr => ret (Some [])))
  end.

(** The last resort, entered when nothing was found so far. *)
Definition alternativeApproach (env : Env) (chat : Chat)
           (participants : option (list Participant))
  : M (option (list Participant)) :=
  if noneFound participants then
    tryCatch
      (rawData <- perform (Evaluate (chatId chat))
                    (fun h => pupPage_evaluate env h (chatId chat)) ;;
       match rawData with
       | Some (r :: rs) => ret (Some (map ofRaw (r :: rs)))
       | _ => ret participants
       end)
      (fun rawError => ret participants)
  else ret participants.

(** The participants the contact loop runs over. *)
Definition resolveParticipants (env : Env) (chat : Chat)
  : M (option (list Participant)) :=
  participants <- standardMethods env chat ;;
  alternativeApproach env chat participants.

Definition someText (o : option string) : option string :=
  match o with
  | Some s => if isEmpty s then None else Some s
  | None => None
  end.

(** [if (value)] for an identifier. *)
Definition truthyId (v : IdValue) : bool :=
  match v with
  | IdText s => negb (isEmpty s)
  | IdRecord _ => true
  end.

(** [id._serialized || id] *)
Definition serializedOr (v : IdValue) : IdValue :=
  match v with
  | IdRecord ser =>
      match someText ser with Some s => IdText s | None => v end
  | IdText _ => v
  end.

(** The participant's identifier, over the shapes a participant has;
    [None] when no branch assigns it. *)
Definition participantIdOf (participant : Participant) : option IdValue :=
  match participant with
  | PText s => Some (IdText s)
  | PObject pid ser =>
      match pid with
      | Some v =>
          if truthyId v then Some (serializedOr v)
          else option_map IdText (someText ser)
      | None => option_map IdText (someText ser)
      end
  end.

(** [participantId.split('@')[0]]; only a text can be split. *)
Definition splitId (v : IdValue) : Exc string :=
  match v with
  | IdText s => Ok (beforeAt s)
  | IdRecord _ => Throw "participantId.split is not a function"
  end.

Definition orElse (o : option string) (d : string) : string :=
  match someText o with Some s => s | None => d end.

(** [participant.id?._serialized || participant.id || participant],
    when it is a text; an object otherwise ([None]). *)
Definition basicId (participant : Participant) : option string :=
  match participant with
  | PText s => Some s
  | PObject (Some (IdRecord ser)) _ => someText ser
  | PObject (Some (IdText s)) _ => someText (Some s)
  | PObject None _ => None
  end.

(** The body of the loop over the participants: what it pushes. *)
Definition contactOf (env : Env) (participant : Participant)
  : M (list Contact) :=
  tryCatch
    (match participantIdOf participant with
     | None => ret []                               (* continue *)
     | Some participantId =>
         if negb (truthyId participantId) then ret []     (* continue *)
         else
           contact <- perform (GetContactById participantId)
                        (fun h => client_getContactById env h participantId) ;;
           num <- match someText (contact_number contact) with
                  | Some n => ret n
                  | None => lift (splitId participantId)
                  end ;;
           ret [ {| id := participantId;
                    number := num;
                    name := orElse (contact_name contact)
                              (orElse (contact_pushname contact) "Unknown");
                    isMyContact := match contact_isMyContact contact with
                                   | Some b => b
                                   | None => false
                                   end;
                    isBusiness := None |} ]
     end)
    (fun err =>
       (* add basic info if contact details fail *)
       match basicId participant with
       | Some s =>
           ret [ {| id := IdText s; number := beforeAt s;
                    name := "Unknown"; isMyContact := false;
                    isBusiness := None |} ]
       | None => ret []           (* the inner catch: nothing is pushed *)
       end).

Fixpoint contactsOf (env : Env) (participants : list Participant)
  : M (list Contact) :=
  match participants with
  | [] => ret []
  | participant :: rest =>
      cs <- contactOf env participant ;;
      more <- contactsOf env rest ;;
      ret (cs ++ more)
  end.

(** [extractGroupContacts(groupId)] *)
Definition extractGroupContacts (env : Env) (groupId : string)
  : M GroupContacts :=
  tryCatch
    (chat <- perform (GetChatById groupId)
               (fun h => client_getChatById env h groupId) ;;
     participants <- resolveParticipants env chat ;;
     match participants with
     | None => throw "participants is not iterable"
     | Some l =>
         contacts <- contactsOf env l ;;
         ret (Extracted (chatName chat) (List.length l) contacts)
     end)
    (fun e => ret (Failed e)).

End Extractor.

(* ------------------------------------------------------------------ *)
(** ** Spreadsheet exporter *)

Module Exporter.
Import JsString Excel Platform Extractor.

(** The headers of [worksheet.columns], in column order. *)
Definition headerRow : Row :=
  [CString "Name"; CString "Number"; CString "Is Saved Contact";
   CString "Is Business"; CString "WhatsApp ID"].

Definition idCell (v : IdValue) : CellValue :=
  match v with
  | IdText s => CString s
  | IdRecord _ => CObject
  end.

(** [worksheet.addRow(contact)]: the cells by column key
    (name, number, isMyContact, isBusiness, id). *)
Definition rowOf (contact : Contact) : Row :=
  [CString (name contact); CString (number contact);
   CBool (isMyContact contact);
   match isBusiness contact with Some b => CBool b | None => CNull end;
   idCell (id contact)].

Definition outputDir : string := "exports".

(** [generateExcelFile(contacts, filename)]: the path written, and the
    disk after the write. *)
Definition generateExcelFile (fs : FileSystem) (contacts : list Contact)
           (filename : string) : string * FileSystem :=
  let worksheet :=
    {| sheetId := 1; sheetName := "Contacts";
       sheetRows := headerRow :: map rowOf contacts |} in
  let workbook : Workbook := [worksheet] in
  let filePath := (outputDir ++ "/" ++ filename)%string in
  (filePath, writeFile fs filePath workbook).

End Exporter.

(* ------------------------------------------------------------------ *)
(** ** [POST /api/send] and its dispatch loop *)

Module Send.
Import JsString JsNumber JsValue Excel Exn Parser Platform Gateway.
Local Open Scope js_scope.

(** [Math.floor(random * (delaySeconds - 3 + 1)) + 3] *)
Definition randomDelayOf (random : Q) (delaySeconds : Value) : number :=
  add (floor (mul (Fin random)
                  (add (sub (ToNumber delaySeconds) (ofZ 3)) (ofZ 1))))
      (ofZ 3).

(** [i > 0 && delaySeconds > 3] *)
Definition delayDue (i : nat) (delaySeconds : Value) : bool :=
  (0 <? i)%nat && gt (ToNumber delaySeconds) (ofZ 3).

(** The delay before the send of index [i].  The event records the
    milliseconds handed to [setTimeout]. *)
Definition delayBefore (env : Env) (i : nat) (delaySeconds : Value) : M unit :=
  if delayDue i delaySeconds then
    random <- perform Random (fun h => Ok (Math_random env h)) ;;
    let randomDelay := randomDelayOf random delaySeconds in
    perform (Sleep (mul randomDelay (ofZ 1000))) (fun _ => Ok tt)
  else ret tt.

(** One turn of the loop: the outcome pushed onto [results]. *)
Definition dispatchOne (env : Env) (delaySeconds message : Value)
           (mediaPath : option string) (i : nat) (number : string)
  : M Outcome :=
  tryCatch
    (delayBefore env i delaySeconds ;;;
     sendMessage env number message mediaPath)
    (fun e =>
       ret {| success := false; phoneNumber := number;
              status := None; errorMessage := Some e |}).

(** [for (let i = ...; i < numbers.length; i++)], entered at index [i]
    with the numbers from that index on. *)
Fixpoint dispatchFrom (env : Env) (delaySeconds message : Value)
         (mediaPath : option string) (i : nat) (numbers : list string)
         (results : list Outcome) : M (list Outcome) :=
  match numbers with
  | [] => ret results
  | number :: rest =>
      result <- dispatchOne env delaySeconds message mediaPath i number ;;
      dispatchFrom env delaySeconds message mediaPath (S i) rest
                   (results ++ [result])
  end.

Definition dispatchLoop (env : Env) (delaySeconds message : Value)
           (mediaPath : option string) (numbers : list string)
  : M (list Outcome) :=
  dispatchFrom env delaySeconds message mediaPath 0 numbers [].

Inductive ResponseBody : Type :=
| ErrorBody (error : string)
| Started (numbersCount : nat) (mediaAttached : bool) (delaySeconds : Value).

Record Response : Type := {
  statusCode : nat;
  body : ResponseBody
}.

(** [res.status(code).json({ success: false, error })] *)
Definition respondError (code : nat) (error : string) : M Response :=
  perform (Respond code) (fun _ => Ok tt) ;;;
  ret {| statusCode := code; body := ErrorBody error |}.

(** The recipients, from the uploaded 'excel' spreadsheet when there is
    one, from the unified parser otherwise. *)
Definition resolveNumbers (fs : FileSystem) (req : Request)
           (excel : list UploadedFile) : Exc (list string) :=
  match excel with
  | f :: _ => Ok (extractNumbersFromExcel fs (path f))
  | [] => parsePhoneNumbers fs req
  end.

(** The handler: the response it gives, and the outcomes the loop has
    collected when it ends (they are logged, never returned). *)
Definition postSend (env : Env) (isClientReady : bool) (req : Request)
  : M (Response * list Outcome) :=
  tryCatch
    (let message := body_message req in
     let delaySeconds := withDefault (body_delaySeconds req) (Num (Fin 1)) in
     if negb (truthy message) then
       r <- respondError 400 "Message is required" ;; ret (r, [])
     else if negb isClientReady then
       r <- respondError 503 "WhatsApp client is not ready. Please authenticate first by scanning the QR code." ;;
       ret (r, [])
     else
       match files req with
       | None => throw "Cannot read properties of undefined (reading 'excel')"
       | Some (media, excel) =>
           numbers <- lift (resolveNumbers (disk env) req excel) ;;
           if (List.length numbers =? 0)%nat then
             r <- respondError 400 "No valid phone numbers found. Please provide recipients." ;;
             ret (r, [])
           else
             let mediaPath := match media with
                              | f :: _ => Some (path f)
                              | [] => None
                              end in
             perform (Respond 200) (fun _ => Ok tt) ;;;
             results <- dispatchLoop env delaySeconds message mediaPath numbers ;;
             ret ({| statusCode := 200;
                     body := Started (List.length numbers)
                                     (match givenPath mediaPath with
                                      | Some _ => true
                                      | None => false
                                      end)
                                     delaySeconds |}, results)
       end)
    (fun e =>
       r <- respondError 500 "Server error while sending messages" ;;
       ret (r, [])).

End Send.

(* ------------------------------------------------------------------ *)
(** ** Vocabulary of the properties *)

Module Vocabulary.
Import JsString JsNumber JsValue Excel Exn Parser Platform Gateway.

(** First-occurrence order: every entry stays where it first occurs and
    its later duplicates are removed. *)
Fixpoint firstOccurrences (l : list string) : list string :=
  match l with
  | [] => []
  | x :: rest =>
      x :: filter (fun y => negb (String.eqb y x)) (firstOccurrences rest)
  end.

(** Every numeric cell the unified parser can read from the spreadsheet
    of [req.file] holds a non-negative integer below 10^21, the range in
    which a number prints as plain digits. *)
Definition plainNumericCells (fs : FileSystem) (req : Request) : Prop :=
  forall f wb ws row n,
    file req = Some f ->
    fs (path f) = XlsxFile wb ->
    getWorksheet wb 1 = Some ws ->
    In row (sheetRows ws) ->
    getCell1 row = CNumber n ->
    (0 <= n < 10 ^ 21)%Z.

(** The identities whose registration was checked, in order: one check
    opens every send. *)
Fixpoint checkedIds (tr : list Event) : list string :=
  match tr with
  | [] => []
  | IsRegisteredUser i :: rest => i :: checkedIds rest
  | _ :: rest => checkedIds rest
  end.

(** The status code of the response a run of the handler gives. *)
Definition responseStatus
           (run : Exc (Send.Response * list Outcome) * list Event) : option nat :=
  match fst run with
  | Ok (r, _) => Some (Send.statusCode r)
  | Throw _ => None
  end.

Definition isSleep (ev : Event) : bool :=
  match ev with Sleep _ => true | _ => false end.

(** The three outcomes of the gateway. *)
Definition failedOutcome (p : string) (e : Error) : Outcome :=
  {| success := false; phoneNumber := p;
     status := Some error; errorMessage := Some e |}.

Definition unregisteredOutcome (p : string) : Outcome :=
  {| success := false; phoneNumber := p;
     status := Some not_registered; errorMessage := None |}.

Definition sentOutcome (p : string) : Outcome :=
  {| success := true; phoneNumber := p;
     status := Some sent; errorMessage := None |}.

Definition isContactLookup (ev : Event) : bool :=
  match ev with GetContactById _ => true | _ => false end.

(** The participant array the chat already carries in its metadata. *)
Definition metadataParticipants (chat : Chat) : option (list Participant) :=
  match groupMetadata chat with
  | Some (Some l) => Some l
  | _ => None
  end.

(** The record kept for a participant whose details could not be read. *)
Definition degradedContact (s : string) : Extractor.Contact :=
  {| Extractor.id := IdText s; Extractor.number := beforeAt s;
     Extractor.name := "Unknown"; Extractor.isMyContact := false;
     Extractor.isBusiness := None |}.

(** The property of the chat, asked as the code asks it. *)
Definition propertyEvent (chat : Chat) : option Event :=
  match participantsProperty chat with
  | Callable => Some ParticipantsCall
  | Deferred => Some ParticipantsAwait
  | _ => None
  end.

(** A sleep of a whole number of seconds between [lo] and [hi]. *)
Definition wholeSecondsBetween (lo hi : Z) (ms : number) : Prop :=
  exists k : Z, (lo <= k <= hi)%Z /\
    exists q : Q, ms = Fin q /\ q == inject_Z (k * 1000).

End Vocabulary.

(* ------------------------------------------------------------------ *)
(** ** Concrete requests and worlds *)

Module Scenarios.
Import JsString JsNumber JsValue Excel Exn Parser Platform Gateway Extractor.

(** The text block of the specification's example:
    ["+1 555-000-1111, 5550002222\n5550002222"]. *)
Definition exampleText : string :=
  "+1 555-000-1111, 5550002222" ++ String (ascii_of_nat 10) "5550002222".

Definition uploadPath : string := "uploads/1700000000000-list.xlsx".

(** A spreadsheet whose column A repeats one number, written with a
    plus sign, under a header. *)
Definition repeatedSheet : Worksheet :=
  {| sheetId := 1; sheetName := "Sheet1";
     sheetRows := [ [CString "Phone"];
                    [CString "+911234567890"];
                    [CString "+911234567890"] ] |}.

Definition repeatedDisk : FileSystem :=
  fun p => if String.eqb p uploadPath then XlsxFile [repeatedSheet] else NoFile.

Definition emptyDisk : FileSystem := fun _ => NoFile.

(** A multipart request that uploads that spreadsheet in the 'excel'
    field and also names one recipient in the explicit list. *)
Definition excelRequest : Request :=
  {| body_message := Str "hello";
     body_delaySeconds := Str "10";
     body_numbers := Arr ["1234567890"];
     body_numbersText := Undefined;
     file := None;
     files := Some ([], [ {| path := uploadPath |} ]) |}.

(** A multipart request with recipients in the list and the text block. *)
Definition textRequest : Request :=
  {| body_message := Str "hello";
     body_delaySeconds := Str "10";
     body_numbers := Arr ["5550002222"; "555-000-3333"];
     body_numbersText := Str exampleText;
     file := None;
     files := Some ([], []) |}.

(** A request without a message. *)
Definition noMessageRequest : Request :=
  {| body_message := Str "";
     body_delaySeconds := Undefined;
     body_numbers := Arr ["5550002222"];
     body_numbersText := Undefined;
     file := None;
     files := Some ([], []) |}.

(** A request with a message and no recipient at all. *)
Definition noRecipientRequest : Request :=
  {| body_message := Str "hello";
     body_delaySeconds := Undefined;
     body_numbers := Undefined;
     body_numbersText := Undefined;
     file := None;
     files := Some ([], []) |}.

(** A group whose chat carries no metadata and a callable
    [participants]. *)
Definition bareChat : Chat :=
  {| chatId := "120363000000000000@g.us"; chatName := "Team";
     groupMetadata := None; participantsProperty := Callable |}.

(** A group whose only participant has the shape [{ _serialized }]. *)
Definition serializedOnlyChat : Chat :=
  {| chatId := "120363000000000000@g.us"; chatName := "Team";
     groupMetadata := Some (Some [PObject None (Some "491700000000@c.us")]);
     participantsProperty := NoProperty |}.

(** A world where the registration check answers [registered] and every
    send succeeds; the metadata fetch answers [fetched], the in-page
    evaluation answers [raw], and contact details are given or refused by
    [details]. *)
Definition world (fs : FileSystem) (registered : Exc bool) (chat : Chat)
           (fetched : Exc (option (list Participant)))
           (raw : Exc (option (list string)))
           (details : Exc ContactDetails) : Env :=
  {| client_isRegisteredUser := fun _ _ => registered;
     MessageMedia_fromFilePath := fun _ _ => Ok tt;
     client_sendMessage := fun _ _ _ => Ok tt;
     client_getChatById := fun _ _ => Ok chat;
     client_getGroupMetadata := fun _ _ => fetched;
     chat_participants_call := fun _ => Ok (Some [PText "15550001111@c.us"]);
     chat_participants_await := fun _ => Ok (Some [PText "15550001111@c.us"]);
     pupPage_evaluate := fun _ _ => raw;
     client_getContactById := fun _ _ => details;
     Math_random := fun h => (Z.of_nat (List.length h) mod 10) # 10;
     disk := fs |}.

(** The plain world: all registered, nothing to fetch or evaluate. *)
Definition plainWorld (fs : FileSystem) : Env :=
  world fs (Ok true) bareChat (Ok None) (Ok None)
        (Throw "contact lookup failed").

(** A world whose metadata fetch succeeds with an empty list while the
    in-page evaluation finds one participant. *)
Definition emptyFetchWorld : Env :=
  world (fun _ => NoFile) (Ok true) bareChat (Ok (Some []))
        (Ok (Some ["15550001111@c.us"]))
        (Ok {| contact_number := Some "15550001111";
               contact_name := Some "Ada";
               contact_pushname := None;
               contact_isMyContact := Some true |}).

(** A world whose metadata fetch succeeds with one participant. *)
Definition fetchedWorld : Env :=
  world (fun _ => NoFile) (Ok true) bareChat
        (Ok (Some [PText "15550001111@c.us"])) (Ok None)
        (Ok {| contact_number := Some "15550001111";
               contact_name := Some "Ada";
               contact_pushname := None;
               contact_isMyContact := Some true |}).

(** A world that finds the group of [serializedOnlyChat] and refuses
    every contact lookup. *)
Definition refusingWorld : Env :=
  world (fun _ => NoFile) (Ok true) serializedOnlyChat (Ok None) (Ok None)
        (Throw "contact lookup failed").

Definition noDetails : Exc ContactDetails := Throw "contact lookup failed".

End Scenarios.

(* ------------------------------------------------------------------ *)
(** ** Connection lifecycle, [GET /api/status] and [GET /api/qrcode] *)

Module Lifecycle.
Import JsString.

(** The two module-level variables the client's callbacks write. *)
Record ServerState : Type := {
  isClientReady : bool;
  lastQrCode : string
}.

Definition initialState : ServerState :=
  {| isClientReady := false; lastQrCode := EmptyString |}.

(** The events the client emits: 'qr', 'ready', 'auth_failure' and
    'disconnected'. *)
Inductive ClientEvent : Type :=
| Qr (qr : string)
| Ready
| AuthFailure
| Disconnected.

(** What the registered callback does to the two variables. *)
Definition onEvent (st : ServerState) (ev : ClientEvent) : ServerState :=
  match ev with
  | Qr qr => {| isClientReady := isClientReady st; lastQrCode := qr |}
  | Ready => {| isClientReady := true; lastQrCode := lastQrCode st |}
  | AuthFailure | Disconnected =>
      {| isClientReady := false; lastQrCode := lastQrCode st |}
  end.

(** The variables after the events, oldest first. *)
Definition afterEvents (evs : list ClientEvent) : ServerState :=
  fold_left onEvent evs initialState.

(** [GET /api/status]: the value of [whatsappStatus]. *)
Definition getStatus (st : ServerState) : string :=
  if isClientReady st then "ready" else "not_ready".

Inductive QrReply : Type :=
| QrCode (qrCode : string)
| Authenticated
| Initializing.

(** [GET /api/qrcode] *)
Definition getQrcode (st : ServerState) : QrReply :=
  if negb (isClientReady st) && negb (isEmpty (lastQrCode st))
  then QrCode (lastQrCode st)
  else if isClientReady st then Authenticated
  else Initializing.

Definition isQr (ev : ClientEvent) : bool :=
  match ev with Qr _ => true | _ => false end.

(** The payload of the most recent 'qr' event, the empty text if there
    was none. *)
Definition lastQrOf (evs : list ClientEvent) : string :=
  match find isQr (rev evs) with
  | Some (Qr qr) => qr
  | _ => EmptyString
  end.

(** Whether the most recent event other than 'qr' is 'ready'. *)
Definition endsReady (evs : list ClientEvent) : bool :=
  match find (fun ev => negb (isQr ev)) (rev evs) with
  | Some Ready => true
  | _ => false
  end.

End Lifecycle.

(* ------------------------------------------------------------------ *)
(** ** Saved contacts and groups of the account *)

Module Directory.
Import JsString JsValue Exn Platform Extractor.

(** [s.endsWith(suffix)] *)
Definition endsWith (suffix s : string) : bool :=
  let n := String.length s in
  let k := String.length suffix in
  (k <=? n)%nat && String.eqb (substring (n - k) k s) suffix.

(** A contact as [client.getContacts()] lists it.  [pc_id] is
    [contact.id._serialized]; it is absent when the contact has no [id]. *)
Record PlatformContact : Type := {
  pc_id : option string;
  pc_number : option string;
  pc_name : option string;
  pc_pushname : option string;
  pc_isMyContact : bool;
  pc_isBusiness : option bool
}.

(** [contact.isMyContact && contact.number] *)
Definition keepSaved (contact : PlatformContact) : bool :=
  pc_isMyContact contact
  && match someText (pc_number contact) with Some _ => true | None => false end.

(** The record built for a contact that passed the filter; reading
    [_serialized] of a missing [id] throws. *)
Definition formatSaved (contact : PlatformContact) : Exc Contact :=
  match pc_id contact with
  | None => Throw "Cannot read properties of undefined (reading '_serialized')"
  | Some serialized =>
      Ok {| id := IdText serialized;
            number := match pc_number contact with
                      | Some n => n
                      | None => EmptyString    (* not after the filter *)
                      end;
            name := orElse (pc_name contact)
                      (orElse (pc_pushname contact) "Unknown");
            isMyContact := pc_isMyContact contact;
            isBusiness := pc_isBusiness contact |}
  end.

(** [list.map(f)] for an [f] that may throw: the first throw ends it. *)
Fixpoint mapExc {A B : Type} (f : A -> Exc B) (l : list A) : Exc (list B) :=
  match l with
  | [] => Ok []
  | a :: rest =>
      match f a with
      | Throw e => Throw e
      | Ok b =>
          match mapExc f rest with
          | Throw e => Throw e
          | Ok bs => Ok (b :: bs)
          end
      end
  end.

Inductive ContactsResult : Type :=
| ContactsFound (contactCount : nat) (contacts : list Contact)
| ContactsFailed (error : Error).

(** [extractAllContacts()], given what [client.getContacts()] resolved
    to or threw. *)
Definition extractAllContacts (answer : Exc (list PlatformContact))
  : ContactsResult :=
  match answer with
  | Throw e => ContactsFailed e
  | Ok contacts =>
      match mapExc formatSaved (filter keepSaved contacts) with
      | Ok savedContacts =>
          ContactsFound (List.length savedContacts) savedContacts
      | Throw e => ContactsFailed e
      end
  end.

(** What [chat.participants] is to [extractAllGroups]: falsy, or a value
    whose [length] is a number (an array), or a value without one. *)
Inductive ParticipantsValue : Type :=
| Falsy
| WithLength (length : nat)
| WithoutLength.

(** A chat as [client.getChats()] lists it.  [ce_id] is
    [chat.id._serialized]; it is absent when the chat has no [id]. *)
Record ChatEntry : Type := {
  ce_id : option string;
  ce_name : string;
  ce_hasGroupMetadata : bool;            (** [chat.groupMetadata !== undefined] *)
  ce_participants : ParticipantsValue
}.

Inductive ParticipantCount : Type :=
| Count (n : nat)
| NoCount                                 (** [undefined] *)
| UnknownCount.                           (** the text 'Unknown' *)

Record Group : Type := {
  groupId : string;
  groupName : string;
  participantCount : ParticipantCount
}.

(** The filter of [extractAllGroups]. *)
Definition isGroup (chat : ChatEntry) : bool :=
  match someText (ce_id chat) with
  | Some serialized => endsWith "@g.us" serialized
  | None => false
  end
  || ce_hasGroupMetadata chat.

Definition formatGroup (chat : ChatEntry) : Exc Group :=
  match ce_id chat with
  | None => Throw "Cannot read properties of undefined (reading '_serialized')"
  | Some serialized =>
      Ok {| groupId := serialized;
            groupName := ce_name chat;
            participantCount :=
              match ce_participants chat with
              | Falsy => UnknownCount
              | WithLength n => Count n
              | WithoutLength => NoCount
              end |}
  end.

Inductive GroupsResult : Type :=
| GroupsFound (groupCount : nat) (groups : list Group)
| GroupsFailed (error : Error).

(** [extractAllGroups()], given what [client.getChats()] resolved to or
    threw. *)
Definition extractAllGroups (answer : Exc (list ChatEntry)) : GroupsResult :=
  match answer with
  | Throw e => GroupsFailed e
  | Ok chats =>
      match mapExc formatGroup (filter isGroup chats) with
      | Ok groups => GroupsFound (List.length groups) groups
      | Throw e => GroupsFailed e
      end
  end.

End Directory.

(* ------------------------------------------------------------------ *)
(** ** The directory routes *)

Module Routes.
Import JsString JsNumber JsValue Excel Exn Platform Extractor Exporter Directory.
Local Open Scope js_scope.

Inductive Payload : Type :=
| PError (error : string)
| PGroupContacts (result : GroupContacts)
| PContacts (result : ContactsResult)
| PGroups (result : GroupsResult)
| PExported (filename downloadUrl : string) (contactCount : nat).

Record Reply : Type := {
  code : nat;
  payload : Payload
}.

Definition notReady : Payload := PError "WhatsApp client is not ready".

(** [res.status(c).json(p)]; [res.json(p)] is the case [c = 200]. *)
Definition reply (c : nat) (p : Payload) : M Reply :=
  perform (Respond c) (fun _ => Ok tt) ;;;
  ret {| code := c; payload := p |}.

(** The character class [[a-z0-9]] under the flag [i]. *)
Definition isAlnum (c : ascii) : bool :=
  let n := nat_of_ascii c in
  isDigit c
  || ((65 <=? n)%nat && (n <=? 90)%nat)
  || ((97 <=? n)%nat && (n <=? 122)%nat).

(** [s.replace(/[^a-z0-9]/gi, '_')] *)
Fixpoint sanitize (s : string) : string :=
  match s with
  | EmptyString => EmptyString
  | String c r => String (if isAlnum c then c else "_"%char) (sanitize r)
  end.

(** [`${Date.now()}`] for a clock reading [now], in milliseconds. *)
Definition timestamp (now : N) : string := integerToString (Z.of_N now).

(** [`group-${groupName.replace(/[^a-z0-9]/gi, '_')}-${Date.now()}.xlsx`] *)
Definition groupFilename (groupName : string) (now : N) : string :=
  ("group-" ++ sanitize groupName ++ "-" ++ timestamp now ++ ".xlsx")%string.

(** [`all-contacts-${Date.now()}.xlsx`] *)
Definition contactsFilename (now : N) : string :=
  ("all-contacts-" ++ timestamp now ++ ".xlsx")%string.

Definition downloadUrlOf (filename : string) : string :=
  ("/exports/" ++ filename)%string.

(** [GET /api/groups/:groupId/contacts] *)
Definition getGroupContacts (env : Env) (isClientReady : bool)
           (groupId : string) : M Reply :=
  if negb isClientReady then reply 503 notReady
  else
    tryCatch
      (result <- extractGroupContacts env groupId ;;
       reply 200 (PGroupContacts result))
      (fun e => reply 500 (PError e)).


(** [GET /api/groups], given the answer of [client.getChats()]. *)
Definition getGroups (isClientReady : bool) (answer : Exc (list ChatEntry))
  : Reply :=
  if negb isClientReady then {| code := 503; payload := notReady |}
  else {| code := 200; payload := PGroups (extractAllGroups answer) |}.



End Routes.

(* ------------------------------------------------------------------ *)
(** ** Further vocabulary and scenarios *)

Module Observations.
Import JsString JsNumber JsValue Excel Exn Parser Platform Gateway Extractor.

Definition isRespond (ev : Event) : bool :=
  match ev with Respond _ => true | _ => false end.

Definition isRandom (ev : Event) : bool :=
  match ev with Random => true | _ => false end.

Definition isSendMessage (ev : Event) : bool :=
  match ev with SendMessage _ _ => true | _ => false end.

(** The events of the dispatch loop: the client calls of the gateway,
    the random draws and the sleeps. *)
Definition isDispatchEvent (ev : Event) : bool :=
  match ev with
  | IsRegisteredUser _ | FromFilePath _ | SendMessage _ _
  | Random | Sleep _ => true
  | _ => false
  end.

(** The content [sendMessage] hands to the client: the media with the
    message as its caption when a media path is given, the message
    itself otherwise. *)
Definition contentOf (message : Value) (mediaPath : option string) : Content :=
  match givenPath mediaPath with
  | Some p => MediaContent p message
  | None => TextContent message
  end.

(** A run of the send handler that answers an error and does nothing
    else. *)
Definition errorReply (code : nat) (error : string)
  : Exc (Send.Response * list Outcome) * list Event :=
  (Ok ({| Send.statusCode := code; Send.body := Send.ErrorBody error |}, []),
   [Respond code]).

(** How many events of a kind a trace holds. *)
Definition countOf (kind : Event -> bool) (tr : list Event) : nat :=
  List.length (filter kind tr).

(** The sleeps the loop owes from index [i] on: one per send when a
    delay applies, except for the send of index 0. *)
Definition sleepsOwed (delaySeconds : Value) (i count : nat) : nat :=
  if gt (ToNumber delaySeconds) (ofZ 3)
  then (if (i =? 0)%nat then count - 1 else count)%nat
  else 0%nat.

(** Every character of [s] satisfies [p]. *)
Fixpoint allChars (p : ascii -> bool) (s : string) : bool :=
  match s with
  | EmptyString => true
  | String c r => p c && allChars p r
  end.

(** Letters, digits, underscore, hyphen and dot: the characters a file
    name can hold without naming another directory. *)
Definition isSafeChar (c : ascii) : bool :=
  let n := nat_of_ascii c in
  isDigit c
  || ((65 <=? n)%nat && (n <=? 90)%nat)
  || ((97 <=? n)%nat && (n <=? 122)%nat)
  || (n =? 95)%nat || (n =? 45)%nat || (n =? 46)%nat.

(** Neither a slash nor a backslash. *)
Definition notSeparator (c : ascii) : bool :=
  let n := nat_of_ascii c in negb ((n =? 47)%nat || (n =? 92)%nat).

(** A file name that [path.join] appends to a directory as it is: one
    segment of safe characters, not empty and not a dot segment. *)
Definition plainName (filename : string) : bool :=
  allChars isSafeChar filename
  && negb (isEmpty filename)
  && negb (String.eqb filename ".")
  && negb (String.eqb filename "..").

Definition isSlash (c : ascii) : bool := (nat_of_ascii c =? 47)%nat.

(** A relative path in normal form: plain names joined by slashes.  Two
    such paths name the same file only when they are the same text. *)
Definition plainPath (q : string) : bool :=
  forallb plainName (splitOn isSlash q).

(** The least double above 3, [3 + 2^-51].  Reading a numeral as a
    double is monotone and keeps a double in place, so a value at or
    above this one is still above 3 as the double the code compares; a
    value strictly between 3 and this one may be read as 3. *)
Definition leastDoubleAbove3 : Q := 3 + (1 # 2 ^ 51).

(** The same request with other body fields for the recipients. *)
Definition withRecipients (req : Request) (numbers numbersText : Value)
  : Request :=
  {| body_message := body_message req;
     body_delaySeconds := body_delaySeconds req;
     body_numbers := numbers;
     body_numbersText := numbersText;
     file := file req;
     files := files req |}.

(** The request carrying the given list as its only recipients. *)
Definition listOnly (req : Request) (numbers : list string) : Request :=
  {| body_message := body_message req;
     body_delaySeconds := body_delaySeconds req;
     body_numbers := Arr numbers;
     body_numbersText := Undefined;
     file := None;
     files := files req |}.

(** The worksheet with another first row. *)
Definition withFirstRow (ws : Worksheet) (r : Row) : Worksheet :=
  {| sheetId := sheetId ws; sheetName := sheetName ws;
     sheetRows := r :: tl (sheetRows ws) |}.

(** Columns A and B of a row, when both are texts. *)
Definition nameAndNumber (r : Row) : option (string * string) :=
  match r with
  | CString a :: CString b :: _ => Some (a, b)
  | _ => None
  end.

End Observations.

Module MoreScenarios.
Import JsString JsNumber JsValue Excel Exn Parser Platform Gateway Extractor.
Import Directory Scenarios.

(** A multipart request whose 'excel' upload is not on the disk, with a
    valid recipient in the explicit list. *)
Definition lostUploadRequest : Request :=
  {| body_message := Str "hello";
     body_delaySeconds := Undefined;
     body_numbers := Arr ["5550002222"];
     body_numbersText := Undefined;
     file := None;
     files := Some ([], [ {| path := "uploads/gone.xlsx" |} ]) |}.

(** A multipart request whose [numbersText] field was sent twice. *)
Definition repeatedTextRequest : Request :=
  {| body_message := Str "hello";
     body_delaySeconds := Undefined;
     body_numbers := Undefined;
     body_numbersText := Arr ["5550002222"; "5550003333"];
     file := None;
     files := Some ([], []) |}.

(** A disk holding, at the upload path, a sheet with one number per row
    and a number in the header row too. *)
Definition numbersSheet : Worksheet :=
  {| sheetId := 1; sheetName := "Sheet1";
     sheetRows := [ [CString "9876500000"];
                    [CString "9876543210"];
                    [CNumber 9876543211] ] |}.

Definition numbersDisk : FileSystem :=
  fun p => if String.eqb p uploadPath then XlsxFile [numbersSheet] else NoFile.

(** A world that fails to find any chat. *)
Definition noChatWorld : Env :=
  {| client_isRegisteredUser := fun _ _ => Ok true;
     MessageMedia_fromFilePath := fun _ _ => Ok tt;
     client_sendMessage := fun _ _ _ => Ok tt;
     client_getChatById := fun _ _ => Throw "chat not found";
     client_getGroupMetadata := fun _ _ => Throw "no metadata";
     chat_participants_call := fun _ => Ok None;
     chat_participants_await := fun _ => Ok None;
     pupPage_evaluate := fun _ _ => Ok None;
     client_getContactById := fun _ _ => Throw "contact lookup failed";
     Math_random := fun _ => 1 # 2;
     disk := fun _ => NoFile |}.

(** A group with two participants given as plain texts. *)
Definition pairChat : Chat :=
  {| chatId := "120363000000000000@g.us"; chatName := "Team / 2024";
     groupMetadata := Some (Some [PText "15550001111@c.us";
                                  PText "15550002222@c.us"]);
     participantsProperty := NoProperty |}.

(** A world that finds [pairChat] and refuses every contact lookup. *)
Definition pairWorld : Env :=
  world (fun _ => NoFile) (Ok true) pairChat (Ok None) (Ok None)
        (Throw "contact lookup failed").

Definition ada : PlatformContact :=
  {| pc_id := Some "15550001111@c.us"; pc_number := Some "15550001111";
     pc_name := Some "Ada"; pc_pushname := None;
     pc_isMyContact := true; pc_isBusiness := Some false |}.

Definition stranger : PlatformContact :=
  {| pc_id := Some "15550009999@c.us"; pc_number := Some "15550009999";
     pc_name := None; pc_pushname := Some "Bob";
     pc_isMyContact := false; pc_isBusiness := None |}.

Definition teamChat : ChatEntry :=
  {| ce_id := Some "120363000000000000@g.us"; ce_name := "Team";
     ce_hasGroupMetadata := false; ce_participants := WithLength 3 |}.

Definition directChat : ChatEntry :=
  {| ce_id := Some "15550001111@c.us"; ce_name := "Ada";
     ce_hasGroupMetadata := false; ce_participants := Falsy |}.

End MoreScenarios.

(* ================================================================== *)
(** * Properties *)

Import JsString JsValue Excel Exn Parser Platform Gateway.
Import Extractor Exporter Send JsNumber.

(* ------------------------------------------------------------------ *)
(** ** Strings *)

Section StringFacts.

Lemma allDigits_stripNonDigits (s : string) :
  allDigits (stripNonDigits s) = true.
Proof.
  induction s as [|c r IH]; simpl; [reflexivity|].
  destruct (isDigit c) eqn:Hc; simpl; [rewrite Hc|]; exact IH.
Qed.

Lemma isEmpty_true (s : string) : isEmpty s = true <-> s = EmptyString.
Proof. destruct s; simpl; split; congruence. Qed.

Lemma nonEmpty_true (s : string) : nonEmpty s = true <-> s <> EmptyString.
Proof.
  unfold nonEmpty. destruct s; simpl; split; congruence.
Qed.

Lemma allDigits_clean (n : string) : allDigits (clean n) = true.
Proof. apply allDigits_stripNonDigits. Qed.

(** Trimming first does not change what the digit filter keeps. *)
Lemma isWhiteSpace_not_digit (c : ascii) :
  isWhiteSpace c = true -> isDigit c = false.
Proof.
  unfold isWhiteSpace, isDigit. intros H.
  apply Bool.orb_true_iff in H.
  apply Bool.andb_false_iff.
  destruct H as [H|H]; [apply Bool.orb_true_iff in H as [H|H]|].
  - apply Bool.andb_true_iff in H as [_ H]. apply Nat.leb_le in H.
    left. apply Nat.leb_gt. lia.
  - apply Nat.eqb_eq in H. left. apply Nat.leb_gt. lia.
  - apply Nat.eqb_eq in H. right. apply Nat.leb_gt. lia.
Qed.

Lemma strip_trimStart (s : string) :
  stripNonDigits (trimStart s) = stripNonDigits s.
Proof.
  induction s as [|c r IH]; simpl; [reflexivity|].
  destruct (isWhiteSpace c) eqn:Hw; [|reflexivity].
  rewrite (isWhiteSpace_not_digit _ Hw). exact IH.
Qed.

Lemma strip_trimEnd (s : string) :
  stripNonDigits (trimEnd s) = stripNonDigits s.
Proof.
  induction s as [|c r IH]; simpl; [reflexivity|].
  destruct (isWhiteSpace c) eqn:Hw; simpl.
  - rewrite (isWhiteSpace_not_digit _ Hw).
    destruct (isEmpty (trimEnd r)) eqn:He; simpl.
    + apply isEmpty_true in He. rewrite He in IH. simpl in IH. exact IH.
    + rewrite (isWhiteSpace_not_digit _ Hw). exact IH.
  - rewrite IH. reflexivity.
Qed.

Lemma clean_is_strip (n : string) : clean n = stripNonDigits n.
Proof.
  unfold clean, trim. rewrite strip_trimEnd. apply strip_trimStart.
Qed.

Lemma allDigits_uint (d : Decimal.uint) :
  allDigits (NilEmpty.string_of_uint d) = true.
Proof. induction d; simpl; auto. Qed.

(** A non-negative integer prints as digits only. *)
Lemma allDigits_integerToString (n : Z) :
  (0 <= n)%Z -> allDigits (integerToString n) = true.
Proof.
  intros Hn. unfold integerToString.
  destruct n as [|p|p]; [reflexivity| |lia].
  simpl. unfold NilZero.string_of_uint.
  destruct (Pos.to_uint p) eqn:E; try reflexivity;
    rewrite <- E; apply allDigits_uint.
Qed.

(** What the validator accepts: an optional plus sign, then 10 to 15
    digits. *)
Lemma validatePhoneNumber_shape (x : string) :
  validatePhoneNumber x = true ->
  exists body,
    (x = body \/ x = String "+" body)
    /\ allDigits body = true
    /\ (10 <= String.length body <= 15)%nat.
Proof.
  unfold validatePhoneNumber. intros H.
  apply Bool.andb_true_iff in H as [H H3].
  apply Bool.andb_true_iff in H as [H1 H2].
  apply Nat.leb_le in H2, H3.
  destruct x as [|c r].
  - exists EmptyString. simpl in *. lia.
  - destruct (Ascii.eqb c "+") eqn:Hc.
    + apply Ascii.eqb_eq in Hc. subst c. exists r. auto.
    + exists (String c r). auto.
Qed.

End StringFacts.

(* ------------------------------------------------------------------ *)
(** ** Deduplication through a [Set] *)

Section SetFacts.
Import Vocabulary.

Lemma Set_has_In (s : list string) (x : string) :
  Set_has s x = true <-> In x s.
Proof.
  unfold Set_has. rewrite existsb_exists. split.
  - intros [y [Hy He]]. apply String.eqb_eq in He. now subst.
  - intros H. exists x. split; [exact H | apply String.eqb_refl].
Qed.

Lemma filter_twice {A : Type} (p q : A -> bool) (l : list A) :
  filter p (filter q l) = filter (fun y => q y && p y) l.
Proof.
  induction l as [|a l IH]; simpl; [reflexivity|].
  destruct (q a); simpl; [destruct (p a)|]; rewrite ?IH; reflexivity.
Qed.

Lemma filter_all {A : Type} (p : A -> bool) (l : list A) :
  (forall a, p a = true) -> filter p l = l.
Proof.
  intros H. induction l as [|a l IH]; simpl; [reflexivity|].
  now rewrite H, IH.
Qed.

(** Folding [Set_add] over the items appends, to what the set already
    holds, the first occurrences it does not hold yet. *)
Lemma fold_Set_add (l acc : list string) :
  fold_left Set_add l acc =
  acc ++ filter (fun y => negb (Set_has acc y)) (firstOccurrences l).
Proof.
  revert acc. induction l as [|x r IH]; intros acc; simpl.
  - now rewrite app_nil_r.
  - unfold Set_add at 2. destruct (Set_has acc x) eqn:Hx; rewrite IH; simpl.
    + f_equal. rewrite filter_twice. apply filter_ext. intros y.
      destruct (String.eqb y x) eqn:E; simpl; [|reflexivity].
      apply String.eqb_eq in E. subst y. now rewrite Hx.
    + rewrite <- app_assoc. simpl. f_equal. f_equal.
      rewrite filter_twice. apply filter_ext. intros y.
      unfold Set_has. rewrite existsb_app. simpl.
      rewrite Bool.orb_false_r, Bool.negb_orb. apply Bool.andb_comm.
Qed.

(** Spreading a [Set] of the items gives their first occurrences. *)
Lemma uniqueViaSet_firstOccurrences (l : list string) :
  uniqueViaSet l = firstOccurrences l.
Proof.
  unfold uniqueViaSet. rewrite fold_Set_add. simpl.
  apply filter_all. reflexivity.
Qed.

Lemma In_firstOccurrences (l : list string) (x : string) :
  In x (firstOccurrences l) <-> In x l.
Proof.
  induction l as [|a r IH]; simpl; [tauto|].
  rewrite filter_In, IH. split.
  - intros [H|[H _]]; auto.
  - intros [H|H]; [now left|].
    destruct (String.eqb x a) eqn:E.
    + apply String.eqb_eq in E. now left.
    + right. split; [exact H | reflexivity].
Qed.

Lemma NoDup_firstOccurrences (l : list string) : NoDup (firstOccurrences l).
Proof.
  induction l as [|a r IH]; simpl; constructor.
  - rewrite filter_In. intros [_ H]. now rewrite String.eqb_refl in H.
  - now apply NoDup_filter.
Qed.

(** The entries of a later source come after those of an earlier one,
    and only when the earlier one did not have them. *)
Lemma firstOccurrences_app (l1 l2 : list string) :
  firstOccurrences (l1 ++ l2) =
  firstOccurrences l1
    ++ filter (fun y => negb (Set_has l1 y)) (firstOccurrences l2).
Proof.
  rewrite <- (uniqueViaSet_firstOccurrences (l1 ++ l2)). unfold uniqueViaSet.
  rewrite fold_left_app, fold_Set_add.
  change (fold_left Set_add l1 []) with (uniqueViaSet l1).
  rewrite uniqueViaSet_firstOccurrences.
  f_equal. apply filter_ext. intros y. f_equal.
  apply Bool.eq_true_iff_eq. rewrite !Set_has_In. apply In_firstOccurrences.
Qed.

End SetFacts.

(* ------------------------------------------------------------------ *)
(** ** Recipient parser *)

Section ParserFacts.
Import Vocabulary Scenarios.

Lemma In_eachRowFrom {A : Type} (cb : Row -> nat -> list A)
      (rows : list Row) (k : nat) (x : A) :
  In x (eachRowFrom k rows cb) ->
  exists row n, In row rows /\ In x (cb row n).
Proof.
  revert k. induction rows as [|r rest IH]; intros k H; simpl in H.
  - contradiction.
  - apply in_app_or in H as [H|H].
    + destruct (hasValues r); [|contradiction].
      exists r, k. split; [now left | exact H].
    + destruct (IH _ H) as [row [n [Hin Hx]]].
      exists row, n. split; [now right | exact Hx].
Qed.

Lemma In_cleaned (l : list string) (x : string) :
  In x (filter nonEmpty (map clean l)) ->
  x <> EmptyString /\ allDigits x = true.
Proof.
  rewrite filter_In, in_map_iff. intros [[n [E _]] Hne]. subst x.
  split; [now apply nonEmpty_true | apply allDigits_clean].
Qed.

Lemma parseRow_sound (row : Row) (k : nat) (x : string) :
  In x (parseRow row k) ->
  x <> EmptyString /\
  ((forall z, getCell1 row = CNumber z -> (0 <= z)%Z) -> allDigits x = true).
Proof.
  unfold parseRow. destruct (1 <? k)%nat; [|contradiction].
  destruct (getCell1 row) as [|s|z|b|] eqn:Hc; try contradiction.
  - destruct (nonEmpty s); [|contradiction].
    destruct (nonEmpty (stripNonDigits s)) eqn:Hne; [|contradiction].
    intros [E|[]]. subst x. split.
    + now apply nonEmpty_true.
    + intros _. apply allDigits_stripNonDigits.
  - destruct (z =? 0)%Z; [contradiction|].
    destruct (nonEmpty (integerToString z)) eqn:Hne; [|contradiction].
    intros [E|[]]. subst x. split.
    + now apply nonEmpty_true.
    + intros Hz. apply allDigits_integerToString. now apply Hz.
Qed.

Lemma extractRow_sound (row : Row) (k : nat) (x : string) :
  In x (extractRow row k) -> validatePhoneNumber x = true.
Proof.
  unfold extractRow. destruct (k =? 1)%nat; [contradiction|].
  destruct (getCell1 row) as [|s|z|b|]; try contradiction.
  - destruct (validatePhoneNumber (trim s)) eqn:V; [|contradiction].
    intros [E|[]]. now subst x.
  - destruct (validatePhoneNumber (trim (integerToString z))) eqn:V;
      [|contradiction].
    intros [E|[]]. now subst x.
Qed.

Lemma extractNumbersFromExcel_valid (fs : FileSystem) (p x : string) :
  In x (extractNumbersFromExcel fs p) -> validatePhoneNumber x = true.
Proof.
  unfold extractNumbersFromExcel.
  destruct (fs p) as [| |wb]; try contradiction.
  destruct (firstWorksheet wb) as [ws|]; [|contradiction].
  unfold eachRow. intros H.
  apply In_eachRowFrom in H as [row [n [_ H]]].
  now apply extractRow_sound in H.
Qed.

(** The unified parser, when it returns, returns the first occurrences of
    spreadsheet rows, then list entries, then text-block entries. *)
Lemma parsePhoneNumbers_order (fs : FileSystem) (req : Request)
      (numbers : list string) :
  parsePhoneNumbers fs req = Ok numbers ->
  exists fromSheet textNumbers,
    parseSpreadsheet fs req = Ok fromSheet
    /\ parseText (body_numbersText req) = Ok textNumbers
    /\ numbers =
       firstOccurrences
         (fromSheet ++ parseList (body_numbers req) ++ textNumbers).
Proof.
  unfold parsePhoneNumbers.
  destruct (parseSpreadsheet fs req) as [fromSheet|e]; [|discriminate].
  destruct (parseText (body_numbersText req)) as [textNumbers|e];
    [|discriminate].
  intros H. injection H as <-.
  exists fromSheet, textNumbers. repeat split.
  now rewrite uniqueViaSet_firstOccurrences, <- app_assoc.
Qed.

Lemma parseSpreadsheet_sound (fs : FileSystem) (req : Request)
      (fromSheet : list string) (x : string) :
  parseSpreadsheet fs req = Ok fromSheet ->
  In x fromSheet ->
  x <> EmptyString /\ (plainNumericCells fs req -> allDigits x = true).
Proof.
  unfold parseSpreadsheet, plainNumericCells.
  destruct (file req) as [f|] eqn:Hf.
  2:{ intros H; injection H as <-; contradiction. }
  destruct (nonEmpty (path f) && _).
  2:{ intros H; injection H as <-; contradiction. }
  destruct (fs (path f)) as [| |wb] eqn:Hfs; try discriminate.
  destruct (getWorksheet wb 1) as [ws|] eqn:Hws; [|discriminate].
  intros H Hx. injection H as <-. unfold eachRow in Hx.
  apply In_eachRowFrom in Hx as [row [n [Hrow Hx]]].
  apply parseRow_sound in Hx as [Hne Hd]. split; [exact Hne|].
  intros Hplain. apply Hd. intros z Hz.
  now apply (Hplain f wb ws row z eq_refl Hfs Hws Hrow Hz).
Qed.

Lemma parseText_sound (v : Value) (textNumbers : list string) (x : string) :
  parseText v = Ok textNumbers -> In x textNumbers ->
  x <> EmptyString /\ allDigits x = true.
Proof.
  unfold parseText. destruct (truthy v).
  - destruct v; try discriminate. intros H. injection H as <-.
    apply In_cleaned.
  - intros H. injection H as <-. contradiction.
Qed.

Lemma parseList_sound (v : Value) (x : string) :
  In x (parseList v) -> x <> EmptyString /\ allDigits x = true.
Proof.
  unfold parseList. destruct v; try contradiction. apply In_cleaned.
Qed.

End ParserFacts.

(* ------------------------------------------------------------------ *)
(** ** Session gateway *)

Section GatewayFacts.
Import Vocabulary.

(** [sendMessage], one answer of the world at a time. *)
Lemma sendMessage_unfold (env : Env) (p : string) (message : Value)
      (mediaPath : option string) (h : History) :
  let fn := formatNumber p in
  let h1 := h ++ [IsRegisteredUser fn] in
  sendMessage env p message mediaPath h =
  match client_isRegisteredUser env h fn with
  | Throw e => (Ok (failedOutcome p e), [IsRegisteredUser fn])
  | Ok false => (Ok (unregisteredOutcome p), [IsRegisteredUser fn])
  | Ok true =>
      match givenPath mediaPath with
      | Some path =>
          match MessageMedia_fromFilePath env h1 path with
          | Throw e =>
              (Ok (failedOutcome p e), [IsRegisteredUser fn; FromFilePath path])
          | Ok _ =>
              let ev := SendMessage fn (MediaContent path message) in
              match client_sendMessage env (h1 ++ [FromFilePath path]) fn
                      (MediaContent path message) with
              | Throw e =>
                  (Ok (failedOutcome p e),
                   [IsRegisteredUser fn; FromFilePath path; ev])
              | Ok _ =>
                  (Ok (sentOutcome p),
                   [IsRegisteredUser fn; FromFilePath path; ev])
              end
          end
      | None =>
          let ev := SendMessage fn (TextContent message) in
          match client_sendMessage env h1 fn (TextContent message) with
          | Throw e => (Ok (failedOutcome p e), [IsRegisteredUser fn; ev])
          | Ok _ => (Ok (sentOutcome p), [IsRegisteredUser fn; ev])
          end
      end
  end.
Proof.
  unfold sendMessage, tryCatch, bind, perform, ret; simpl.
  destruct (client_isRegisteredUser env h (formatNumber p)) as [[|]|e];
    simpl; try reflexivity.
  destruct (givenPath mediaPath) as [path|]; simpl.
  - unfold bind, perform; simpl.
    destruct (MessageMedia_fromFilePath env _ path) as [u|e]; simpl;
      [|reflexivity].
    destruct (client_sendMessage env _ _ _) as [u'|e]; reflexivity.
  - destruct (client_sendMessage env _ _ _) as [u'|e]; reflexivity.
Qed.

(** The gateway always returns an outcome for the number it was given,
    opens with the registration check, and never sleeps. *)
Lemma sendMessage_returns (env : Env) (p : string) (message : Value)
      (mediaPath : option string) (h : History) :
  exists o tr,
    sendMessage env p message mediaPath h = (Ok o, tr)
    /\ phoneNumber o = p
    /\ status o <> None
    /\ checkedIds tr = [formatNumber p]
    /\ existsb isSleep tr = false
    /\ exists later, tr = IsRegisteredUser (formatNumber p) :: later.
Proof.
  rewrite sendMessage_unfold. cbv zeta.
  destruct (client_isRegisteredUser env h (formatNumber p)) as [[|]|e].
  2,3: eexists; eexists; repeat split; try reflexivity;
       try discriminate; eexists; reflexivity.
  destruct (givenPath mediaPath) as [path|].
  - destruct (MessageMedia_fromFilePath env _ path) as [u|e].
    + destruct (client_sendMessage env _ _ _) as [u'|e];
        eexists; eexists; repeat split; try reflexivity;
        try discriminate; eexists; reflexivity.
    + eexists; eexists; repeat split; try reflexivity;
        try discriminate; eexists; reflexivity.
  - destruct (client_sendMessage env _ _ _) as [u'|e];
      eexists; eexists; repeat split; try reflexivity;
      try discriminate; eexists; reflexivity.
Qed.

End GatewayFacts.

(* ------------------------------------------------------------------ *)
(** ** Dispatch loop *)

Section DispatchFacts.
Import Vocabulary.

Lemma checkedIds_app (a b : list Event) :
  checkedIds (a ++ b) = checkedIds a ++ checkedIds b.
Proof.
  induction a as [|ev a IH]; simpl; [reflexivity|].
  destruct ev; simpl; now rewrite ?IH.
Qed.

Lemma In_Sleep_isSleep (tr : list Event) (ms : number) :
  existsb isSleep tr = false -> ~ In (Sleep ms) tr.
Proof.
  intros H Hin.
  assert (E : existsb isSleep tr = true)
    by (apply existsb_exists; exists (Sleep ms); split; [exact Hin|reflexivity]).
  congruence.
Qed.

(** The delay step never throws; it is silent unless a delay is due, and
    then it draws one random number and sleeps once. *)
Lemma delayBefore_unfold (env : Env) (i : nat) (delaySeconds : Value)
      (h : History) :
  delayBefore env i delaySeconds h =
  if delayDue i delaySeconds then
    (Ok tt,
     [Random;
      Sleep (mul (randomDelayOf (Math_random env h) delaySeconds) (ofZ 1000))])
  else (Ok tt, []).
Proof.
  unfold delayBefore. destruct (delayDue i delaySeconds); reflexivity.
Qed.

(** One turn of the loop. *)
Lemma dispatchOne_spec (env : Env) (delaySeconds message : Value)
      (mediaPath : option string) (i : nat) (n : string) (h : History) :
  exists o pre tr,
    dispatchOne env delaySeconds message mediaPath i n h = (Ok o, pre ++ tr)
    /\ sendMessage env n message mediaPath (h ++ pre) = (Ok o, tr)
    /\ pre = (if delayDue i delaySeconds then
                [Random;
                 Sleep (mul (randomDelayOf (Math_random env h) delaySeconds)
                            (ofZ 1000))]
              else []).
Proof.
  destruct (sendMessage_returns env n message mediaPath
              (h ++ (if delayDue i delaySeconds then
                       [Random;
                        Sleep (mul (randomDelayOf (Math_random env h) delaySeconds)
                                   (ofZ 1000))]
                     else [])))
    as [o [tr [Hs _]]].
  exists o. eexists. exists tr. split; [|split; [exact Hs|reflexivity]].
  unfold dispatchOne, tryCatch, bind.
  rewrite delayBefore_unfold.
  destruct (delayDue i delaySeconds); simpl in *; now rewrite Hs.
Qed.

(** What the loop does from index [i] on. *)
Lemma dispatchFrom_spec (env : Env) (delaySeconds message : Value)
      (mediaPath : option string) (numbers : list string) :
  forall (i : nat) (results : list Outcome) (h : History),
  exists outs tr,
    dispatchFrom env delaySeconds message mediaPath i numbers results h
    = (Ok (results ++ outs), tr)
    /\ map phoneNumber outs = numbers
    /\ Forall (fun o => status o <> None) outs
    /\ checkedIds tr = map formatNumber numbers
    /\ (forall ms, In (Sleep ms) tr ->
          gt (ToNumber delaySeconds) (ofZ 3) = true
          /\ exists h', ms = mul (randomDelayOf (Math_random env h') delaySeconds)
                                 (ofZ 1000))
    /\ (forall n rest, numbers = n :: rest -> i = 0%nat ->
          exists later,
            tr = snd (sendMessage env n message mediaPath h) ++ later).
Proof.
  induction numbers as [|n rest IH]; intros i results h.
  - exists [], []. simpl. rewrite app_nil_r.
    repeat split; try constructor; try contradiction; discriminate.
  - destruct (dispatchOne_spec env delaySeconds message mediaPath i n h)
      as [o [pre [tr1 [H1 [Hs Hpre]]]]].
    destruct (IH (S i) (results ++ [o]) (h ++ pre ++ tr1))
      as [outs [tr2 [H2 [Hp [Hst [Hc [Hsl _]]]]]]].
    destruct (sendMessage_returns env n message mediaPath (h ++ pre))
      as [o' [tr' [Hs' [Hpn [Hstat [Hchk [Hnosleep _]]]]]]].
    rewrite Hs in Hs'. injection Hs' as <- <-.
    exists (o :: outs), ((pre ++ tr1) ++ tr2).
    split; [|split; [|split; [|split; [|split]]]].
    + simpl. unfold bind. rewrite H1, H2.
      now rewrite <- app_assoc.
    + simpl. now rewrite Hpn, Hp.
    + now constructor.
    + rewrite !checkedIds_app, Hchk, Hc.
      assert (E : checkedIds pre = []) by
        (rewrite Hpre; destruct (delayDue i delaySeconds); reflexivity).
      now rewrite E.
    + intros ms Hin. apply in_app_or in Hin as [Hin|Hin]; [|now apply Hsl].
      apply in_app_or in Hin as [Hin|Hin].
      * rewrite Hpre in Hin.
        destruct (delayDue i delaySeconds) eqn:Hd; [|contradiction].
        destruct Hin as [Hin|[Hin|[]]]; [discriminate|].
        injection Hin as <-. unfold delayDue in Hd.
        apply Bool.andb_true_iff in Hd as [_ Hd].
        split; [exact Hd | now exists h].
      * now apply In_Sleep_isSleep in Hin.
    + intros n0 rest0 E Hi. injection E as <- <-. subst i.
      change (delayDue 0 delaySeconds) with false in Hpre. subst pre.
      rewrite app_nil_r in Hs. rewrite Hs. simpl.
      now exists tr2.
Qed.

(** The sleep computed for a whole number [n] of seconds above 3 lasts a
    whole number of seconds between 3 and [n], whatever the random
    source gives in the interval [0, 1). *)
Lemma sleep_range (delaySeconds : Value) (q r : Q) (n : Z) :
  ToNumber delaySeconds = Fin q -> q == inject_Z n -> (3 < n)%Z ->
  0 <= r -> r < 1 ->
  wholeSecondsBetween 3 n (mul (randomDelayOf r delaySeconds) (ofZ 1000)).
Proof.
  intros Hds Hq Hn Hr0 Hr1.
  unfold randomDelayOf. rewrite Hds. simpl.
  set (x := r * (q + - inject_Z 3 + inject_Z 1)).
  assert (Hx0 : 0 <= x).
  { unfold x. apply Qmult_le_0_compat; [exact Hr0|].
    rewrite Hq. rewrite <- !inject_Z_opp, <- !inject_Z_plus.
    rewrite <- (Zle_Qle 0). lia. }
  assert (Hx1 : x < inject_Z (n - 2)).
  { unfold x. rewrite Hq. rewrite <- !inject_Z_opp, <- !inject_Z_plus.
    assert (E : (n + - (3) + 1 = n - 2)%Z) by lia. rewrite E.
    assert (Hpos : 0 < inject_Z (n - 2)) by (rewrite <- (Zlt_Qlt 0); lia).
    apply Qlt_le_trans with (1 * inject_Z (n - 2)).
    - apply Qmult_lt_compat_r; assumption.
    - rewrite Qmult_1_l. apply Qle_refl. }
  exists (Qfloor x + 3)%Z. split.
  - assert (H0 : (0 <= Qfloor x)%Z).
    { change 0%Z with (Qfloor 0). now apply Qfloor_resp_le. }
    assert (H1 : (Qfloor x < n - 2)%Z).
    { rewrite Zlt_Qlt. eapply Qle_lt_trans; [apply Qfloor_le | exact Hx1]. }
    lia.
  - eexists. split; [reflexivity|].
    rewrite <- inject_Z_plus, <- inject_Z_mult. reflexivity.
Qed.

End DispatchFacts.

(* ------------------------------------------------------------------ *)
(** ** The recipient set *)

Section RecipientSet.
Import Vocabulary Scenarios.

(** C7: the unified parser, given only the text block
    ["+1 555-000-1111, 5550002222\n5550002222"], splits it on the comma
    and the newline, strips every non-digit (the plus sign included) from
    each piece, removes the duplicate, and returns exactly
    15550001111 and 5550002222.  For any text block given alone, it
    returns the first occurrences of the non-empty digit strings of the
    pieces between commas and newlines. *)
Theorem C7_text_block_example (fs : FileSystem) (message delaySeconds : Value)
        (uploads : option (list UploadedFile * list UploadedFile)) :
  splitOn isNewlineOrComma exampleText
  = ["+1 555-000-1111"; " 5550002222"; "5550002222"]
  /\ map clean (splitOn isNewlineOrComma exampleText)
     = ["15550001111"; "5550002222"; "5550002222"]
  /\ parsePhoneNumbers fs
       {| body_message := message; body_delaySeconds := delaySeconds;
          body_numbers := Undefined; body_numbersText := Str exampleText;
          file := None; files := uploads |}
     = Ok ["15550001111"; "5550002222"]
  /\ forall text,
       parsePhoneNumbers fs
         {| body_message := message; body_delaySeconds := delaySeconds;
            body_numbers := Undefined; body_numbersText := Str text;
            file := None; files := uploads |}
       = Ok (firstOccurrences
               (filter nonEmpty
                  (map stripNonDigits (splitOn isNewlineOrComma text)))).
Proof.
  split; [reflexivity|]. split; [reflexivity|]. split; [reflexivity|].
  intros text. unfold parsePhoneNumbers, parseSpreadsheet, parseText. simpl.
  destruct text as [|c r]; [reflexivity|]. simpl negb. cbv iota.
  rewrite uniqueViaSet_firstOccurrences.
  now rewrite (map_ext clean stripNonDigits clean_is_strip).
Qed.

(** C1, as the code has it: when no spreadsheet is uploaded in the 'excel'
    field, the recipients resolved by the unified parser have no
    duplicates and no empty entry, and are digits only as long as every
    numeric spreadsheet cell is a non-negative integer that prints as plain
    digits; when a spreadsheet is uploaded in the 'excel' field, every
    recipient is non-empty and is an optional plus sign followed by 10 to 15
    digits. *)
Theorem C1_resolved_recipients (fs : FileSystem) (req : Request)
        (excel : list UploadedFile) (numbers : list string) :
  resolveNumbers fs req excel = Ok numbers ->
  (excel = [] ->
     NoDup numbers
     /\ (forall x, In x numbers -> x <> EmptyString)
     /\ (plainNumericCells fs req ->
         forall x, In x numbers -> allDigits x = true))
  /\ (excel <> [] ->
      forall x, In x numbers ->
        x <> EmptyString
        /\ exists digits,
             (x = digits \/ x = String "+" digits)
             /\ allDigits digits = true
             /\ (10 <= String.length digits <= 15)%nat).
Proof.
  intros H. split.
  - intros ->. simpl in H.
    apply parsePhoneNumbers_order in H
      as [fromSheet [textNumbers [Hs [Ht ->]]]].
    assert (Hall : forall x,
               In x (fromSheet ++ parseList (body_numbers req) ++ textNumbers) ->
               x <> EmptyString
               /\ (plainNumericCells fs req -> allDigits x = true)).
    { intros x Hx. apply in_app_or in Hx as [Hx|Hx].
      - exact (parseSpreadsheet_sound fs req fromSheet x Hs Hx).
      - apply in_app_or in Hx as [Hx|Hx].
        + apply parseList_sound in Hx as [? ?]. split; auto.
        + apply (parseText_sound _ _ _ Ht) in Hx as [? ?]. split; auto. }
    split; [apply NoDup_firstOccurrences|]. split.
    + intros x Hx. apply (proj1 (In_firstOccurrences _ _)) in Hx.
      exact (proj1 (Hall x Hx)).
    + intros Hplain x Hx. apply (proj1 (In_firstOccurrences _ _)) in Hx.
      exact (proj2 (Hall x Hx) Hplain).
  - intros Hne x Hx. destruct excel as [|f rest]; [congruence|].
    simpl in H. injection H as <-.
    apply extractNumbersFromExcel_valid in Hx.
    apply validatePhoneNumber_shape in Hx as [digits [Hshape [Hd Hlen]]].
    split; [|now exists digits].
    destruct Hshape as [-> | ->]; [|discriminate].
    intros ->. simpl in Hlen. lia.
Qed.

(** On the text request the theorem applies to the parser path: its three
    recipients are distinct and digits only. *)
Lemma C1_resolved_recipients_witness :
  NoDup ["5550002222"; "5550003333"; "15550001111"]
  /\ allDigits "15550001111" = true.
Proof.
  assert (Hplain : plainNumericCells emptyDisk textRequest)
    by (intros f wb ws row n Hf; discriminate Hf).
  pose proof (C1_resolved_recipients emptyDisk textRequest []
                ["5550002222"; "5550003333"; "15550001111"] eq_refl) as [H _].
  destruct (H eq_refl) as [Hnd [_ Hdig]].
  split; [exact Hnd|].
  apply (Hdig Hplain). right. right. left. reflexivity.
Defined.

(** C1 fails as stated: a spreadsheet uploaded in the 'excel' field whose
    column A repeats "+911234567890" resolves to that entry twice, plus
    sign kept. *)
Lemma C1_excel_upload_counterexample :
  resolveNumbers repeatedDisk excelRequest [ {| path := uploadPath |} ]
  = Ok ["+911234567890"; "+911234567890"]
  /\ ~ NoDup ["+911234567890"; "+911234567890"]
  /\ allDigits "+911234567890" = false.
Proof.
  split; [reflexivity|]. split; [|reflexivity].
  intros H. inversion H as [|x l Hin _]. apply Hin. now left.
Qed.

End RecipientSet.

(* ------------------------------------------------------------------ *)
(** ** Order and delays of the dispatch loop *)

Section DispatchTheorems.
Import Vocabulary Scenarios.

Lemma le_not_gt (a b : number) : le a b = true -> gt a b = false.
Proof.
  unfold le. destruct a, b; simpl; try discriminate;
    intros H; try reflexivity; now apply Bool.negb_true_iff in H.
Qed.

Lemma world_random_range (fs : FileSystem) (h : History) :
  0 <= Math_random (plainWorld fs) h /\ Math_random (plainWorld fs) h < 1.
Proof.
  simpl. pose proof (Z.mod_pos_bound (Z.of_nat (List.length h)) 10 eq_refl).
  unfold Qle, Qlt. simpl. lia.
Qed.

(** C9, as the code has it: when no spreadsheet is uploaded in the
    'excel' field, the resolved recipients are the first occurrences of
    the parser's spreadsheet rows, then the explicit list, then the
    text-block entries; and whatever list was resolved, the dispatch loop
    returns, having sent to its entries one by one in the list's order. *)
Theorem C9_recipient_order (env : Env) (req : Request)
        (excel : list UploadedFile) (numbers : list string)
        (delaySeconds message : Value) (mediaPath : option string)
        (h : History) :
  resolveNumbers (disk env) req excel = Ok numbers ->
  (excel = [] ->
     exists fromSheet textNumbers,
       parseSpreadsheet (disk env) req = Ok fromSheet
       /\ parseText (body_numbersText req) = Ok textNumbers
       /\ numbers =
          firstOccurrences
            (fromSheet ++ parseList (body_numbers req) ++ textNumbers))
  /\ exists results tr,
       dispatchLoop env delaySeconds message mediaPath numbers h
       = (Ok results, tr)
       /\ map phoneNumber results = numbers
       /\ checkedIds tr = map formatNumber numbers.
Proof.
  intros H. split.
  - intros ->. now apply parsePhoneNumbers_order.
  - destruct (dispatchFrom_spec env delaySeconds message mediaPath numbers
                0%nat [] h) as [outs [tr [Hrun [Hp [_ [Hc _]]]]]].
    exists outs, tr. repeat split; assumption.
Qed.

(** On the text request: the list entries come first, the text block adds
    only what is new, and the sends go out in that order. *)
Lemma C9_recipient_order_witness :
  firstOccurrences
    (["5550002222"; "5550003333"]
       ++ ["15550001111"; "5550002222"; "5550002222"])
  = ["5550002222"; "5550003333"; "15550001111"]
  /\ exists results tr,
       dispatchLoop (plainWorld emptyDisk) (Str "10") (Str "hello") None
                    ["5550002222"; "5550003333"; "15550001111"] []
       = (Ok results, tr)
       /\ map phoneNumber results
          = ["5550002222"; "5550003333"; "15550001111"]
       /\ checkedIds tr
          = map formatNumber ["5550002222"; "5550003333"; "15550001111"].
Proof.
  split; [reflexivity|].
  exact (proj2 (C9_recipient_order (plainWorld emptyDisk) textRequest []
                  ["5550002222"; "5550003333"; "15550001111"]
                  (Str "10") (Str "hello") None [] eq_refl)).
Defined.

(** C9 fails as stated: with a spreadsheet uploaded in the 'excel' field
    the loop sends to the repeated row twice and never to the number of
    the explicit list. *)
Lemma C9_excel_upload_counterexample :
  checkedIds (snd (postSend (plainWorld repeatedDisk) true excelRequest []))
  = ["+911234567890@c.us"; "+911234567890@c.us"]
  /\ parseList (body_numbers excelRequest) = ["1234567890"]
  /\ firstOccurrences (["+911234567890"; "+911234567890"] ++ ["1234567890"])
     = ["+911234567890"; "1234567890"].
Proof. repeat split. Qed.

(** C2: the loop's events begin with the first send, which itself never
    sleeps, so no sleep comes before it; with [delaySeconds <= 3] the loop
    never sleeps; with [delaySeconds = 10] every sleep lasts a whole
    number of seconds between 3 and 10, whatever numbers in [0, 1) the
    random source gives. *)
Theorem C2_dispatch_delays (env : Env) (delaySeconds message : Value)
        (mediaPath : option string) (numbers : list string) (h : History) :
  (forall h', 0 <= Math_random env h' /\ Math_random env h' < 1) ->
  let tr := snd (dispatchLoop env delaySeconds message mediaPath numbers h) in
  (forall n rest, numbers = n :: rest ->
     existsb isSleep (snd (sendMessage env n message mediaPath h)) = false
     /\ exists later,
          tr = snd (sendMessage env n message mediaPath h) ++ later)
  /\ (le (ToNumber delaySeconds) (ofZ 3) = true ->
      forall ms, ~ In (Sleep ms) tr)
  /\ (forall q, ToNumber delaySeconds = Fin q -> q == 10 ->
      forall ms, In (Sleep ms) tr -> wholeSecondsBetween 3 10 ms).
Proof.
  intros Hrand tr.
  destruct (dispatchFrom_spec env delaySeconds message mediaPath numbers
              0%nat [] h) as [outs [tr' [Hrun [_ [_ [_ [Hsl Hfirst]]]]]]].
  assert (Etr : tr = tr') by (unfold tr, dispatchLoop; now rewrite Hrun).
  rewrite Etr. clear Etr tr. split; [|split].
  - intros n rest E. split; [|exact (Hfirst n rest E eq_refl)].
    destruct (sendMessage_returns env n message mediaPath h)
      as [o [t [Hs [_ [_ [_ [Hno _]]]]]]].
    now rewrite Hs.
  - intros Hle ms Hin. apply Hsl in Hin as [Hgt _].
    apply le_not_gt in Hle. congruence.
  - intros q Hq H10 ms Hin. apply Hsl in Hin as [_ [h' ->]].
    apply (sleep_range delaySeconds q _ 10 Hq H10); [lia| |]; apply Hrand.
Qed.

(** With [delaySeconds = "10"] and three recipients, the first sleep of
    the run lasts a whole number of seconds between 3 and 10. *)
Lemma C2_dispatch_delays_witness :
  exists ms,
    nth_error (snd (dispatchLoop (plainWorld emptyDisk) (Str "10")
                                 (Str "hello") None
                                 ["5550002222"; "5550003333"; "15550001111"]
                                 [])) 3
    = Some (Sleep ms)
    /\ wholeSecondsBetween 3 10 ms.
Proof.
  eexists. split; [reflexivity|].
  refine (proj2 (proj2 (C2_dispatch_delays (plainWorld emptyDisk) (Str "10")
                          (Str "hello") None
                          ["5550002222"; "5550003333"; "15550001111"] []
                          (world_random_range emptyDisk)))
                10 eq_refl (Qeq_refl 10) _ _).
  right. right. right. left. reflexivity.
Defined.

(** C10: whatever the request holds in [delaySeconds] (absent, a text
    that is no number, any other value), the delay step returns without
    throwing, the loop returns with one gateway outcome per recipient (no
    turn ends in its catch), and when the value is not greater than 3 as
    a number (which covers a failed conversion and the default 1 of an
    absent field) the loop never sleeps. *)
Theorem C10_delay_total (env : Env) (field message : Value)
        (mediaPath : option string) (numbers : list string) (h : History) :
  let delaySeconds := withDefault field (Num (Fin 1)) in
  (forall i h', exists tr, delayBefore env i delaySeconds h' = (Ok tt, tr))
  /\ (exists results tr,
        dispatchLoop env delaySeconds message mediaPath numbers h
        = (Ok results, tr)
        /\ map phoneNumber results = numbers
        /\ Forall (fun o => status o <> None) results
        /\ (gt (ToNumber delaySeconds) (ofZ 3) = false ->
            forall ms, ~ In (Sleep ms) tr))
  /\ (ToNumber delaySeconds = NaN \/ field = Undefined
      \/ le (ToNumber delaySeconds) (ofZ 3) = true
      -> gt (ToNumber delaySeconds) (ofZ 3) = false).
Proof.
  intros delaySeconds. split; [|split].
  - intros i h'. rewrite delayBefore_unfold.
    destruct (delayDue i delaySeconds); eexists; reflexivity.
  - destruct (dispatchFrom_spec env delaySeconds message mediaPath numbers
                0%nat [] h) as [outs [tr [Hrun [Hp [Hst [_ [Hsl _]]]]]]].
    exists outs, tr. repeat split; try assumption.
    intros Hgt ms Hin. apply Hsl in Hin as [Hgt' _]. congruence.
  - intros [H|[H|H]].
    + now rewrite H.
    + unfold delaySeconds. now rewrite H.
    + now apply le_not_gt.
Qed.

(** A text that is no number, and an absent field, give a loop without
    sleeps. *)
Lemma C10_delay_total_witness :
  gt (ToNumber (withDefault (Str "soon") (Num (Fin 1)))) (ofZ 3) = false
  /\ gt (ToNumber (withDefault Undefined (Num (Fin 1)))) (ofZ 3) = false.
Proof.
  split.
  - exact (proj2 (proj2 (C10_delay_total (plainWorld emptyDisk) (Str "soon")
                           (Str "hello") None ["5550002222"] []))
                 (or_introl eq_refl)).
  - exact (proj2 (proj2 (C10_delay_total (plainWorld emptyDisk) Undefined
                           (Str "hello") None ["5550002222"] []))
                 (or_intror (or_introl eq_refl))).
Defined.

End DispatchTheorems.

(* ------------------------------------------------------------------ *)
(** ** Outcomes of the gateway, status codes of the handler, export *)

Section GatewayTheorems.
Import Vocabulary Scenarios.

(** C5: [sendMessage] always returns an outcome (it never throws).  When
    the registration check answers "not registered" the outcome is
    [not_registered] with [success = false], and the check is the only
    call made: no send is attempted.  When the registration check, the
    loading of the media or the send throws, the outcome is [error] with
    [success = false] and the message of what was thrown. *)
Theorem C5_sendMessage_outcomes (env : Env) (p : string) (message : Value)
        (mediaPath : option string) (h : History) :
  let fn := formatNumber p in
  let h1 := h ++ [IsRegisteredUser fn] in
  let run := sendMessage env p message mediaPath h in
  (exists o tr, run = (Ok o, tr))
  /\ (client_isRegisteredUser env h fn = Ok false ->
      run = (Ok (unregisteredOutcome p), [IsRegisteredUser fn]))
  /\ (forall e, client_isRegisteredUser env h fn = Throw e ->
      run = (Ok (failedOutcome p e), [IsRegisteredUser fn]))
  /\ (forall e path,
        client_isRegisteredUser env h fn = Ok true ->
        givenPath mediaPath = Some path ->
        MessageMedia_fromFilePath env h1 path = Throw e ->
        fst run = Ok (failedOutcome p e))
  /\ (forall e path u,
        client_isRegisteredUser env h fn = Ok true ->
        givenPath mediaPath = Some path ->
        MessageMedia_fromFilePath env h1 path = Ok u ->
        client_sendMessage env (h1 ++ [FromFilePath path]) fn
                           (MediaContent path message) = Throw e ->
        fst run = Ok (failedOutcome p e))
  /\ (forall e,
        client_isRegisteredUser env h fn = Ok true ->
        givenPath mediaPath = None ->
        client_sendMessage env h1 fn (TextContent message) = Throw e ->
        fst run = Ok (failedOutcome p e)).
Proof.
  intros fn h1 run.
  split.
  { destruct (sendMessage_returns env p message mediaPath h)
      as [o [tr [Hs _]]]. now exists o, tr. }
  unfold run. rewrite sendMessage_unfold. cbv zeta. fold fn. fold h1.
  repeat split.
  - intros ->. reflexivity.
  - intros e ->. reflexivity.
  - intros e path -> -> ->. reflexivity.
  - intros e path u -> -> -> ->. reflexivity.
  - intros e -> -> ->. reflexivity.
Qed.

(** In a world where no number is registered the outcome is
    [not_registered] and the trace holds the check alone. *)
Lemma C5_sendMessage_outcomes_witness :
  sendMessage (world emptyDisk (Ok false) bareChat (Ok None) (Ok None) noDetails)
              "5550002222" (Str "hello") None []
  = (Ok (unregisteredOutcome "5550002222"),
     [IsRegisteredUser "5550002222@c.us"]).
Proof.
  exact (proj1 (proj2 (C5_sendMessage_outcomes
                         (world emptyDisk (Ok false) bareChat (Ok None)
                                (Ok None) noDetails)
                         "5550002222" (Str "hello") None []))
               eq_refl).
Defined.

(** C4, as the code has it: a missing or empty message gives 400 whether
    or not the client is ready; a message with the client not ready gives
    503 whatever the recipients are; a message with the client ready and
    no recipient resolved gives 400.  In each case the response is all
    that happens. *)
Theorem C4_send_status_codes (env : Env) (isClientReady : bool)
        (req : Request) (h : History) :
  let run := postSend env isClientReady req h in
  (truthy (body_message req) = false ->
   responseStatus run = Some 400%nat /\ snd run = [Respond 400])
  /\ (truthy (body_message req) = true -> isClientReady = false ->
      responseStatus run = Some 503%nat /\ snd run = [Respond 503])
  /\ (truthy (body_message req) = true -> isClientReady = true ->
      forall media excel,
        files req = Some (media, excel) ->
        resolveNumbers (disk env) req excel = Ok [] ->
        responseStatus run = Some 400%nat /\ snd run = [Respond 400]).
Proof.
  intros run. unfold run, postSend, responseStatus, tryCatch.
  split; [|split].
  - intros Hm. rewrite Hm. split; reflexivity.
  - intros Hm Hr. rewrite Hm, Hr. split; reflexivity.
  - intros Hm Hr media excel Hf Hn. rewrite Hm, Hr, Hf.
    unfold bind, lift. rewrite Hn. split; reflexivity.
Qed.

(** Past the three checks the handler answers 200 and then runs the
    loop over the resolved recipients, with the default applied to
    [delaySeconds] and the first 'media' upload as the media path. *)
Lemma postSend_started (env : Env) (req : Request) (h : History)
      (media excel : list UploadedFile) (numbers : list string) :
  truthy (body_message req) = true ->
  files req = Some (media, excel) ->
  resolveNumbers (disk env) req excel = Ok numbers ->
  numbers <> [] ->
  let delaySeconds := withDefault (body_delaySeconds req) (Num (Fin 1)) in
  let mediaPath := option_map path (hd_error media) in
  exists results tr,
    dispatchLoop env delaySeconds (body_message req) mediaPath numbers
                 (h ++ [Respond 200])
    = (Ok results, tr)
    /\ postSend env true req h
       = (Ok ({| statusCode := 200;
                 body := Started (List.length numbers)
                                 (match givenPath mediaPath with
                                  | Some _ => true
                                  | None => false
                                  end)
                                 delaySeconds |}, results),
          Respond 200 :: tr).
Proof.
  intros Hm Hf Hn Hne delaySeconds mediaPath.
  destruct (dispatchFrom_spec env delaySeconds (body_message req) mediaPath
              numbers 0%nat [] (h ++ [Respond 200]))
    as [outs [tr [Hrun _]]].
  exists outs, tr. split; [exact Hrun|].
  assert (E : match media with
              | f :: _ => Some (path f)
              | [] => None
              end = mediaPath) by (unfold mediaPath; destruct media; reflexivity).
  unfold postSend, tryCatch, bind, lift, perform, ret.
  rewrite Hm, Hf. simpl. rewrite Hn.
  destruct numbers as [|n rest]; [congruence|]. simpl.
  rewrite E, app_nil_r. fold delaySeconds.
  unfold dispatchLoop. rewrite Hrun. simpl. now rewrite app_nil_r.
Qed.

(** A request with a message, a ready client and no recipient: 400. *)
Lemma C4_send_status_codes_witness :
  responseStatus (postSend (plainWorld emptyDisk) true noRecipientRequest [])
  = Some 400%nat.
Proof.
  exact (proj1 (proj2 (proj2 (C4_send_status_codes (plainWorld emptyDisk) true
                                noRecipientRequest []))
                      eq_refl eq_refl [] [] eq_refl eq_refl)).
Defined.

(** C4 fails as stated: with the client not ready, a request without a
    message is answered 400, not 503. *)
Lemma C4_not_ready_counterexample :
  responseStatus (postSend (plainWorld emptyDisk) false noMessageRequest [])
  = Some 400%nat
  /\ responseStatus (postSend (plainWorld emptyDisk) false noMessageRequest [])
     <> Some 503%nat.
Proof. split; [reflexivity | discriminate]. Qed.

(** C8: exporting an empty list of contacts writes a workbook whose first
    worksheet holds the header row (Name, Number, Is Saved Contact,
    Is Business, WhatsApp ID) and no other row. *)
Theorem C8_export_empty (fs : FileSystem) (filename : string) :
  exists ws,
    snd (generateExcelFile fs [] filename)
        (fst (generateExcelFile fs [] filename))
    = XlsxFile [ws]
    /\ firstWorksheet [ws] = Some ws
    /\ sheetRows ws
       = [ [CString "Name"; CString "Number"; CString "Is Saved Contact";
            CString "Is Business"; CString "WhatsApp ID"] ]
    /\ tl (sheetRows ws) = [].
Proof.
  eexists. unfold generateExcelFile, writeFile. simpl.
  rewrite String.eqb_refl. repeat split.
Qed.

(** In general the sheet holds the header row and one row per contact. *)
Lemma generateExcelFile_rows (fs : FileSystem) (contacts : list Contact)
      (filename : string) :
  snd (generateExcelFile fs contacts filename)
      (fst (generateExcelFile fs contacts filename))
  = XlsxFile [ {| sheetId := 1; sheetName := "Contacts";
                  sheetRows := headerRow :: map rowOf contacts |} ]
  /\ List.length (headerRow :: map rowOf contacts) = S (List.length contacts).
Proof.
  unfold generateExcelFile, writeFile. simpl.
  rewrite String.eqb_refl, length_map. split; reflexivity.
Qed.

End GatewayTheorems.

(* ------------------------------------------------------------------ *)
(** ** Directory extractor *)

Section ExtractorFacts.
Import Vocabulary Scenarios.

(** The loop body, one answer of the world at a time. *)
Lemma contactOf_unfold (env : Env) (participant : Participant) (h : History) :
  contactOf env participant h =
  let basic := match basicId participant with
               | Some s => [degradedContact s]
               | None => []
               end in
  match participantIdOf participant with
  | None => (Ok [], [])
  | Some pid =>
      if truthyId pid then
        match client_getContactById env h pid with
        | Throw _ => (Ok basic, [GetContactById pid])
        | Ok contact =>
            let record num :=
              {| id := pid; Extractor.number := num;
                 name := orElse (contact_name contact)
                           (orElse (contact_pushname contact) "Unknown");
                 isMyContact := match contact_isMyContact contact with
                                | Some b => b
                                | None => false
                                end;
                 isBusiness := None |} in
            match someText (contact_number contact) with
            | Some num => (Ok [record num], [GetContactById pid])
            | None =>
                match splitId pid with
                | Ok num => (Ok [record num], [GetContactById pid])
                | Throw _ => (Ok basic, [GetContactById pid])
                end
            end
        end
      else (Ok [], [])
  end.
Proof.
  unfold contactOf, tryCatch, bind, perform, ret, lift, degradedContact.
  destruct (participantIdOf participant) as [pid|]; [|reflexivity].
  destruct (truthyId pid); simpl; [|reflexivity].
  destruct (client_getContactById env h pid) as [contact|e]; simpl.
  - destruct (someText (contact_number contact)) as [num|]; simpl;
      [reflexivity|].
    destruct (splitId pid) as [num|e]; simpl; [reflexivity|].
    destruct (basicId participant); reflexivity.
  - destruct (basicId participant); reflexivity.
Qed.

Lemma contactOf_events (env : Env) (participant : Participant) (h : History) :
  exists cs tr,
    contactOf env participant h = (Ok cs, tr)
    /\ forallb isContactLookup tr = true.
Proof.
  rewrite contactOf_unfold. cbv zeta.
  destruct (participantIdOf participant) as [pid|];
    [|eexists; eexists; split; reflexivity].
  destruct (truthyId pid); [|eexists; eexists; split; reflexivity].
  destruct (client_getContactById env h pid) as [contact|e];
    [|eexists; eexists; split; reflexivity].
  destruct (someText (contact_number contact));
    [eexists; eexists; split; reflexivity|].
  destruct (splitId pid); eexists; eexists; split; reflexivity.
Qed.

(** The loop over the participants never throws and asks the world for
    contact details only. *)
Lemma contactsOf_events (env : Env) (l : list Participant) :
  forall h, exists cs tr,
    contactsOf env l h = (Ok cs, tr)
    /\ forallb isContactLookup tr = true.
Proof.
  induction l as [|p rest IH]; intros h.
  - exists [], []. split; reflexivity.
  - destruct (contactOf_events env p h) as [cs [t1 [H1 F1]]].
    destruct (IH (h ++ t1)) as [more [t2 [H2 F2]]].
    exists (cs ++ more), (t1 ++ t2). split.
    + simpl. unfold bind. rewrite H1, H2. simpl.
      now rewrite app_nil_r.
    + rewrite forallb_app. now rewrite F1, F2.
Qed.

Lemma lookup_not_fetch (tr : list Event) (cid : string) :
  forallb isContactLookup tr = true -> ~ In (GetGroupMetadata cid) tr.
Proof.
  intros F Hin. rewrite forallb_forall in F.
  specialize (F _ Hin). discriminate.
Qed.

(** The strategies run when the chat carries the participant array:
    nothing is asked of the world, unless the array is empty and the last
    resort is entered. *)
Lemma resolveParticipants_metadata (env : Env) (chat : Chat)
      (l : list Participant) (h : History) :
  metadataParticipants chat = Some l ->
  exists l' tr,
    resolveParticipants env chat h = (Ok (Some l'), tr)
    /\ (tr = [] \/ tr = [Evaluate (chatId chat)])
    /\ (l <> [] -> l' = l /\ tr = []).
Proof.
  unfold metadataParticipants. intros Hm.
  destruct (groupMetadata chat) as [[l'|]|] eqn:Hg; try discriminate.
  injection Hm as ->.
  unfold resolveParticipants, standardMethods, bind. rewrite Hg.
  unfold ret. simpl. unfold alternativeApproach.
  destruct l as [|p rest]; simpl.
  - unfold tryCatch, bind, perform, ret.
    destruct (pupPage_evaluate env _ (chatId chat)) as [[[|r rs]|]|e];
      eexists; eexists; (split; [reflexivity|]);
      (split; [now right | congruence]).
  - unfold ret. eexists. eexists. split; [reflexivity|].
    split; [now left | now split].
Qed.

(** The strategies run when the chat carries no participant array and
    the metadata fetch answers a list that is not empty. *)
Lemma resolveParticipants_fetched (env : Env) (chat : Chat)
      (l : list Participant) (h : History) :
  metadataParticipants chat = None ->
  client_getGroupMetadata env h (chatId chat) = Ok (Some l) ->
  l <> [] ->
  resolveParticipants env chat h
  = (Ok (Some l), [GetGroupMetadata (chatId chat)]).
Proof.
  unfold metadataParticipants. intros Hm Hf Hne.
  unfold resolveParticipants, standardMethods, bind, tryCatch, perform, ret.
  destruct (groupMetadata chat) as [[l'|]|]; try discriminate;
    rewrite Hf; unfold alternativeApproach;
    (destruct l as [|p rest]; [congruence|]); reflexivity.
Qed.

(** The strategies run when the chat carries no participant array and
    the metadata fetch answers an empty list, or metadata without a
    participant list: nothing counts as found, and the in-page evaluation
    runs next; its non-empty answer is the list used, and the list stays
    empty otherwise. *)
Lemma resolveParticipants_empty_fetch (env : Env) (chat : Chat)
      (fetched : option (list Participant)) (h : History) :
  metadataParticipants chat = None ->
  client_getGroupMetadata env h (chatId chat) = Ok fetched ->
  fetched = None \/ fetched = Some [] ->
  resolveParticipants env chat h
  = (Ok (Some (match pupPage_evaluate env
                       (h ++ [GetGroupMetadata (chatId chat)]) (chatId chat)
               with
               | Ok (Some (r :: rs)) => map ofRaw (r :: rs)
               | _ => []
               end)),
     [GetGroupMetadata (chatId chat); Evaluate (chatId chat)]).
Proof.
  unfold metadataParticipants. intros Hm Hf Hempty.
  unfold resolveParticipants, standardMethods, bind, tryCatch, perform, ret.
  destruct (groupMetadata chat) as [[l'|]|]; try discriminate;
    rewrite Hf; unfold alternativeApproach;
    (destruct Hempty as [-> | ->]); simpl;
    unfold tryCatch, bind, perform, ret;
    destruct (pupPage_evaluate env _ (chatId chat)) as [[[|r rs]|]|e];
    reflexivity.
Qed.

(** The strategies run when the chat carries no participant array and
    the metadata fetch throws: the property is asked next, and the
    in-page evaluation, if it runs at all, runs last. *)
Lemma resolveParticipants_fallback (env : Env) (chat : Chat) (e : Error)
      (ev : Event) (h : History) :
  metadataParticipants chat = None ->
  client_getGroupMetadata env h (chatId chat) = Throw e ->
  propertyEvent chat = Some ev ->
  exists r rest,
    resolveParticipants env chat h
    = (Ok r, GetGroupMetadata (chatId chat) :: ev :: rest)
    /\ (rest = [] \/ rest = [Evaluate (chatId chat)]).
Proof.
  unfold metadataParticipants, propertyEvent. intros Hm Hf Hp.
  unfold resolveParticipants, standardMethods, bind, tryCatch, perform, ret.
  assert (Halt : forall parts h',
             exists r rest,
               alternativeApproach env chat parts h' = (Ok r, rest)
               /\ (rest = [] \/ rest = [Evaluate (chatId chat)])).
  { intros parts h'. unfold alternativeApproach.
    destruct (noneFound parts).
    - unfold tryCatch, bind, perform, ret.
      destruct (pupPage_evaluate env h' (chatId chat)) as [[[|x xs]|]|e'];
        eexists; eexists; split; try reflexivity; now right.
    - unfold ret. eexists; eexists; split; [reflexivity | now left]. }
  destruct (groupMetadata chat) as [[l'|]|]; try discriminate;
    rewrite Hf; simpl;
    destruct (participantsProperty chat); try discriminate;
    injection Hp as <-; simpl.
  all: match goal with
       | |- context [chat_participants_call ?en ?x] =>
           destruct (chat_participants_call en x) as [parts|e']
       | |- context [chat_participants_await ?en ?x] =>
           destruct (chat_participants_await en x) as [parts|e']
       end; simpl.
  all: match goal with
       | |- context [alternativeApproach ?en ?c ?parts ?h'] =>
           destruct (Halt parts h') as [r [rest [Ha Hrest]]]; rewrite Ha;
           exists r, rest; split; [reflexivity | exact Hrest]
       end.
Qed.

(** [extractGroupContacts] once the chat is found and the participants
    are resolved. *)
Lemma extractGroupContacts_unfold (env : Env) (gid : string) (chat : Chat)
      (h : History) (r : option (list Participant)) (tr : list Event) :
  client_getChatById env h gid = Ok chat ->
  resolveParticipants env chat (h ++ [GetChatById gid]) = (Ok r, tr) ->
  extractGroupContacts env gid h =
  match r with
  | None => (Ok (Failed "participants is not iterable"), GetChatById gid :: tr)
  | Some l =>
      match contactsOf env l ((h ++ [GetChatById gid]) ++ tr) with
      | (Ok cs, tr2) =>
          (Ok (Extracted (chatName chat) (List.length l) cs),
           GetChatById gid :: tr ++ tr2)
      | (Throw e, tr2) => (Ok (Failed e), GetChatById gid :: tr ++ tr2)
      end
  end.
Proof.
  intros Hc Hr. unfold extractGroupContacts, tryCatch, bind, perform.
  rewrite Hc, Hr. destruct r as [l|].
  - destruct (contactsOf env l _) as [[cs|e] tr2]; simpl;
      now rewrite !app_nil_r.
  - simpl. now rewrite !app_nil_r.
Qed.

End ExtractorFacts.

Section ExtractorTheorems.
Import Vocabulary Scenarios.

(** C3, as the code has it: once the chat is found, (1) when it carries
    the participant array in its metadata, the metadata fetch is never
    called; (2) when it does not and the fetch answers a list that is not
    empty, that list is the one used: its length is the participant count,
    its members are the ones looked up, and only contact lookups follow
    the fetch; (3) when it does not and the fetch answers an empty list, or
    metadata without a participant list, nothing counts as found and the
    run falls through to the in-page evaluation, called right after the
    fetch: the list used is the one it answers when that is not empty, and
    the empty list otherwise (also when it throws), and only contact
    lookups follow; (4) when it does not and the fetch throws, a callable
    or deferred [participants] property is asked right after the fetch,
    the in-page evaluation comes after it if it comes at all, and the
    contact lookups come last. *)
Theorem C3_fallback_order (env : Env) (gid : string) (chat : Chat)
        (h : History) :
  client_getChatById env h gid = Ok chat ->
  let h1 := h ++ [GetChatById gid] in
  let cid := chatId chat in
  let run := extractGroupContacts env gid h in
  (forall l, metadataParticipants chat = Some l ->
     forall c, ~ In (GetGroupMetadata c) (snd run))
  /\ (forall l,
        metadataParticipants chat = None ->
        client_getGroupMetadata env h1 cid = Ok (Some l) ->
        l <> [] ->
        exists contacts lookups,
          run = (Ok (Extracted (chatName chat) (List.length l) contacts),
                 GetChatById gid :: GetGroupMetadata cid :: lookups)
          /\ contactsOf env l (h1 ++ [GetGroupMetadata cid])
             = (Ok contacts, lookups)
          /\ forallb isContactLookup lookups = true)
  /\ (forall fetched,
        metadataParticipants chat = None ->
        client_getGroupMetadata env h1 cid = Ok fetched ->
        fetched = None \/ fetched = Some [] ->
        let used :=
          match pupPage_evaluate env (h1 ++ [GetGroupMetadata cid]) cid with
          | Ok (Some (r :: rs)) => map ofRaw (r :: rs)
          | _ => []
          end in
        exists contacts lookups,
          run = (Ok (Extracted (chatName chat) (List.length used) contacts),
                 GetChatById gid :: GetGroupMetadata cid :: Evaluate cid
                   :: lookups)
          /\ contactsOf env used
               (h1 ++ [GetGroupMetadata cid; Evaluate cid])
             = (Ok contacts, lookups)
          /\ forallb isContactLookup lookups = true)
  /\ (forall e ev,
        metadataParticipants chat = None ->
        client_getGroupMetadata env h1 cid = Throw e ->
        propertyEvent chat = Some ev ->
        exists rest lookups,
          snd run
          = GetChatById gid :: GetGroupMetadata cid :: ev :: rest ++ lookups
          /\ (rest = [] \/ rest = [Evaluate cid])
          /\ forallb isContactLookup lookups = true).
Proof.
  intros Hc h1 cid run. split; [|split; [|split]].
  - intros l Hm c Hin.
    destruct (resolveParticipants_metadata env chat l h1 Hm)
      as [l' [tr [Hr [Htr _]]]].
    unfold run in Hin.
    rewrite (extractGroupContacts_unfold env gid chat h _ _ Hc Hr) in Hin.
    destruct (contactsOf_events env l' (h1 ++ tr)) as [cs [tr2 [H2 F2]]].
    fold h1 in Hin. rewrite H2 in Hin. simpl in Hin.
    destruct Hin as [Hin|Hin]; [discriminate|].
    apply in_app_or in Hin as [Hin|Hin].
    + destruct Htr as [-> | ->]; [contradiction|].
      destruct Hin as [Hin|[]]; discriminate.
    + exact (lookup_not_fetch _ _ F2 Hin).
  - intros l Hm Hf Hne.
    pose proof (resolveParticipants_fetched env chat l h1 Hm Hf Hne) as Hr.
    destruct (contactsOf_events env l (h1 ++ [GetGroupMetadata cid]))
      as [cs [tr2 [H2 F2]]].
    exists cs, tr2. split; [|split; assumption].
    unfold run.
    rewrite (extractGroupContacts_unfold env gid chat h _ _ Hc Hr).
    fold h1. fold cid. now rewrite H2.
  - intros fetched Hm Hf Hempty used.
    pose proof (resolveParticipants_empty_fetch env chat fetched h1 Hm Hf
                  Hempty) as Hr.
    fold cid in Hr. fold used in Hr.
    destruct (contactsOf_events env used
                (h1 ++ [GetGroupMetadata cid; Evaluate cid]))
      as [cs [tr2 [H2 F2]]].
    exists cs, tr2. split; [|split; assumption].
    unfold run.
    rewrite (extractGroupContacts_unfold env gid chat h _ _ Hc Hr).
    fold h1. fold cid. now rewrite H2.
  - intros e ev Hm Hf Hp.
    destruct (resolveParticipants_fallback env chat e ev h1 Hm Hf Hp)
      as [r [rest [Hr Hrest]]].
    unfold run.
    rewrite (extractGroupContacts_unfold env gid chat h _ _ Hc Hr).
    destruct r as [l|].
    + destruct (contactsOf_events env l
                  (h1 ++ GetGroupMetadata cid :: ev :: rest))
        as [cs [tr2 [H2 F2]]].
      fold h1. fold cid. rewrite H2. exists rest, tr2.
      repeat split; assumption.
    + exists rest, []. simpl. rewrite app_nil_r. repeat split; assumption.
Qed.

(** In a world whose fetch answers one participant, that participant is
    the one counted and looked up. *)
Lemma C3_fallback_order_witness :
  exists contacts lookups,
    extractGroupContacts fetchedWorld "120363000000000000@g.us" []
    = (Ok (Extracted "Team" 1 contacts),
       GetChatById "120363000000000000@g.us"
         :: GetGroupMetadata "120363000000000000@g.us" :: lookups)
    /\ contactsOf fetchedWorld [PText "15550001111@c.us"]
         (([] ++ [GetChatById "120363000000000000@g.us"])
            ++ [GetGroupMetadata "120363000000000000@g.us"])
       = (Ok contacts, lookups)
    /\ forallb isContactLookup lookups = true.
Proof.
  refine (proj1 (proj2 (C3_fallback_order fetchedWorld
                          "120363000000000000@g.us" bareChat [] eq_refl))
                [PText "15550001111@c.us"] eq_refl eq_refl _).
  discriminate.
Defined.

(** C3 fails as stated: here the chat carries no metadata and the fetch
    succeeds, with an empty list; the list used is then the one the
    in-page evaluation returns. *)
Lemma C3_empty_fetch_counterexample :
  client_getGroupMetadata emptyFetchWorld
    [GetChatById "120363000000000000@g.us"] "120363000000000000@g.us"
  = Ok (Some [])
  /\ extractGroupContacts emptyFetchWorld "120363000000000000@g.us" []
     = (Ok (Extracted "Team" 1
              [ {| id := IdText "15550001111@c.us";
                   Extractor.number := "15550001111";
                   name := "Ada"; isMyContact := true;
                   isBusiness := None |} ]),
        [GetChatById "120363000000000000@g.us";
         GetGroupMetadata "120363000000000000@g.us";
         Evaluate "120363000000000000@g.us";
         GetContactById (IdText "15550001111@c.us")]).
Proof. split; reflexivity. Qed.

(** When the lookup of a participant's details throws, the participant
    is kept as a degraded record exactly when the identifier the catch
    block computes is a text. *)
Lemma contactOf_lookup_fails (env : Env) (participant : Participant)
      (pid : IdValue) (e : Error) (h : History) :
  participantIdOf participant = Some pid ->
  truthyId pid = true ->
  client_getContactById env h pid = Throw e ->
  contactOf env participant h
  = (Ok (match basicId participant with
         | Some s => [degradedContact s]
         | None => []
         end),
     [GetContactById pid]).
Proof.
  intros Hp Ht He. rewrite contactOf_unfold. cbv zeta.
  now rewrite Hp, Ht, He.
Qed.

(** The shapes that survive a failed lookup: a plain text, and an object
    whose [id] is a text or carries one in [_serialized]. *)
Lemma basicId_kept (s : string) (ser : option string) :
  s <> EmptyString ->
  basicId (PText s) = Some s
  /\ basicId (PObject (Some (IdText s)) ser) = Some s
  /\ basicId (PObject (Some (IdRecord (Some s))) ser) = Some s.
Proof.
  intros Hs. destruct s; [congruence|]. repeat split.
Qed.

(** C6, at the failing input: a participant of the shape
    [{ _serialized: "491700000000@c.us" }] whose contact lookup throws is
    counted but left out of the contacts. *)
Theorem C6_serialized_participant_dropped :
  participantIdOf (PObject None (Some "491700000000@c.us"))
  = Some (IdText "491700000000@c.us")
  /\ extractGroupContacts refusingWorld "120363000000000000@g.us" []
     = (Ok (Extracted "Team" 1 []),
        [GetChatById "120363000000000000@g.us";
         GetContactById (IdText "491700000000@c.us")]).
Proof. split; reflexivity. Qed.

End ExtractorTheorems.

(* ================================================================== *)
(** * Further properties of the code *)

(* ------------------------------------------------------------------ *)
(** ** Connection lifecycle *)

Section LifecycleFacts.
Import Lifecycle.

Lemma afterEvents_snoc (evs : list ClientEvent) (ev : ClientEvent) :
  afterEvents (evs ++ [ev]) = onEvent (afterEvents evs) ev.
Proof. unfold afterEvents. now rewrite fold_left_app. Qed.

Lemma lastQrCode_afterEvents (evs : list ClientEvent) :
  lastQrCode (afterEvents evs) = lastQrOf evs.
Proof.
  induction evs as [|ev evs IH] using rev_ind; [reflexivity|].
  rewrite afterEvents_snoc. unfold lastQrOf in *.
  rewrite rev_app_distr. simpl. destruct ev; simpl; auto.
Qed.

(** X1: whatever events the client has emitted, the readiness flag is
    set exactly when the most recent event other than 'qr' is 'ready',
    and the stored code is the payload of the most recent 'qr' event
    (the empty text before the first one): a 'qr' event never changes
    readiness, and no other event changes or clears the stored code. *)
Theorem X1_lifecycle_state (evs : list ClientEvent) :
  isClientReady (afterEvents evs) = endsReady evs
  /\ lastQrCode (afterEvents evs) = lastQrOf evs
  /\ getStatus (afterEvents evs)
     = (if endsReady evs then "ready" else "not_ready").
Proof.
  assert (Hr : isClientReady (afterEvents evs) = endsReady evs).
  { induction evs as [|ev evs IH] using rev_ind; [reflexivity|].
    rewrite afterEvents_snoc. unfold endsReady in *.
    rewrite rev_app_distr. simpl. destruct ev; simpl; auto. }
  split; [exact Hr|]. split; [apply lastQrCode_afterEvents|].
  unfold getStatus. now rewrite Hr.
Qed.

(** X2: [GET /api/qrcode] hands out a code only while the client is not
    ready, and then it is the stored, non-empty one; once ready it answers
    "authenticated" whatever is stored.  The stored code outlives the
    session it opened: right after a 'disconnected' or 'auth_failure'
    event the route hands out the most recent code received before it,
    until a new 'qr' event replaces it. *)
Theorem X2_qrcode_route (evs : list ClientEvent) :
  (isClientReady (afterEvents evs) = true ->
   getQrcode (afterEvents evs) = Authenticated)
  /\ (forall q, getQrcode (afterEvents evs) = QrCode q ->
        isClientReady (afterEvents evs) = false
        /\ q = lastQrOf evs /\ q <> EmptyString)
  /\ (lastQrOf evs <> EmptyString ->
      getQrcode (afterEvents (evs ++ [Disconnected])) = QrCode (lastQrOf evs)
      /\ getQrcode (afterEvents (evs ++ [AuthFailure])) = QrCode (lastQrOf evs))
  /\ (forall q, q <> EmptyString ->
      getQrcode (afterEvents (evs ++ [Disconnected; Qr q])) = QrCode q).
Proof.
  pose proof (lastQrCode_afterEvents evs) as Hq.
  split; [|split; [|split]].
  - intros Hr. unfold getQrcode. now rewrite Hr.
  - intros q H. unfold getQrcode in H. rewrite <- Hq.
    destruct (isClientReady (afterEvents evs)); simpl in H; [discriminate|].
    destruct (lastQrCode (afterEvents evs)) eqn:E; simpl in H;
      [discriminate|]. injection H as <-.
    repeat split; discriminate.
  - intros Hne.
    rewrite !afterEvents_snoc. unfold getQrcode. simpl. rewrite Hq.
    destruct (lastQrOf evs); [congruence | split; reflexivity].
  - intros q Hne. change [Disconnected; Qr q] with ([Disconnected] ++ [Qr q]).
    rewrite app_assoc, !afterEvents_snoc. unfold getQrcode. simpl.
    destruct q; [congruence | reflexivity].
Qed.

(** After a code, a login and a disconnect, the old code is handed out
    again. *)
Lemma X2_qrcode_route_witness :
  getQrcode (afterEvents ([Qr "2@9f3kd"; Ready] ++ [Disconnected]))
  = QrCode "2@9f3kd".
Proof.
  refine (proj1 (proj1 (proj2 (proj2 (X2_qrcode_route [Qr "2@9f3kd"; Ready])))
                       _)).
  discriminate.
Defined.

End LifecycleFacts.

(* ------------------------------------------------------------------ *)
(** ** The two ways of normalising a number *)

Section NormalisationFacts.
Import Vocabulary Scenarios Observations MoreScenarios.

Lemma digit_not_whiteSpace (c : ascii) :
  isDigit c = true -> isWhiteSpace c = false.
Proof.
  intros Hd. destruct (isWhiteSpace c) eqn:Hw; [|reflexivity].
  apply isWhiteSpace_not_digit in Hw. congruence.
Qed.

Lemma strip_allDigits (s : string) :
  allDigits s = true -> stripNonDigits s = s.
Proof.
  induction s as [|c r IH]; simpl; [reflexivity|].
  intros H. apply Bool.andb_true_iff in H as [Hc Hr].
  now rewrite Hc, IH.
Qed.

Lemma trimStart_allDigits (s : string) :
  allDigits s = true -> trimStart s = s.
Proof.
  destruct s as [|c r]; simpl; [reflexivity|].
  intros H. apply Bool.andb_true_iff in H as [Hc _].
  now rewrite (digit_not_whiteSpace _ Hc).
Qed.

Lemma trimEnd_allDigits (s : string) :
  allDigits s = true -> trimEnd s = s.
Proof.
  induction s as [|c r IH]; simpl; [reflexivity|].
  intros H. apply Bool.andb_true_iff in H as [Hc Hr].
  now rewrite (digit_not_whiteSpace _ Hc), IH.
Qed.

Lemma clean_allDigits (s : string) : allDigits s = true -> clean s = s.
Proof.
  intros H. rewrite clean_is_strip. now apply strip_allDigits.
Qed.

Lemma trim_allDigits (s : string) : allDigits s = true -> trim s = s.
Proof.
  intros H. unfold trim. rewrite trimStart_allDigits by exact H.
  now apply trimEnd_allDigits.
Qed.

Lemma digit_not_plus (c : ascii) : isDigit c = true -> Ascii.eqb c "+" = false.
Proof.
  intros H. destruct (Ascii.eqb c "+") eqn:E; [|reflexivity].
  apply Ascii.eqb_eq in E. subst c. discriminate H.
Qed.

Lemma validatePhoneNumber_digits (d : string) :
  allDigits d = true -> (10 <= String.length d <= 15)%nat ->
  validatePhoneNumber d = true.
Proof.
  intros Hd [Hlo Hhi]. unfold validatePhoneNumber.
  destruct d as [|c r]; [simpl in Hlo; lia|].
  pose proof Hd as Hd'. simpl in Hd'.
  apply Bool.andb_true_iff in Hd' as [Hc _].
  rewrite (digit_not_plus _ Hc), Hd.
  apply Bool.andb_true_iff. split; [apply Nat.leb_le | apply Nat.leb_le];
    assumption.
Qed.

(** X3: the strict validator and the lenient cleaning agree on what the
    validator accepts: cleaning an accepted number removes at most its
    leading plus sign, leaves 10 to 15 digits, and the result is accepted
    again. *)
Theorem X3_validated_survives_cleaning (x : string) :
  validatePhoneNumber x = true ->
  (x = clean x \/ x = String "+" (clean x))
  /\ allDigits (clean x) = true
  /\ (10 <= String.length (clean x) <= 15)%nat
  /\ validatePhoneNumber (clean x) = true.
Proof.
  intros H.
  destruct (validatePhoneNumber_shape x H) as [d [Hx [Hd Hlen]]].
  assert (E : clean x = d).
  { rewrite clean_is_strip. destruct Hx as [-> | ->].
    - now apply strip_allDigits.
    - simpl. now apply strip_allDigits. }
  rewrite E. repeat split; try assumption; try lia.
  now apply validatePhoneNumber_digits.
Qed.

Lemma X3_validated_survives_cleaning_witness :
  validatePhoneNumber (clean "+911234567890") = true.
Proof.
  exact (proj2 (proj2 (proj2 (X3_validated_survives_cleaning
                                "+911234567890" eq_refl)))).
Defined.

Lemma filter_keeps {A : Type} (p : A -> bool) (l : list A) :
  (forall a, In a l -> p a = true) -> filter p l = l.
Proof.
  induction l as [|a l IH]; simpl; intros H; [reflexivity|].
  rewrite (H a (or_introl eq_refl)), IH; [reflexivity|].
  intros b Hb. apply H. now right.
Qed.

Lemma firstOccurrences_NoDup (l : list string) :
  NoDup l -> firstOccurrences l = l.
Proof.
  induction 1 as [|x l Hx Hnd IH]; simpl; [reflexivity|].
  rewrite IH. f_equal. apply filter_keeps. intros y Hy.
  destruct (String.eqb y x) eqn:E; [|reflexivity].
  apply String.eqb_eq in E. subst y. contradiction.
Qed.

(** What the unified parser returns: distinct, non-empty entries that
    are digits only when the numeric cells print as digits. *)
Lemma parsePhoneNumbers_entries (fs : FileSystem) (req : Request)
      (numbers : list string) :
  parsePhoneNumbers fs req = Ok numbers ->
  NoDup numbers
  /\ forall x, In x numbers ->
       x <> EmptyString /\ (plainNumericCells fs req -> allDigits x = true).
Proof.
  intros H.
  apply parsePhoneNumbers_order in H as [fromSheet [textNumbers [Hs [Ht ->]]]].
  split; [apply NoDup_firstOccurrences|].
  intros x Hx. apply (proj1 (In_firstOccurrences _ _)) in Hx.
  apply in_app_or in Hx as [Hx|Hx].
  - exact (parseSpreadsheet_sound fs req fromSheet x Hs Hx).
  - apply in_app_or in Hx as [Hx|Hx].
    + apply parseList_sound in Hx as [? ?]. split; auto.
    + apply (parseText_sound _ _ _ Ht) in Hx as [? ?]. split; auto.
Qed.

(** X4: the unified parser's output is a fixed point of the parser: sent
    back as the explicit list of a request without text block and
    spreadsheet, it is returned unchanged, in the same order (as long as
    the numeric cells it came from print as plain digits). *)
Theorem X4_parser_fixed_point (fs fs' : FileSystem) (req : Request)
        (numbers : list string) :
  parsePhoneNumbers fs req = Ok numbers ->
  plainNumericCells fs req ->
  parsePhoneNumbers fs' (listOnly req numbers) = Ok numbers.
Proof.
  intros H Hplain.
  destruct (parsePhoneNumbers_entries fs req numbers H) as [Hnd Hall].
  unfold parsePhoneNumbers, parseSpreadsheet, listOnly. simpl.
  rewrite app_nil_r, uniqueViaSet_firstOccurrences.
  assert (E : filter nonEmpty (map clean numbers) = numbers).
  { rewrite (map_ext_in clean (fun x => x)), map_id.
    - apply filter_keeps. intros x Hx.
      apply nonEmpty_true. exact (proj1 (Hall x Hx)).
    - intros x Hx. apply clean_allDigits. exact (proj2 (Hall x Hx) Hplain). }
  rewrite E. f_equal. now apply firstOccurrences_NoDup.
Qed.

Lemma X4_parser_fixed_point_witness :
  parsePhoneNumbers repeatedDisk
    (listOnly textRequest ["5550002222"; "5550003333"; "15550001111"])
  = Ok ["5550002222"; "5550003333"; "15550001111"].
Proof.
  refine (X4_parser_fixed_point emptyDisk repeatedDisk textRequest
            ["5550002222"; "5550003333"; "15550001111"] eq_refl _).
  intros f wb ws row n Hf. discriminate Hf.
Defined.

End NormalisationFacts.

(* ------------------------------------------------------------------ *)
(** ** Reading an uploaded spreadsheet *)

Section SpreadsheetFacts.
Import Vocabulary Scenarios Observations MoreScenarios.

Lemma extractRow_first (r : Row) : extractRow r 1 = [].
Proof. reflexivity. Qed.

Lemma parseRow_first (r : Row) : parseRow r 1 = [].
Proof. reflexivity. Qed.

(** Reading starts at row 2, whatever row 1 holds. *)
Lemma eachRow_skips_first (ws : Worksheet) (cb : Row -> nat -> list string) :
  (forall r, cb r 1%nat = []) ->
  eachRow ws cb = eachRowFrom 2 (tl (sheetRows ws)) cb.
Proof.
  intros Hcb. unfold eachRow. destruct (sheetRows ws) as [|r rest];
    [reflexivity|].
  simpl. rewrite Hcb. now destruct (hasValues r).
Qed.

(** X5: neither reader ever reads row 1 of the sheet.  Replacing the
    first row of the first worksheet by any other row (a header, a valid
    number, nothing at all) leaves the result of [extractNumbersFromExcel]
    unchanged, and likewise what the unified parser collects from a
    sheet; rows keep their numbers, so an empty first row does not make
    the second one a header. *)
Theorem X5_first_row_never_read (fs : FileSystem) (p : string)
        (ws : Worksheet) (others : Workbook) (r : Row) :
  fs p = XlsxFile (ws :: others) ->
  extractNumbersFromExcel (writeFile fs p (withFirstRow ws r :: others)) p
  = extractNumbersFromExcel fs p
  /\ eachRow (withFirstRow ws r) parseRow = eachRow ws parseRow
  /\ extractNumbersFromExcel fs p
     = eachRowFrom 2 (tl (sheetRows ws)) extractRow.
Proof.
  intros Hfs. unfold extractNumbersFromExcel, writeFile.
  rewrite String.eqb_refl, Hfs. simpl.
  rewrite !(eachRow_skips_first _ extractRow extractRow_first).
  rewrite !(eachRow_skips_first _ parseRow parseRow_first).
  repeat split.
Qed.

(** The number in the first row of [numbersSheet] is not returned, with
    or without a header in its place. *)
Lemma X5_first_row_never_read_witness :
  extractNumbersFromExcel
    (writeFile numbersDisk uploadPath [withFirstRow numbersSheet [CString "Phone"]])
    uploadPath
  = extractNumbersFromExcel numbersDisk uploadPath
  /\ extractNumbersFromExcel numbersDisk uploadPath
     = ["9876543210"; "9876543211"].
Proof.
  split; [|reflexivity].
  exact (proj1 (X5_first_row_never_read numbersDisk uploadPath numbersSheet []
                  [CString "Phone"] eq_refl)).
Defined.

End SpreadsheetFacts.

(* ------------------------------------------------------------------ *)
(** ** The handler of [POST /api/send], case by case *)

Section HandlerFacts.
Import Vocabulary Scenarios Observations MoreScenarios.

(** [postSend], one decision at a time. *)
Lemma postSend_unfold (env : Env) (isClientReady : bool) (req : Request)
      (h : History) :
  postSend env isClientReady req h =
  if negb (truthy (body_message req)) then
    errorReply 400 "Message is required"
  else if negb isClientReady then
    errorReply 503 "WhatsApp client is not ready. Please authenticate first by scanning the QR code."
  else
    match files req with
    | None => errorReply 500 "Server error while sending messages"
    | Some (media, excel) =>
        match resolveNumbers (disk env) req excel with
        | Throw _ => errorReply 500 "Server error while sending messages"
        | Ok [] =>
            errorReply 400 "No valid phone numbers found. Please provide recipients."
        | Ok (n :: rest) =>
            let delaySeconds :=
              withDefault (body_delaySeconds req) (Num (Fin 1)) in
            let mediaPath := option_map path (hd_error media) in
            match dispatchLoop env delaySeconds (body_message req) mediaPath
                               (n :: rest) (h ++ [Respond 200]) with
            | (Ok results, tr) =>
                (Ok ({| statusCode := 200;
                        body := Started (List.length (n :: rest))
                                        (match givenPath mediaPath with
                                         | Some _ => true
                                         | None => false
                                         end)
                                        delaySeconds |}, results),
                 Respond 200 :: tr)
            | (Throw _, tr) =>
                (Ok ({| statusCode := 500;
                        body := ErrorBody "Server error while sending messages" |},
                     []),
                 Respond 200 :: tr ++ [Respond 500])
            end
        end
    end.
Proof.
  unfold postSend, errorReply, tryCatch.
  destruct (truthy (body_message req)); simpl; [|reflexivity].
  destruct isClientReady; simpl; [|reflexivity].
  destruct (files req) as [[media excel]|]; simpl; [|reflexivity].
  unfold bind at 1. unfold lift at 1.
  destruct (resolveNumbers (disk env) req excel) as [[|n rest]|e]; simpl;
    try reflexivity.
  unfold bind, perform, ret. rewrite app_nil_r.
  assert (E : match media with
              | f :: _ => Some (path f)
              | [] => None
              end = option_map path (hd_error media))
    by (destruct media; reflexivity).
  rewrite E.
  destruct (dispatchLoop env _ _ _ (n :: rest) (h ++ [Respond 200]))
    as [[results|e] tr]; simpl.
  - now rewrite app_nil_r.
  - reflexivity.
Qed.

End HandlerFacts.

(* ------------------------------------------------------------------ *)
(** ** Counting what the gateway and the loop do *)

Section CountingFacts.
Import Vocabulary Scenarios Observations MoreScenarios.

Lemma countOf_app (kind : Event -> bool) (a b : list Event) :
  countOf kind (a ++ b) = (countOf kind a + countOf kind b)%nat.
Proof. unfold countOf. now rewrite filter_app, length_app. Qed.

(** The traces [sendMessage] can leave, with what they say about the
    outcome. *)
Lemma sendMessage_shapes (env : Env) (p : string) (message : Value)
      (mediaPath : option string) (h : History) :
  exists o tr,
    sendMessage env p message mediaPath h = (Ok o, tr)
    /\ forallb isDispatchEvent tr = true
    /\ countOf isSleep tr = 0%nat
    /\ countOf isRandom tr = 0%nat
    /\ countOf isRespond tr = 0%nat
    /\ (countOf isSendMessage tr <= 1)%nat
    /\ (forall i c, In (SendMessage i c) tr ->
          i = formatNumber p /\ c = contentOf message mediaPath)
    /\ (success o = true <-> status o = Some sent)
    /\ (success o = true ->
        exists before,
          tr = before ++ [SendMessage (formatNumber p)
                                      (contentOf message mediaPath)])
    /\ (List.length tr <= 3)%nat.
Proof.
  rewrite sendMessage_unfold. cbv zeta. unfold contentOf.
  destruct (client_isRegisteredUser env h (formatNumber p)) as [[|]|e];
    [destruct (givenPath mediaPath) as [path|];
     [destruct (MessageMedia_fromFilePath env _ path) as [u|e];
      [destruct (client_sendMessage env _ _ _) as [u'|e]|]
     |destruct (client_sendMessage env _ _ _) as [u'|e]]| |].
  all: eexists; eexists; (split; [reflexivity|]).
  all: split; [reflexivity|].
  all: split; [reflexivity|].
  all: split; [reflexivity|].
  all: split; [reflexivity|].
  all: split; [simpl; unfold countOf; simpl; lia|].
  all: split; [intros i c Hin; simpl in Hin;
               repeat (destruct Hin as [Hin|Hin]; try discriminate Hin;
                       try (injection Hin as <- <-; now split));
               contradiction|].
  all: split; [simpl; split; intros Hx; (discriminate Hx || reflexivity)|].
  all: split; [|simpl; lia].
  all: simpl; intros Hx; try discriminate Hx.
  - now exists [IsRegisteredUser (formatNumber p); FromFilePath path].
  - now exists [IsRegisteredUser (formatNumber p)].
Qed.

Lemma dispatchFrom_cons (env : Env) (delaySeconds message : Value)
      (mediaPath : option string) (i : nat) (n : string) (rest : list string)
      (results : list Outcome) (h : History) (o : Outcome) (t1 : list Event) :
  dispatchOne env delaySeconds message mediaPath i n h = (Ok o, t1) ->
  dispatchFrom env delaySeconds message mediaPath i (n :: rest) results h
  = (fst (dispatchFrom env delaySeconds message mediaPath (S i) rest
                       (results ++ [o]) (h ++ t1)),
     t1 ++ snd (dispatchFrom env delaySeconds message mediaPath (S i) rest
                             (results ++ [o]) (h ++ t1))).
Proof.
  intros H. simpl. unfold bind. rewrite H.
  now destruct (dispatchFrom _ _ _ _ _ _ _ _).
Qed.

(** The loop's events are client calls of the gateway, random draws and
    sleeps; there are as many random draws as sleeps, and as many sleeps
    as the loop owes. *)
Lemma dispatchFrom_counts (env : Env) (delaySeconds message : Value)
      (mediaPath : option string) (numbers : list string) :
  forall (i : nat) (results : list Outcome) (h : History),
    let tr := snd (dispatchFrom env delaySeconds message mediaPath i numbers
                                results h) in
    forallb isDispatchEvent tr = true
    /\ countOf isSleep tr = sleepsOwed delaySeconds i (List.length numbers)
    /\ countOf isRandom tr = sleepsOwed delaySeconds i (List.length numbers)
    /\ (countOf isSendMessage tr <= List.length numbers)%nat.
Proof.
  induction numbers as [|n rest IH]; intros i results h.
  - simpl. unfold sleepsOwed.
    destruct (gt _ _), (i =? 0)%nat; repeat split; auto.
  - destruct (dispatchOne_spec env delaySeconds message mediaPath i n h)
      as [o [pre [tr1 [H1 [Hs Hpre]]]]].
    destruct (sendMessage_shapes env n message mediaPath (h ++ pre))
      as [o' [tr' [Hs' [Hev [Hsl [Hrn [_ [Hsm _]]]]]]]].
    rewrite Hs in Hs'. injection Hs' as <- <-.
    cbv zeta. rewrite (dispatchFrom_cons _ _ _ _ _ _ _ _ _ _ _ H1). simpl snd.
    specialize (IH (S i) (results ++ [o]) (h ++ pre ++ tr1)).
    cbv zeta in IH. destruct IH as [IHev [IHsl [IHrn IHsm]]].
    rewrite !forallb_app, !countOf_app, Hev, IHev, Hsl, Hrn, IHsl, IHrn.
    assert (Hp : forallb isDispatchEvent pre = true
                 /\ countOf isSleep pre
                    = (if delayDue i delaySeconds then 1 else 0)%nat
                 /\ countOf isRandom pre
                    = (if delayDue i delaySeconds then 1 else 0)%nat
                 /\ countOf isSendMessage pre = 0%nat).
    { rewrite Hpre. destruct (delayDue i delaySeconds); repeat split. }
    destruct Hp as [Hp1 [Hp2 [Hp3 Hp4]]].
    rewrite Hp1, Hp2, Hp3, Hp4.
    unfold sleepsOwed, delayDue in *.
    destruct (gt (ToNumber delaySeconds) (ofZ 3)); simpl;
      destruct i; simpl; repeat split; try lia.
Qed.

End CountingFacts.

(* ------------------------------------------------------------------ *)
(** ** More on the gateway, the loop and the send handler *)

Section SendTheorems.
Import Vocabulary Scenarios Observations MoreScenarios.

Lemma prefix_refl (s : string) : prefix s s = true.
Proof.
  induction s as [|c r IH]; simpl; [reflexivity|].
  destruct (ascii_dec c c); [exact IH | congruence].
Qed.

Lemma includes_app (needle s : string) : includes needle (s ++ needle) = true.
Proof.
  assert (U : forall hay, includes needle hay
                          = prefix needle hay
                            || match hay with
                               | EmptyString => false
                               | String _ r => includes needle r
                               end)
    by (intros hay; destruct hay; reflexivity).
  induction s as [|c r IH].
  - change (("" ++ needle)%string) with needle.
    rewrite U, prefix_refl. reflexivity.
  - change ((String c r ++ needle)%string)
      with (String c (r ++ needle)%string).
    rewrite U, IH. apply Bool.orb_true_r.
Qed.

(** X6: the identity the client is asked about always contains the
    suffix [@c.us]: a number that already contains it is used as it is,
    any other gets it appended, and formatting twice is the same as
    formatting once. *)
Theorem X6_formatNumber_suffix (p : string) :
  includes "@c.us" (formatNumber p) = true
  /\ formatNumber (formatNumber p) = formatNumber p
  /\ (includes "@c.us" p = true -> formatNumber p = p)
  /\ (includes "@c.us" p = false -> formatNumber p = (p ++ "@c.us")%string).
Proof.
  assert (H : includes "@c.us" (formatNumber p) = true).
  { unfold formatNumber. destruct (includes "@c.us" p) eqn:E;
      [exact E | apply includes_app]. }
  split; [exact H|]. split; [|split].
  - unfold formatNumber at 1. now rewrite H.
  - intros E. unfold formatNumber. now rewrite E.
  - intros E. unfold formatNumber. now rewrite E.
Qed.

Lemma X6_formatNumber_suffix_witness :
  formatNumber "5550002222@c.us" = "5550002222@c.us"
  /\ formatNumber "5550002222" = "5550002222@c.us".
Proof.
  split.
  - exact (proj1 (proj2 (proj2 (X6_formatNumber_suffix "5550002222@c.us")))
                 eq_refl).
  - exact (proj2 (proj2 (proj2 (X6_formatNumber_suffix "5550002222")))
                 eq_refl).
Defined.

(** X7: one call of [sendMessage] asks the client to send at most once,
    never retries, and makes at most three calls in all (registration
    check, media load, send).  A send it asks for goes to the formatted
    number, with the media and the message as caption when a media path
    is given and the plain message otherwise.  The outcome reports
    success exactly when its status is [sent], and then the send was the
    last call made. *)
Theorem X7_sendMessage_single_send (env : Env) (p : string) (message : Value)
        (mediaPath : option string) (h : History) :
  let o := fst (sendMessage env p message mediaPath h) in
  let tr := snd (sendMessage env p message mediaPath h) in
  (countOf isSendMessage tr <= 1)%nat
  /\ (List.length tr <= 3)%nat
  /\ (forall i c, In (SendMessage i c) tr ->
        i = formatNumber p /\ c = contentOf message mediaPath)
  /\ (forall out, o = Ok out ->
        (success out = true <-> status out = Some sent)
        /\ (success out = true ->
            exists before,
              tr = before ++ [SendMessage (formatNumber p)
                                          (contentOf message mediaPath)])).
Proof.
  destruct (sendMessage_shapes env p message mediaPath h)
    as [out [tr [Hs [_ [_ [_ [_ [Hc [Hto [Hiff [Hlast Hlen]]]]]]]]]]].
  cbv zeta. rewrite Hs. simpl.
  repeat split; try assumption; try apply Hiff; try (now apply Hto in H).
  - intros Hx. injection H as <-. now apply Hiff.
  - injection H as <-. now apply Hiff.
  - injection H as <-. exact Hlast.
Qed.

Lemma no_respond (tr : list Event) :
  forallb isDispatchEvent tr = true -> existsb isRespond tr = false.
Proof.
  induction tr as [|ev tr IH]; simpl; [reflexivity|].
  intros H. apply Bool.andb_true_iff in H as [He Ht].
  rewrite (IH Ht). destruct ev; try discriminate He; reflexivity.
Qed.

(** The loop always returns, one outcome per number. *)
Lemma dispatchLoop_returns (env : Env) (delaySeconds message : Value)
      (mediaPath : option string) (numbers : list string) (h : History) :
  exists results tr,
    dispatchLoop env delaySeconds message mediaPath numbers h
    = (Ok results, tr)
    /\ map phoneNumber results = numbers
    /\ checkedIds tr = map formatNumber numbers
    /\ forallb isDispatchEvent tr = true
    /\ (countOf isSendMessage tr <= List.length numbers)%nat
    /\ countOf isSleep tr = sleepsOwed delaySeconds 0 (List.length numbers)
    /\ countOf isRandom tr = sleepsOwed delaySeconds 0 (List.length numbers).
Proof.
  destruct (dispatchFrom_spec env delaySeconds message mediaPath numbers
              0%nat [] h) as [outs [tr [Hrun [Hp [_ [Hc _]]]]]].
  pose proof (dispatchFrom_counts env delaySeconds message mediaPath numbers
                0%nat [] h) as Hcnt.
  cbv zeta in Hcnt. rewrite Hrun in Hcnt. simpl in Hcnt.
  destruct Hcnt as [Hev [Hsl [Hrn Hsm]]].
  exists outs, tr. unfold dispatchLoop. rewrite Hrun.
  repeat split; assumption.
Qed.

(** A value at or above the least double above 3 is above 3. *)
Lemma above_leastDouble (n : number) :
  le (Fin leastDoubleAbove3) n = true -> gt n (ofZ 3) = true.
Proof.
  destruct n as [| | |q]; simpl; try discriminate; try reflexivity.
  unfold Qltb. destruct q as [a b]. cbn -[Z.mul Z.ltb].
  intros H. apply Bool.negb_true_iff in H.
  apply Z.ltb_ge in H. apply Z.ltb_lt. lia.
Qed.

(** X8: when the numeric value of [delaySeconds] is at least the least
    double above 3 (so that it exceeds 3 as the double the code compares,
    too), the loop sleeps exactly once before every send but the first:
    for [n] recipients it makes [n - 1] sleeps, draws exactly [n - 1]
    random numbers (one per sleep), and asks for at most [n] sends. *)
Theorem X8_sleep_count (env : Env) (delaySeconds message : Value)
        (mediaPath : option string) (numbers : list string) (h : History) :
  le (Fin leastDoubleAbove3) (ToNumber delaySeconds) = true ->
  let tr := snd (dispatchLoop env delaySeconds message mediaPath numbers h) in
  countOf isSleep tr = (List.length numbers - 1)%nat
  /\ countOf isRandom tr = (List.length numbers - 1)%nat
  /\ (countOf isSendMessage tr <= List.length numbers)%nat.
Proof.
  intros Hle. pose proof (above_leastDouble _ Hle) as Hgt.
  destruct (dispatchLoop_returns env delaySeconds message mediaPath numbers h)
    as [results [tr [Hrun [_ [_ [_ [Hsm [Hsl Hrn]]]]]]]].
  cbv zeta. rewrite Hrun. simpl.
  unfold sleepsOwed in *. rewrite Hgt in *. simpl in *. auto.
Qed.

Lemma X8_sleep_count_witness :
  countOf isSleep
    (snd (dispatchLoop (plainWorld emptyDisk) (Str "10") (Str "hello") None
                       ["5550002222"; "5550003333"; "15550001111"] []))
  = 2%nat.
Proof.
  exact (proj1 (X8_sleep_count (plainWorld emptyDisk) (Str "10") (Str "hello")
                  None ["5550002222"; "5550003333"; "15550001111"] []
                  eq_refl)).
Defined.

(** X9: the handler never lets an error escape and answers exactly once,
    before anything else happens: its first event is the response, with
    status 200, 400, 500 or 503, and no second response follows, not even
    when sends fail in the background.  Unless the status is 200 the
    response is the only event: no client call is made. *)
Theorem X9_responds_once (env : Env) (isClientReady : bool) (req : Request)
        (h : History) :
  exists resp outs rest,
    postSend env isClientReady req h
    = (Ok (resp, outs), Respond (statusCode resp) :: rest)
    /\ In (statusCode resp) [200; 400; 500; 503]%nat
    /\ existsb isRespond rest = false
    /\ (statusCode resp = 200%nat \/ (rest = [] /\ outs = [])).
Proof.
  assert (Herr : forall c e, In c [400; 500; 503]%nat ->
            exists resp outs rest,
              errorReply c e
              = (Ok (resp, outs), Respond (statusCode resp) :: rest)
              /\ In (statusCode resp) [200; 400; 500; 503]%nat
              /\ existsb isRespond rest = false
              /\ (statusCode resp = 200%nat \/ (rest = [] /\ outs = []))).
  { intros c e Hc.
    exists {| statusCode := c; body := ErrorBody e |}, [], [].
    split; [reflexivity|]. split; [simpl in *; tauto|].
    split; [reflexivity | now right]. }
  rewrite postSend_unfold.
  destruct (truthy (body_message req)); simpl; [|apply Herr; simpl; auto].
  destruct isClientReady; simpl; [|apply Herr; simpl; auto].
  destruct (files req) as [[media excel]|]; [|apply Herr; simpl; auto].
  destruct (resolveNumbers (disk env) req excel) as [[|n rest]|e];
    try (apply Herr; simpl; auto).
  destruct (dispatchLoop_returns env
              (withDefault (body_delaySeconds req) (Num (Fin 1)))
              (body_message req) (option_map path (hd_error media))
              (n :: rest) (h ++ [Respond 200]))
    as [results [tr [Hrun [_ [_ [Hev _]]]]]].
  cbv zeta. rewrite Hrun.
  eexists {| statusCode := 200; body := _ |}, results, tr.
  split; [reflexivity|]. simpl.
  split; [auto|]. split; [now apply no_respond | now left].
Qed.

(** X10: a 500 is answered only to a request with a message, by a
    ready client, and it is then the handler's only act: the response
    carries the fixed text "Server error while sending messages", never
    the text of what was thrown.  With a message and a ready client, the
    handler answers 500 when the request carries no uploads table at all
    (it is not multipart), and when resolving the recipients throws; the
    latter happens when no 'excel' file is uploaded and [numbersText]
    arrives as a list (the field was sent more than once). *)
Theorem X10_server_error_cases (env : Env) (isClientReady : bool)
        (req : Request) (h : History) :
  (responseStatus (postSend env isClientReady req h) = Some 500%nat ->
   truthy (body_message req) = true /\ isClientReady = true
   /\ postSend env isClientReady req h
      = errorReply 500 "Server error while sending messages")
  /\ (truthy (body_message req) = true -> isClientReady = true ->
      files req = None ->
      responseStatus (postSend env isClientReady req h) = Some 500%nat)
  /\ (forall media excel e,
        truthy (body_message req) = true -> isClientReady = true ->
        files req = Some (media, excel) ->
        resolveNumbers (disk env) req excel = Throw e ->
        responseStatus (postSend env isClientReady req h) = Some 500%nat)
  /\ (forall media l,
        truthy (body_message req) = true -> isClientReady = true ->
        files req = Some (media, []) -> file req = None ->
        body_numbersText req = Arr l ->
        responseStatus (postSend env isClientReady req h) = Some 500%nat).
Proof.
  assert (Hthrow : forall media excel e,
            truthy (body_message req) = true -> isClientReady = true ->
            files req = Some (media, excel) ->
            resolveNumbers (disk env) req excel = Throw e ->
            responseStatus (postSend env isClientReady req h)
            = Some 500%nat).
  { intros media excel e Hm Hr Hf Hres.
    rewrite postSend_unfold, Hm, Hr, Hf, Hres. reflexivity. }
  split; [|split; [|split]].
  - rewrite postSend_unfold. unfold errorReply, responseStatus.
    destruct (truthy (body_message req)); simpl; [|discriminate].
    destruct isClientReady; simpl; [|discriminate].
    destruct (files req) as [[media excel]|]; simpl; [|now repeat split].
    destruct (resolveNumbers (disk env) req excel) as [[|n rest]|e];
      simpl; [discriminate| |now repeat split].
    destruct (dispatchLoop_returns env
                (withDefault (body_delaySeconds req) (Num (Fin 1)))
                (body_message req) (option_map path (hd_error media))
                (n :: rest) (h ++ [Respond 200]))
      as [results [tr [Hrun _]]].
    cbv zeta. rewrite Hrun. simpl. discriminate.
  - intros Hm Hr Hf. rewrite postSend_unfold, Hm, Hr, Hf. reflexivity.
  - exact Hthrow.
  - intros media l Hm Hr Hf Hfile Ht.
    apply (Hthrow media [] "numbersText.split is not a function" Hm Hr Hf).
    simpl. unfold parsePhoneNumbers, parseSpreadsheet, parseText.
    now rewrite Hfile, Ht.
Qed.

Lemma X10_server_error_cases_witness :
  responseStatus (postSend (plainWorld emptyDisk) true repeatedTextRequest [])
  = Some 500%nat.
Proof.
  exact (proj2 (proj2 (proj2 (X10_server_error_cases (plainWorld emptyDisk)
                                true repeatedTextRequest [])))
               [] ["5550002222"; "5550003333"]
               eq_refl eq_refl eq_refl eq_refl eq_refl).
Defined.

(** X11: an 'excel' upload decides alone.  When the uploaded file is
    missing, unreadable or has no worksheet, the handler answers 400 "no
    valid phone numbers" (not 500) and does nothing else, whatever valid
    recipients the explicit list and the text block of the same request
    hold. *)
Theorem X11_lost_upload (env : Env) (req : Request) (h : History)
        (media rest : list UploadedFile) (f : UploadedFile) :
  truthy (body_message req) = true ->
  files req = Some (media, f :: rest) ->
  (disk env (path f) = NoFile \/ disk env (path f) = Unreadable
   \/ disk env (path f) = XlsxFile []) ->
  postSend env true req h
  = errorReply 400 "No valid phone numbers found. Please provide recipients."
  /\ forall numbers numbersText,
       postSend env true (withRecipients req numbers numbersText) h
       = postSend env true req h.
Proof.
  intros Hm Hf Hdisk.
  assert (E : extractNumbersFromExcel (disk env) (path f) = []).
  { unfold extractNumbersFromExcel.
    destruct Hdisk as [-> | [-> | ->]]; reflexivity. }
  assert (H1 : forall r, body_message r = body_message req ->
                 files r = files req ->
                 postSend env true r h
                 = errorReply 400
                     "No valid phone numbers found. Please provide recipients.").
  { intros r Hbm Hfl. rewrite postSend_unfold, Hbm, Hfl, Hm, Hf. simpl.
    now rewrite E. }
  split; [now apply H1|].
  intros numbers numbersText. rewrite (H1 req eq_refl eq_refl).
  now apply H1.
Qed.

Lemma X11_lost_upload_witness :
  postSend (plainWorld emptyDisk) true lostUploadRequest []
  = errorReply 400 "No valid phone numbers found. Please provide recipients.".
Proof.
  exact (proj1 (X11_lost_upload (plainWorld emptyDisk) lostUploadRequest []
                  [] [] {| path := "uploads/gone.xlsx" |}
                  eq_refl eq_refl (or_introl eq_refl))).
Defined.

(** X12: when the handler answers 200, the count it acknowledges is the
    number of recipients resolved, which is the number of outcomes the
    loop collects and the number of registration checks it makes, in the
    recipients' order; the acknowledged [delaySeconds] is the field's
    value or the default 1, and media counts as attached exactly when the
    first 'media' upload has a non-empty path. *)
Theorem X12_acknowledgment (env : Env) (isClientReady : bool) (req : Request)
        (h : History) (resp : Response) (outs : list Outcome)
        (tr : list Event) :
  postSend env isClientReady req h = (Ok (resp, outs), tr) ->
  statusCode resp = 200%nat ->
  exists media excel numbers,
    files req = Some (media, excel)
    /\ resolveNumbers (disk env) req excel = Ok numbers
    /\ numbers <> []
    /\ body resp
       = Started (List.length numbers)
                 (match givenPath (option_map path (hd_error media)) with
                  | Some _ => true
                  | None => false
                  end)
                 (withDefault (body_delaySeconds req) (Num (Fin 1)))
    /\ map phoneNumber outs = numbers
    /\ checkedIds tr = map formatNumber numbers.
Proof.
  rewrite postSend_unfold. unfold errorReply.
  destruct (truthy (body_message req)); simpl;
    [|intros H; injection H as <- _ _; discriminate].
  destruct isClientReady; simpl;
    [|intros H; injection H as <- _ _; discriminate].
  destruct (files req) as [[media excel]|];
    [|intros H; injection H as <- _ _; discriminate].
  destruct (resolveNumbers (disk env) req excel) as [[|n rest]|e] eqn:Hr;
    try (intros H; injection H as <- _ _; discriminate).
  destruct (dispatchLoop_returns env
              (withDefault (body_delaySeconds req) (Num (Fin 1)))
              (body_message req) (option_map path (hd_error media))
              (n :: rest) (h ++ [Respond 200]))
    as [results [tr' [Hrun [Hp [Hc _]]]]].
  cbv zeta. rewrite Hrun. intros H Hcode. injection H as <- <- <-.
  exists media, excel, (n :: rest).
  repeat split; try assumption; try discriminate.
Qed.

Lemma X12_acknowledgment_witness :
  exists resp outs tr,
    postSend (plainWorld emptyDisk) true textRequest [] = (Ok (resp, outs), tr)
    /\ body resp = Started 3 false (Str "10")
    /\ List.length outs = 3%nat.
Proof.
  destruct (postSend (plainWorld emptyDisk) true textRequest [])
    as [[[resp outs]|e] tr] eqn:Hrun; [|discriminate Hrun].
  assert (Hcode : statusCode resp = 200%nat)
    by (vm_compute in Hrun; injection Hrun as <- _ _; reflexivity).
  destruct (X12_acknowledgment (plainWorld emptyDisk) true textRequest []
              resp outs tr Hrun Hcode)
    as [media [excel [numbers [Hf [Hn [_ [Hb [Hp _]]]]]]]].
  injection Hf as <- <-. vm_compute in Hn. injection Hn as <-.
  exists resp, outs, tr. split; [reflexivity|]. split; [exact Hb|].
  now rewrite <- (length_map phoneNumber), Hp.
Defined.

End SendTheorems.

(* ------------------------------------------------------------------ *)
(** ** More on the directory extractor *)

Section ExtractorBounds.
Import Vocabulary Scenarios Observations MoreScenarios.

Lemma orElse_nonEmpty (o : option string) (d : string) :
  d <> EmptyString -> orElse o d <> EmptyString.
Proof.
  intros Hd. unfold orElse, someText.
  destruct o as [[|c r]|]; simpl; try exact Hd. discriminate.
Qed.

(** One turn of the participant loop pushes at most one contact, always
    with a name, after at most one lookup. *)
Lemma contactOf_bounds (env : Env) (participant : Participant) (h : History) :
  exists cs tr,
    contactOf env participant h = (Ok cs, tr)
    /\ (List.length cs <= 1)%nat
    /\ (List.length tr <= 1)%nat
    /\ forallb isContactLookup tr = true
    /\ Forall (fun c => name c <> EmptyString) cs.
Proof.
  assert (Hu : "Unknown" <> EmptyString) by discriminate.
  rewrite contactOf_unfold. cbv zeta.
  assert (Hb : Forall (fun c => name c <> EmptyString)
                 match basicId participant with
                 | Some s => [degradedContact s]
                 | None => []
                 end
               /\ (List.length match basicId participant with
                               | Some s => [degradedContact s]
                               | None => []
                               end <= 1)%nat).
  { destruct (basicId participant); simpl; split; auto. }
  destruct Hb as [Hb1 Hb2].
  destruct (participantIdOf participant) as [pid|];
    [|exists [], []; repeat split; simpl; auto].
  destruct (truthyId pid); [|exists [], []; repeat split; simpl; auto].
  destruct (client_getContactById env h pid) as [contact|e];
    [|eexists; eexists; split; [reflexivity|]; repeat split; simpl; auto].
  destruct (someText (contact_number contact)).
  - eexists; eexists; split; [reflexivity|]. repeat split; simpl; auto.
    constructor; [|constructor]. simpl.
    apply orElse_nonEmpty. now apply orElse_nonEmpty.
  - destruct (splitId pid).
    + eexists; eexists; split; [reflexivity|]. repeat split; simpl; auto.
      constructor; [|constructor]. simpl.
      apply orElse_nonEmpty. now apply orElse_nonEmpty.
    + eexists; eexists; split; [reflexivity|]; repeat split; simpl; auto.
Qed.

Lemma contactsOf_bounds (env : Env) (l : list Participant) :
  forall h, exists cs tr,
    contactsOf env l h = (Ok cs, tr)
    /\ (List.length cs <= List.length l)%nat
    /\ (List.length tr <= List.length l)%nat
    /\ forallb isContactLookup tr = true
    /\ Forall (fun c => name c <> EmptyString) cs.
Proof.
  induction l as [|p rest IH]; intros h.
  - exists [], []. repeat split; simpl; auto.
  - destruct (contactOf_bounds env p h) as [cs [t1 [H1 [L1 [T1 [F1 N1]]]]]].
    destruct (IH (h ++ t1)) as [more [t2 [H2 [L2 [T2 [F2 N2]]]]]].
    exists (cs ++ more), (t1 ++ t2). split.
    + simpl. unfold bind. rewrite H1, H2. simpl. now rewrite app_nil_r.
    + rewrite !length_app, forallb_app, F1, F2. simpl.
      repeat split; try lia. now apply Forall_app.
Qed.

(** Resolving the participants never throws, looks no contact up and
    answers no request. *)
Lemma resolveParticipants_returns (env : Env) (chat : Chat) (h : History) :
  exists r tr,
    resolveParticipants env chat h = (Ok r, tr)
    /\ countOf isContactLookup tr = 0%nat
    /\ countOf isRespond tr = 0%nat.
Proof.
  assert (Halt : forall parts h',
             exists r rest,
               alternativeApproach env chat parts h' = (Ok r, rest)
               /\ countOf isContactLookup rest = 0%nat
               /\ countOf isRespond rest = 0%nat).
  { intros parts h'. unfold alternativeApproach.
    destruct (noneFound parts).
    - unfold tryCatch, bind, perform, ret.
      destruct (pupPage_evaluate env h' (chatId chat)) as [[[|x xs]|]|e'];
        eexists; eexists; repeat split.
    - unfold ret. eexists; eexists; repeat split. }
  assert (Hstd : exists parts t,
             standardMethods env chat h = (Ok parts, t)
             /\ countOf isContactLookup t = 0%nat
             /\ countOf isRespond t = 0%nat).
  { unfold standardMethods, tryCatch, bind, perform, ret.
    destruct (groupMetadata chat) as [[l|]|];
      try solve [eexists; eexists; repeat split];
      (destruct (client_getGroupMetadata env h (chatId chat)) as [m|e];
       [solve [eexists; eexists; repeat split]|]);
      (destruct (participantsProperty chat);
       try solve [eexists; eexists; repeat split]);
      match goal with
      | |- context [chat_participants_call ?en ?x] =>
          destruct (chat_participants_call en x)
      | |- context [chat_participants_await ?en ?x] =>
          destruct (chat_participants_await en x)
      end; eexists; eexists; repeat split. }
  destruct Hstd as [parts [t [Hs [Hc Hc']]]].
  destruct (Halt parts (h ++ t)) as [r [rest [Ha [Hr Hr']]]].
  exists r, (t ++ rest). unfold resolveParticipants, bind.
  rewrite Hs, Ha. split; [reflexivity|].
  now rewrite !countOf_app, Hc, Hr, Hc', Hr'.
Qed.

Lemma lookups_no_respond (tr : list Event) :
  forallb isContactLookup tr = true -> countOf isRespond tr = 0%nat.
Proof.
  induction tr as [|ev tr IH]; [reflexivity|]. simpl.
  intros H. apply Bool.andb_true_iff in H as [He Ht].
  unfold countOf in *. simpl.
  destruct ev; try discriminate He. simpl. now apply IH.
Qed.

Lemma countOf_le_length (kind : Event -> bool) (tr : list Event) :
  (countOf kind tr <= List.length tr)%nat.
Proof. unfold countOf. apply filter_length_le. Qed.

(** [extractGroupContacts] always returns a result. *)
Lemma extractGroupContacts_returns (env : Env) (gid : string) (h : History) :
  exists result tr,
    extractGroupContacts env gid h = (Ok result, tr)
    /\ countOf isRespond tr = 0%nat
    /\ (forall groupName count contacts,
          result = Extracted groupName count contacts ->
          (List.length contacts <= count)%nat
          /\ Forall (fun c => name c <> EmptyString) contacts
          /\ (countOf isContactLookup tr <= count)%nat)
    /\ (forall e, client_getChatById env h gid = Throw e ->
          result = Failed e /\ tr = [GetChatById gid]).
Proof.
  destruct (client_getChatById env h gid) as [chat|e] eqn:Hc.
  - destruct (resolveParticipants_returns env chat (h ++ [GetChatById gid]))
      as [r [tr [Hr [Hl Hrs]]]].
    rewrite (extractGroupContacts_unfold env gid chat h r tr Hc Hr).
    destruct r as [l|].
    + destruct (contactsOf_bounds env l ((h ++ [GetChatById gid]) ++ tr))
        as [cs [tr2 [H2 [L2 [T2 [F2 N2]]]]]].
      rewrite H2. eexists; eexists; split; [reflexivity|].
      change (GetChatById gid :: tr ++ tr2)
        with ([GetChatById gid] ++ tr ++ tr2).
      rewrite !countOf_app, Hrs, Hl, (lookups_no_respond _ F2).
      split; [reflexivity|]. split; [|intros e He; discriminate He].
      intros groupName count contacts E. injection E as <- <- <-.
      split; [exact L2|]. split; [exact N2|].
      pose proof (countOf_le_length isContactLookup tr2).
      change (countOf isContactLookup [GetChatById gid]) with 0%nat. lia.
    + eexists; eexists; split; [reflexivity|].
      change (GetChatById gid :: tr) with ([GetChatById gid] ++ tr).
      rewrite !countOf_app, Hrs.
      split; [reflexivity|]. split; [|intros e He; discriminate He].
      intros groupName count contacts E. discriminate E.
  - exists (Failed e), [GetChatById gid].
    unfold extractGroupContacts, tryCatch, bind, perform, ret.
    rewrite Hc. simpl. split; [reflexivity|]. split; [reflexivity|].
    split; [intros groupName count contacts E; discriminate E|].
    intros e' He. injection He as <-. now split.
Qed.



(** X14: a participant given as a non-empty plain text, or as an object
    whose [id] is that text or carries it in [_serialized], survives a
    failed lookup of its details: the loop pushes exactly one record for
    it, with that text as id, the part before the first '@' as number,
    the name "Unknown" and [isMyContact = false]. *)
Theorem X14_degraded_record (env : Env) (participant : Participant)
        (s : string) (ser : option string) (e : Error) (h : History) :
  s <> EmptyString ->
  In participant [PText s; PObject (Some (IdText s)) ser;
                  PObject (Some (IdRecord (Some s))) ser] ->
  client_getContactById env h (IdText s) = Throw e ->
  contactOf env participant h
  = (Ok [ {| id := IdText s; Extractor.number := beforeAt s;
             name := "Unknown"; isMyContact := false;
             isBusiness := None |} ],
     [GetContactById (IdText s)]).
Proof.
  intros Hs Hin He.
  assert (Hid : participantIdOf participant = Some (IdText s)
                /\ basicId participant = Some s).
  { destruct s as [|c r]; [congruence|].
    destruct Hin as [<-|[<-|[<-|[]]]]; split; reflexivity. }
  destruct Hid as [Hp Hb].
  assert (Ht : truthyId (IdText s) = true)
    by (destruct s; [congruence | reflexivity]).
  rewrite (contactOf_lookup_fails env participant (IdText s) e h Hp Ht He).
  now rewrite Hb.
Qed.

Lemma X14_degraded_record_witness :
  extractGroupContacts pairWorld "120363000000000000@g.us" []
  = (Ok (Extracted "Team / 2024" 2
           [degradedContact "15550001111@c.us";
            degradedContact "15550002222@c.us"]),
     [GetChatById "120363000000000000@g.us";
      GetContactById (IdText "15550001111@c.us");
      GetContactById (IdText "15550002222@c.us")])
  /\ contactOf pairWorld (PText "15550001111@c.us") []
     = (Ok [degradedContact "15550001111@c.us"],
        [GetContactById (IdText "15550001111@c.us")]).
Proof.
  split; [reflexivity|].
  refine (X14_degraded_record pairWorld (PText "15550001111@c.us")
            "15550001111@c.us" None "contact lookup failed" [] _ _ eq_refl).
  - discriminate.
  - left. reflexivity.
Defined.

End ExtractorBounds.

(* ------------------------------------------------------------------ *)
(** ** More on the exporter *)

Section ExporterTheorems.
Import Vocabulary Scenarios Observations MoreScenarios Routes.

Lemma writeFile_same (fs : FileSystem) (p : string) (wb : Workbook) :
  writeFile fs p wb p = XlsxFile wb.
Proof. unfold writeFile. now rewrite String.eqb_refl. Qed.

Lemma writeFile_other (fs : FileSystem) (p q : string) (wb : Workbook) :
  q <> p -> writeFile fs p wb q = fs q.
Proof.
  intros H. unfold writeFile. destruct (String.eqb q p) eqn:E; [|reflexivity].
  apply String.eqb_eq in E. contradiction.
Qed.

Lemma extractRow_exported (cs : list Contact) (k : nat) :
  eachRowFrom (S (S k)) (map rowOf cs) extractRow
  = filter validatePhoneNumber (map (fun c => trim (name c)) cs).
Proof.
  revert k. induction cs as [|c cs IH]; intros k; [reflexivity|].
  simpl map. simpl eachRowFrom. rewrite IH. simpl filter.
  unfold extractRow. simpl.
  now destruct (validatePhoneNumber (trim (name c))).
Qed.

(** X15: the export cannot be fed back as a recipient sheet.  Read by
    [extractNumbersFromExcel], an exported file yields the contacts'
    names, trimmed, that happen to pass the validator, and none of the
    numbers, because the export puts the name in column A and the reader
    reads column A only. *)
Theorem X15_export_reread (fs : FileSystem) (contacts : list Contact)
        (filename : string) :
  extractNumbersFromExcel (snd (generateExcelFile fs contacts filename))
                          (fst (generateExcelFile fs contacts filename))
  = filter validatePhoneNumber (map (fun c => trim (name c)) contacts).
Proof.
  unfold generateExcelFile, extractNumbersFromExcel. simpl.
  rewrite writeFile_same. simpl. unfold eachRow. simpl.
  apply extractRow_exported.
Qed.

Lemma allChars_app (p : ascii -> bool) (a b : string) :
  allChars p (a ++ b) = allChars p a && allChars p b.
Proof.
  induction a as [|c r IH]; simpl; [reflexivity|].
  now rewrite IH, Bool.andb_assoc.
Qed.

Lemma allChars_weaken (p q : ascii -> bool) (s : string) :
  (forall c, p c = true -> q c = true) ->
  allChars p s = true -> allChars q s = true.
Proof.
  intros Hpq. induction s as [|c r IH]; simpl; [reflexivity|].
  intros H. apply Bool.andb_true_iff in H as [Hc Hr].
  now rewrite (Hpq c Hc), IH.
Qed.

Lemma allDigits_allChars (s : string) :
  allDigits s = true -> allChars isSafeChar s = true.
Proof.
  induction s as [|c r IH]; simpl; [reflexivity|].
  intros H. apply Bool.andb_true_iff in H as [Hc Hr].
  rewrite (IH Hr). unfold isSafeChar. now rewrite Hc.
Qed.

Lemma isAlnum_safe (c : ascii) : isAlnum c = true -> isSafeChar c = true.
Proof.
  unfold isAlnum, isSafeChar. intros H. now rewrite H.
Qed.

Lemma sanitize_safe (s : string) : allChars isSafeChar (sanitize s) = true.
Proof.
  induction s as [|c r IH]; simpl; [reflexivity|].
  rewrite IH. destruct (isAlnum c) eqn:E.
  - now rewrite (isAlnum_safe _ E).
  - reflexivity.
Qed.

Lemma safe_notSeparator (c : ascii) :
  isSafeChar c = true -> notSeparator c = true.
Proof.
  unfold isSafeChar, notSeparator, isDigit. intros H.
  destruct (nat_of_ascii c =? 47)%nat eqn:E1.
  { apply Nat.eqb_eq in E1. rewrite E1 in H. discriminate H. }
  destruct (nat_of_ascii c =? 92)%nat eqn:E2; [|reflexivity].
  apply Nat.eqb_eq in E2. rewrite E2 in H. discriminate H.
Qed.

Lemma timestamp_safe (now : N) : allChars isSafeChar (timestamp now) = true.
Proof.
  apply allDigits_allChars. apply allDigits_integerToString. lia.
Qed.

Lemma sanitize_length (s : string) :
  String.length (sanitize s) = String.length s.
Proof. induction s as [|c r IH]; simpl; [reflexivity | now rewrite IH]. Qed.

Lemma sanitize_idempotent (s : string) : sanitize (sanitize s) = sanitize s.
Proof.
  induction s as [|c r IH]; simpl; [reflexivity|].
  rewrite IH. destruct (isAlnum c) eqn:E; [now rewrite E | reflexivity].
Qed.

(** The names the export routes build are plain. *)
Lemma plainName_prefixed (c : ascii) (r s : string) :
  isSafeChar c = true -> allChars isSafeChar (String c r ++ s) = true ->
  (2 < String.length (String c r))%nat ->
  plainName (String c r ++ s) = true.
Proof.
  intros Hc Hall Hlen. unfold plainName. rewrite Hall.
  destruct r as [|c1 [|c2 r2]]; simpl in Hlen; try lia.
  simpl. destruct (Ascii.eqb c "."%char), (Ascii.eqb c1 "."%char);
    reflexivity.
Qed.

(** A text without separator splits into itself. *)
Lemma splitOn_none (sep : ascii -> bool) (s : string) :
  allChars (fun c => negb (sep c)) s = true -> splitOn sep s = [s].
Proof.
  induction s as [|c r IH]; simpl; [reflexivity|].
  intros H. apply Bool.andb_true_iff in H as [Hc Hr].
  apply Bool.negb_true_iff in Hc. now rewrite Hc, (IH Hr).
Qed.

Lemma safe_notSlash (c : ascii) :
  isSafeChar c = true -> negb (isSlash c) = true.
Proof.
  unfold isSafeChar, isSlash, isDigit. intros H.
  destruct (nat_of_ascii c =? 47)%nat eqn:E; [|reflexivity].
  apply Nat.eqb_eq in E. rewrite E in H. discriminate H.
Qed.

(** The path of a plain name under [exports] is in normal form. *)
Lemma plainPath_exports (filename : string) :
  plainName filename = true ->
  plainPath ("exports/" ++ filename) = true.
Proof.
  intros Hplain. unfold plainPath.
  assert (Hsplit : splitOn isSlash filename = [filename]).
  { apply splitOn_none. unfold plainName in Hplain.
    apply Bool.andb_true_iff in Hplain as [Hplain _].
    apply Bool.andb_true_iff in Hplain as [Hplain _].
    apply Bool.andb_true_iff in Hplain as [Hsafe _].
    exact (allChars_weaken _ _ _ safe_notSlash Hsafe). }
  simpl. rewrite Hsplit. simpl. now rewrite Hplain.
Qed.

(** X16: what the export writes, for a plain file name (one segment of
    letters, digits, underscores, hyphens and dots that is not empty and
    not a dot segment, as are the names the two export routes build).
    The file is written at [exports/<filename>], a path in normal form,
    and no file at another path in normal form changes; its only
    worksheet starts with the header row, and the rows after it give
    back, in order and one per contact, the name (column A) and number
    (column B) of every contact. *)
Theorem X16_export_round_trip (fs : FileSystem) (contacts : list Contact)
        (filename : string) :
  (forall groupName now,
     plainName (groupFilename groupName now) = true
     /\ plainName (contactsFilename now) = true)
  /\ (plainName filename = true ->
      let written := snd (generateExcelFile fs contacts filename) in
      let filePath := fst (generateExcelFile fs contacts filename) in
      filePath = ("exports/" ++ filename)%string
      /\ plainPath filePath = true
      /\ (forall q, plainPath q = true -> q <> filePath ->
            written q = fs q)
      /\ exists ws,
           written filePath = XlsxFile [ws]
           /\ hd_error (sheetRows ws) = Some headerRow
           /\ map nameAndNumber (tl (sheetRows ws))
              = map (fun c => Some (name c, Extractor.number c)) contacts).
Proof.
  split.
  - intros groupName now. split.
    + apply (plainName_prefixed "g" "roup-"); [reflexivity| |simpl; lia].
      change (allChars isSafeChar (groupFilename groupName now) = true).
      unfold groupFilename.
      rewrite !allChars_app, sanitize_safe, timestamp_safe. reflexivity.
    + apply (plainName_prefixed "a" "ll-contacts-"); [reflexivity| |simpl; lia].
      change (allChars isSafeChar (contactsFilename now) = true).
      unfold contactsFilename.
      rewrite !allChars_app, timestamp_safe. reflexivity.
  - intros Hplain. cbv zeta.
    assert (Hpath : fst (generateExcelFile fs contacts filename)
                    = ("exports/" ++ filename)%string) by reflexivity.
    split; [exact Hpath|].
    split; [rewrite Hpath; now apply plainPath_exports|].
    unfold generateExcelFile. simpl.
    split; [intros q _ Hq; now apply writeFile_other|].
    eexists. split; [apply writeFile_same|]. simpl.
    split; [reflexivity|]. rewrite map_map. reflexivity.
Qed.

Lemma X16_export_round_trip_witness :
  snd (generateExcelFile emptyDisk [degradedContact "15550001111@c.us"]
                         "group-Team-1700000000000.xlsx")
      "uploads/other.xlsx"
  = NoFile.
Proof.
  refine (proj1 (proj2 (proj2 (proj2 (X16_export_round_trip emptyDisk
                                 [degradedContact "15550001111@c.us"]
                                 "group-Team-1700000000000.xlsx")
                              eq_refl)))
                "uploads/other.xlsx" eq_refl _).
  discriminate.
Defined.

(** X17: the file names the export routes build are safe whatever the
    group is called: every character of
    [group-<sanitized name>-<clock>.xlsx] and of
    [all-contacts-<clock>.xlsx] is a letter, a digit, an underscore, a
    hyphen or a dot, so the name holds no path separator.  Sanitizing
    keeps the length of the group name, changes nothing that is already
    sanitized, and the download URL is the written path behind a
    slash. *)
Theorem X17_export_filenames (groupName : string) (now : N)
        (fs : FileSystem) (contacts : list Contact) :
  allChars isSafeChar (groupFilename groupName now) = true
  /\ allChars notSeparator (groupFilename groupName now) = true
  /\ allChars isSafeChar (contactsFilename now) = true
  /\ allChars notSeparator (contactsFilename now) = true
  /\ String.length (sanitize groupName) = String.length groupName
  /\ sanitize (sanitize groupName) = sanitize groupName
  /\ downloadUrlOf (groupFilename groupName now)
     = String "/" (fst (generateExcelFile fs contacts
                                          (groupFilename groupName now))).
Proof.
  assert (H1 : allChars isSafeChar (groupFilename groupName now) = true).
  { unfold groupFilename. rewrite !allChars_app, sanitize_safe, timestamp_safe.
    reflexivity. }
  assert (H2 : allChars isSafeChar (contactsFilename now) = true).
  { unfold contactsFilename. rewrite !allChars_app, timestamp_safe.
    reflexivity. }
  split; [exact H1|]. split; [exact (allChars_weaken _ _ _ safe_notSeparator H1)|].
  split; [exact H2|]. split; [exact (allChars_weaken _ _ _ safe_notSeparator H2)|].
  split; [apply sanitize_length|].
  split; [apply sanitize_idempotent | reflexivity].
Qed.

End ExporterTheorems.

(* ------------------------------------------------------------------ *)
(** ** The directory routes *)

Section RouteTheorems.
Import Vocabulary Scenarios Observations MoreScenarios Directory Routes.


Lemma Forall2_In_l {A B : Type} (R : A -> B -> Prop) (l : list A)
      (bs : list B) (a : A) :
  Forall2 R l bs -> In a l -> exists b, R a b.
Proof.
  induction 1 as [|x y l1 l2 Hxy Hrest IH]; intros Hin; [contradiction|].
  destruct Hin as [<-|Hin]; [now exists y | now apply IH].
Qed.

(** X18: [GET /api/groups/:groupId/contacts] answers 503 without asking
    the client anything when the client is not ready; otherwise it runs
    the extraction and answers 200 with its result after the extraction's
    last call, also when that result is a failure: this route never
    answers 500. *)
Theorem X18_group_contacts_route (env : Env) (isClientReady : bool)
        (gid : string) (h : History) :
  (isClientReady = false ->
   getGroupContacts env isClientReady gid h
   = (Ok {| code := 503; payload := notReady |}, [Respond 503]))
  /\ (isClientReady = true ->
      exists result tr,
        extractGroupContacts env gid h = (Ok result, tr)
        /\ getGroupContacts env isClientReady gid h
           = (Ok {| code := 200; payload := PGroupContacts result |},
              tr ++ [Respond 200]))
  /\ (exists r tr,
        getGroupContacts env isClientReady gid h = (Ok r, tr)
        /\ (code r = 200%nat \/ code r = 503%nat)
        /\ countOf isRespond tr = 1%nat).
Proof.
  destruct (extractGroupContacts_returns env gid h)
    as [result [tr [Hrun [Hresp _]]]].
  assert (Hready : getGroupContacts env true gid h
                   = (Ok {| code := 200; payload := PGroupContacts result |},
                      tr ++ [Respond 200])).
  { unfold getGroupContacts, tryCatch. simpl. unfold bind at 1.
    rewrite Hrun. reflexivity. }
  split; [intros ->; reflexivity|]. split.
  - intros ->. now exists result, tr.
  - destruct isClientReady.
    + eexists; eexists; split; [exact Hready|]. split; [now left|].
      now rewrite countOf_app, Hresp.
    + eexists; eexists; split; [reflexivity|]. split; [now right|reflexivity].
Qed.

Lemma X18_group_contacts_route_witness :
  getGroupContacts noChatWorld true "120363000000000000@g.us" []
  = (Ok {| code := 200; payload := PGroupContacts (Failed "chat not found") |},
     [GetChatById "120363000000000000@g.us"; Respond 200]).
Proof.
  destruct (proj1 (proj2 (X18_group_contacts_route noChatWorld true
                            "120363000000000000@g.us" [])) eq_refl)
    as [result [tr [Hrun Hroute]]].
  vm_compute in Hrun. injection Hrun as <- <-. exact Hroute.
Defined.




(* ------------------------------------------------------------------ *)
(** ** Saved contacts and groups *)

Lemma mapExc_Ok {A B : Type} (f : A -> Exc B) (l : list A) (bs : list B) :
  mapExc f l = Ok bs -> Forall2 (fun a b => f a = Ok b) l bs.
Proof.
  revert bs. induction l as [|a l IH]; simpl; intros bs H.
  - injection H as <-. constructor.
  - destruct (f a) as [b|e] eqn:Ha; [|discriminate].
    destruct (mapExc f l) as [bs'|e]; [|discriminate].
    injection H as <-. constructor; auto.
Qed.

Lemma mapExc_Throw {A B : Type} (f : A -> Exc B) (l : list A) (e : Error) :
  mapExc f l = Throw e -> exists a, In a l /\ f a = Throw e.
Proof.
  induction l as [|a l IH]; simpl; intros H; [discriminate|].
  destruct (f a) as [b|e'] eqn:Ha.
  - destruct (mapExc f l) as [bs'|e'']; [discriminate|].
    injection H as ->. destruct (IH eq_refl) as [x [Hx Hf]].
    exists x. split; [now right | exact Hf].
  - injection H as ->. exists a. split; [now left | exact Ha].
Qed.

Lemma mapExc_total {A B : Type} (f : A -> Exc B) (l : list A) :
  (forall a, In a l -> exists b, f a = Ok b) -> exists bs, mapExc f l = Ok bs.
Proof.
  induction l as [|a l IH]; simpl; intros H; [now exists []|].
  destruct (H a (or_introl eq_refl)) as [b Hb]. rewrite Hb.
  destruct IH as [bs Hbs]; [intros x Hx; apply H; now right|].
  rewrite Hbs. now exists (b :: bs).
Qed.

Lemma Forall2_length_eq {A B : Type} (R : A -> B -> Prop) (l : list A)
      (bs : list B) :
  Forall2 R l bs -> List.length bs = List.length l.
Proof. induction 1; simpl; congruence. Qed.

(** X20: [extractAllContacts] never throws.  When it succeeds, the count
    it reports is the number of contacts listed, they are the account's
    saved contacts with a number, one record each and in the client's
    order, every one with [isMyContact] set, a non-empty number and a
    non-empty name.  It fails either with the client's error or because a
    saved contact with a number has no [id]; one such contact fails the
    whole extraction, while a contact that is filtered out may lack an
    [id] without harm. *)
Theorem X20_saved_contacts (answer : Exc (list PlatformContact)) :
  (forall e, answer = Throw e -> extractAllContacts answer = ContactsFailed e)
  /\ (forall all count saved,
        answer = Ok all ->
        extractAllContacts answer = ContactsFound count saved ->
        count = List.length saved
        /\ Forall2 (fun pc c =>
                      (exists s, pc_id pc = Some s /\ id c = IdText s)
                      /\ pc_number pc = Some (Extractor.number c)
                      /\ isBusiness c = pc_isBusiness pc)
                   (filter keepSaved all) saved
        /\ Forall (fun c => isMyContact c = true
                            /\ Extractor.number c <> EmptyString
                            /\ name c <> EmptyString) saved)
  /\ (forall all,
        answer = Ok all ->
        ((exists e, extractAllContacts answer = ContactsFailed e)
         <-> exists pc, In pc all /\ keepSaved pc = true /\ pc_id pc = None)).
Proof.
  split; [intros e ->; reflexivity|]. split.
  - intros all count saved -> H. unfold extractAllContacts in H.
    destruct (mapExc formatSaved (filter keepSaved all)) as [l|e] eqn:Hm;
      [|discriminate].
    injection H as <- <-. split; [reflexivity|].
    apply mapExc_Ok in Hm.
    assert (Hk : Forall (fun pc => keepSaved pc = true) (filter keepSaved all))
      by (apply Forall_forall; intros pc Hpc; now apply filter_In in Hpc).
    induction Hm as [|pc c l1 l2 Hf Hrest IH]; [split; constructor|].
    inversion Hk as [|? ? Hkp Hkr]; subst.
    destruct (IH Hkr) as [IH1 IH2].
    unfold formatSaved in Hf.
    destruct (pc_id pc) as [s|] eqn:Hid; [|discriminate].
    injection Hf as <-.
    unfold keepSaved in Hkp. apply Bool.andb_true_iff in Hkp as [Hmy Hnum].
    unfold someText in Hnum.
    destruct (pc_number pc) as [[|ch n]|] eqn:Hn; try discriminate.
    split; constructor; simpl; auto.
    + split; [exists s; split; [exact Hid | reflexivity]|].
      split; [exact Hn | reflexivity].
    + repeat split; try assumption; try discriminate.
      apply orElse_nonEmpty. now apply orElse_nonEmpty.
  - intros all ->. unfold extractAllContacts.
    destruct (mapExc formatSaved (filter keepSaved all)) as [l|e] eqn:Hm.
    + split; [intros [e He]; discriminate He|].
      intros [pc [Hin [Hk Hid]]].
      apply mapExc_Ok in Hm.
      assert (Hpc : In pc (filter keepSaved all)) by now apply filter_In.
      destruct (Forall2_In_l _ _ _ _ Hm Hpc) as [c Hc].
      unfold formatSaved in Hc. rewrite Hid in Hc. discriminate.
    + split; [|intros _; now exists e]. intros _.
      apply mapExc_Throw in Hm as [pc [Hin Hf]].
      apply filter_In in Hin as [Hin Hk].
      exists pc. repeat split; try assumption.
      unfold formatSaved in Hf. destruct (pc_id pc); [discriminate|reflexivity].
Qed.

Lemma X20_saved_contacts_witness :
  extractAllContacts (Ok [stranger; ada])
  = ContactsFound 1
      [ {| id := IdText "15550001111@c.us";
           Extractor.number := "15550001111";
           name := "Ada"; isMyContact := true; isBusiness := Some false |} ]
  /\ 1%nat = List.length
               [ {| id := IdText "15550001111@c.us";
                    Extractor.number := "15550001111";
                    name := "Ada"; isMyContact := true;
                    isBusiness := Some false |} ].
Proof.
  split; [reflexivity|].
  exact (proj1 (proj1 (proj2 (X20_saved_contacts (Ok [stranger; ada])))
                      [stranger; ada] 1%nat _ eq_refl eq_refl)).
Defined.

(** X21: [extractAllGroups] never throws.  When it succeeds, the count it
    reports is the number of groups listed, and they are, one record each
    and in the client's order, the chats whose id ends in [@g.us] or that
    carry group metadata.  The participant count of a group is the text
    'Unknown' exactly when its [participants] is falsy, and the length
    otherwise, so an empty participant array counts 0.  It fails either
    with the client's error or because a chat that carries group metadata
    has no [id]. *)
Theorem X21_groups (answer : Exc (list ChatEntry)) :
  (forall e, answer = Throw e -> extractAllGroups answer = GroupsFailed e)
  /\ (forall all count groups,
        answer = Ok all ->
        extractAllGroups answer = GroupsFound count groups ->
        count = List.length groups
        /\ Forall2 (fun chat g =>
                      ce_id chat = Some (groupId g)
                      /\ groupName g = ce_name chat
                      /\ (endsWith "@g.us" (groupId g) = true
                          \/ ce_hasGroupMetadata chat = true)
                      /\ (participantCount g = UnknownCount
                          <-> ce_participants chat = Falsy)
                      /\ (forall n, ce_participants chat = WithLength n ->
                                    participantCount g = Count n))
                   (filter isGroup all) groups)
  /\ (forall all,
        answer = Ok all ->
        ((exists e, extractAllGroups answer = GroupsFailed e)
         <-> exists chat,
               In chat all /\ ce_hasGroupMetadata chat = true
               /\ ce_id chat = None)).
Proof.
  split; [intros e ->; reflexivity|]. split.
  - intros all count groups -> H. unfold extractAllGroups in H.
    destruct (mapExc formatGroup (filter isGroup all)) as [l|e] eqn:Hm;
      [|discriminate].
    injection H as <- <-. split; [reflexivity|].
    apply mapExc_Ok in Hm.
    assert (Hk : Forall (fun chat => isGroup chat = true) (filter isGroup all))
      by (apply Forall_forall; intros c Hc; now apply filter_In in Hc).
    induction Hm as [|chat g l1 l2 Hf Hrest IH]; [constructor|].
    inversion Hk as [|? ? Hkp Hkr]; subst.
    constructor; [|now apply IH].
    unfold formatGroup in Hf.
    destruct (ce_id chat) as [s|] eqn:Hid; [|discriminate].
    injection Hf as <-. simpl.
    split; [reflexivity|]. split; [reflexivity|]. split.
    + unfold isGroup in Hkp. rewrite Hid in Hkp.
      apply Bool.orb_true_iff in Hkp as [Hkp|Hkp]; [left | now right].
      unfold someText in Hkp. destruct (isEmpty s); [discriminate|exact Hkp].
    + split.
      * destruct (ce_participants chat); split; intros Hx;
          (discriminate Hx || reflexivity).
      * intros n Hn. now rewrite Hn.
  - intros all ->. unfold extractAllGroups.
    destruct (mapExc formatGroup (filter isGroup all)) as [l|e] eqn:Hm.
    + split; [intros [e He]; discriminate He|].
      intros [chat [Hin [Hmeta Hid]]].
      apply mapExc_Ok in Hm.
      assert (Hc : In chat (filter isGroup all)).
      { apply filter_In. split; [exact Hin|].
        unfold isGroup. rewrite Hmeta. apply Bool.orb_true_r. }
      destruct (Forall2_In_l _ _ _ _ Hm Hc) as [g Hg].
      unfold formatGroup in Hg. rewrite Hid in Hg. discriminate.
    + split; [|intros _; now exists e]. intros _.
      apply mapExc_Throw in Hm as [chat [Hin Hf]].
      apply filter_In in Hin as [Hin Hk].
      unfold formatGroup in Hf.
      destruct (ce_id chat) eqn:Hid; [discriminate|].
      exists chat. repeat split; try assumption.
      unfold isGroup in Hk. rewrite Hid in Hk. exact Hk.
Qed.

Lemma X21_groups_witness :
  extractAllGroups (Ok [directChat; teamChat])
  = GroupsFound 1
      [ {| groupId := "120363000000000000@g.us"; groupName := "Team";
           participantCount := Count 3 |} ]
  /\ 1%nat = List.length
               [ {| groupId := "120363000000000000@g.us"; groupName := "Team";
                    participantCount := Count 3 |} ].
Proof.
  split; [reflexivity|].
  exact (proj1 (proj1 (proj2 (X21_groups (Ok [directChat; teamChat])))
                      [directChat; teamChat] 1%nat _ eq_refl eq_refl)).
Defined.



End RouteTheorems.
